(** * Export archives and reloaded layers: a model of [keras/export/export_lib.py]

    The development embeds the resource-tracking and endpoint-registration
    code of [export_lib.py]:

    - [_list_variables_used_by_fns], the identity-deduplicating collector;
    - [ExportArchive]: [track], [add_endpoint], [add_variable_collection],
      [_get_concrete_fn], [_filter_and_track_resources], [write_out];
    - [TFSMLayer]: endpoint resolution in [__init__], dispatch in [call],
      and [get_config];
    - [export_model] with [_get_save_spec], and [_print_signature].

    Python objects are handles; a variable is known by its identity only.
    Methods that mutate [self] are programs of a state-and-exception monad
    whose final state is the state at the point where the exception was
    raised, so that partial updates are visible.  What the TensorFlow
    runtime does (tracing, the attributes of its objects, the names a
    trackable object refuses) is a parameter of the development. *)

From stdpp Require Import base tactics option list gmap sets strings pretty.

Open Scope string_scope.
Open Scope list_scope.

(** ** Variables and their identities *)

(** A variable handle.  [NativeVar] handles are created by layers,
    [TfMirror] handles by the archive when it wraps a backend variable in a
    new [tf.Variable]; the serial number makes each such object distinct. *)
Inductive var :=
| NativeVar (n : positive)
| TfMirror (serial : positive).

Global Instance var_eq_dec : EqDecision var.
Proof. solve_decision. Defined.

Definition var_to_sum (v : var) : positive + positive :=
  match v with NativeVar n => inl n | TfMirror n => inr n end.

Definition var_of_sum (s : positive + positive) : var :=
  match s with inl n => NativeVar n | inr n => TfMirror n end.

Global Instance var_countable : Countable var.
Proof.
  apply (inj_countable' var_to_sum var_of_sum).
  by intros [].
Defined.

(** Python's [id(v)]: an integer that is different for different objects. *)
Definition py_id (v : var) : positive := encode v.

(** ** Input signatures *)

(** A nest of [tf.TensorSpec]; [None] in a shape is an open dimension. *)
#[local] Unset Elimination Schemes.
Inductive Spec :=
| TensorSpec (shape : list (option N)) (dtype : string)
| ListSpec (elems : list Spec)
| DictSpec (items : list (string * Spec)).
#[local] Set Elimination Schemes.

(** The [input_signature] argument: one entry per positional argument. *)
Notation Signature := (list Spec) (only parsing).

(** Truth value of an optional list argument: [None] and [[]] are false. *)
Definition truthy {A} (x : option (list A)) : bool :=
  match x with
  | Some (_ :: _) => true
  | _ => false
  end.

(** Truth value of an optional string: [None] and [""] are false. *)
Definition truthy_str (x : option string) : bool :=
  match x with
  | Some (String _ _) => true
  | _ => false
  end.

(** ** Resources handed to [track] *)

Module Resource.

(** Class of an object found below a tracked root. *)
Inductive Kind :=
| IntegerLookup
| StringLookup
| TextVectorization
| OtherTrackable.

Record Descendant := {
  descendant_id : positive;
  kind : Kind;
}.

(** What [track] and [_filter_and_track_resources] read of a resource. *)
Record t := {
  resource_id : positive;
  (** [isinstance(resource, tf.__internal__.tracking.Trackable)] *)
  is_tf_trackable : bool;
  (** [isinstance(resource, backend.jax.layer.JaxLayer)] *)
  is_jax_layer : bool;
  (** [isinstance(resource, Layer)] *)
  is_layer : bool;
  built : bool;
  variables : list var;
  trainable_variables : list var;
  non_trainable_variables : list var;
  (** [tf.train.TrackableView(root).descendants()] *)
  descendants : list Descendant;
}.

(** [isinstance(trackable, (IntegerLookup, StringLookup,
    TextVectorization))] *)
Definition is_lookup (d : Descendant) : bool :=
  match kind d with
  | OtherTrackable => false
  | _ => true
  end.

End Resource.

(** ** The TensorFlow runtime, as seen from this module

    The tracing compiler and the objects it produces are external.  The
    module only observes them through the attributes and methods below.
    [Fn] is the type of the objects it handles: function objects in the
    first place, and also what TensorFlow makes of a list that is set as
    an attribute of a trackable object, and any other object that a
    reloaded artifact has as an attribute. *)
Module TF.

(** Why [setattr(obj, name, value)] raises on a trackable object: [name]
    is a property without a setter, as [_object_identifier] (an
    [AttributeError]), or it takes values of another type only, as
    [__class__] and [__dict__] (a [TypeError]). *)
Inductive Refusal := ReadOnly | WrongType.

Class TFRuntime (Fn : Type) := {
  (** [tf.__version__] *)
  tf_version : string;
  (** [tf.function(fn, input_signature=sig)]; [None] when it raises. *)
  tf_function : Fn → Signature → option Fn;
  (** The JAX path of [add_endpoint]: stateless wrapper, [jax2tf]
      conversion, stateful wrapper and [tf.function], for the backend
      variables the archive holds at that moment. *)
  jax2tf_function : list var → Fn → Signature → option Fn;
  (** [isinstance(fn, tf.types.experimental.GenericFunction)] *)
  is_generic_function : Fn → bool;
  (** [fn._list_all_concrete_functions()] *)
  _list_all_concrete_functions : Fn → list Fn;
  (** [fn._trackable_children("saved_model")], a dict in insertion order *)
  _trackable_children : Fn → list (string * Fn);
  (** [fn.concrete_functions] when [hasattr(fn, "concrete_functions")] *)
  concrete_functions : Fn → option (list Fn);
  (** [fn.get_concrete_function()] when the attribute exists: the trace
      the call returns, when it returns. *)
  get_concrete_function : Fn → option Fn;
  (** [concrete_fn.trainable_variables] *)
  trainable_variables : Fn → list var;
  (** [concrete_fn.variables] *)
  variables : Fn → list var;
  (** The call [fn.get_concrete_function()] raises: it traces [fn], and
      tracing runs the Python function, which may fail. *)
  get_concrete_function_raises : Fn → bool;
  (** [hasattr(obj, "trainable_variables")] and
      [hasattr(obj, "variables")]: traces and the wrappers of lists have
      both, a variable or a signature map has neither. *)
  has_trainable_variables : Fn → bool;
  has_variables : Fn → bool;
  (** The names that [setattr(self._tf_trackable, name, value)]
      refuses. *)
  setattr_refusal : string → option Refusal;
  (** The names that [ExportArchive] assigns of its own are not among
      them. *)
  own_names_accepted :
    Forall (λ name, setattr_refusal name = None)
      ["variables"; "trainable_variables"; "non_trainable_variables";
       "_all_variables"; "_misc_assets"];
  (** What the trackable object holds once a list of variables, or a list
      of lookup layers, was set as one of its attributes. *)
  list_wrapper : list var → Fn;
  assets_wrapper : list Resource.Descendant → Fn;
}.
End TF.
Export (hints) TF.

(** ** [_list_variables_used_by_fns]

    The function on objects that answer: what its loops compute when no
    call or attribute access raises.  [Collector] below is the function
    with the exceptions it can meet. *)

Module Collect.
Import TF.
Section collect.
Context {Fn : Type} `{!TFRuntime Fn}.

(** The four local variables of the function. *)
Record Locals := {
  trainable_variables_ : list var;
  non_trainable_variables_ : list var;
  trainable_variables_ids : gset positive;
  non_trainable_variables_ids : gset positive;
}.

Definition init : Locals :=
  {| trainable_variables_ := [];
     non_trainable_variables_ := [];
     trainable_variables_ids := ∅;
     non_trainable_variables_ids := ∅ |}.

(** The three-way [hasattr] test at the head of the outer loop. *)
Definition concrete_functions_of (fn : Fn) : list Fn :=
  match concrete_functions fn with
  | Some cfs => cfs
  | None =>
      match get_concrete_function fn with
      | Some cf => [cf]
      | None => [fn]
      end
  end.

(** Body of [for v in concrete_fn.trainable_variables]. *)
Definition visit_trainable (s : Locals) (v : var) : Locals :=
  if decide (py_id v ∉ trainable_variables_ids s) then
    {| trainable_variables_ := trainable_variables_ s ++ [v];
       non_trainable_variables_ := non_trainable_variables_ s;
       trainable_variables_ids := {[py_id v]} ∪ trainable_variables_ids s;
       non_trainable_variables_ids := non_trainable_variables_ids s |}
  else s.

(** Body of [for v in concrete_fn.variables]. *)
Definition visit_variable (s : Locals) (v : var) : Locals :=
  if decide ((py_id v ∉ trainable_variables_ids s)
             ∧ (py_id v ∉ non_trainable_variables_ids s)) then
    {| trainable_variables_ := trainable_variables_ s;
       non_trainable_variables_ := non_trainable_variables_ s ++ [v];
       trainable_variables_ids := trainable_variables_ids s;
       non_trainable_variables_ids :=
         {[py_id v]} ∪ non_trainable_variables_ids s |}
  else s.

(** Body of [for concrete_fn in concrete_functions]. *)
Definition visit_concrete (s : Locals) (concrete_fn : Fn) : Locals :=
  foldl visit_variable
    (foldl visit_trainable s (trainable_variables concrete_fn))
    (variables concrete_fn).

(** Body of [for fn in fns]. *)
Definition visit_fn (s : Locals) (fn : Fn) : Locals :=
  foldl visit_concrete s (concrete_functions_of fn).

Definition _list_variables_used_by_fns (fns : list Fn)
  : list var * list var :=
  let s := foldl visit_fn init fns in
  (trainable_variables_ s, non_trainable_variables_ s).

(** *** What the loops look at, in order

    A sighting is a variable together with the classification under which
    it is met: [true] in a trace's [trainable_variables], [false] in its
    [variables]. *)
Definition sightings_of_concrete (concrete_fn : Fn) : list (var * bool) :=
  ((λ v, (v, true)) <$> trainable_variables concrete_fn)
  ++ ((λ v, (v, false)) <$> variables concrete_fn).

Definition traces (fns : list Fn) : list Fn :=
  fns ≫= concrete_functions_of.

Definition sightings (fns : list Fn) : list (var * bool) :=
  traces fns ≫= sightings_of_concrete.

(** Classification of the first sighting of [v], if there is one. *)
Fixpoint first_class (ev : list (var * bool)) (v : var) : option bool :=
  match ev with
  | [] => None
  | (w, c) :: ev => if decide (w = v) then Some c else first_class ev v
  end.

(** First occurrences of a list, in order, skipping what was [seen]. *)
Fixpoint first_occurrences (seen : gset positive) (l : list var)
  : list var :=
  match l with
  | [] => []
  | v :: l =>
      if decide (py_id v ∈ seen) then first_occurrences seen l
      else v :: first_occurrences ({[py_id v]} ∪ seen) l
  end.

(** The collect operation as the specification words it: a sighting is
    appended to the partition of its classification only if its identity
    was not seen in either partition. *)
Fixpoint collect (seen : gset positive) (ev : list (var * bool))
  : list var * list var :=
  match ev with
  | [] => ([], [])
  | (v, c) :: ev =>
      if decide (py_id v ∈ seen) then collect seen ev
      else
        let r := collect ({[py_id v]} ∪ seen) ev in
        if c then (v :: r.1, r.2) else (r.1, v :: r.2)
  end.

(** One step of the loops, on a sighting. *)
Definition visit_sighting (s : Locals) (e : var * bool) : Locals :=
  if e.2 then visit_trainable s e.1 else visit_variable s e.1.

(** The variables that some trace lists as trainable, in order. *)
Definition listed_trainable (ev : list (var * bool)) : list var :=
  (filter (λ e, e.2 = true) ev).*1.

(** No trace lists as trainable an identity whose first sighting was
    non-trainable. *)
Definition consistent (ev : list (var * bool)) : Prop :=
  Forall (λ v, first_class ev v = Some false → (v, true) ∉ ev) ev.*1.

Global Instance consistent_dec ev : Decision (consistent ev).
Proof. unfold consistent. apply _. Defined.

End collect.
End Collect.

(** ** Exceptions and stateful methods *)

(** The numeric backend, [backend.backend()]. *)
Inductive Backend := tensorflow | jax | torch | numpy.

Global Instance Backend_eq_dec : EqDecision Backend.
Proof. solve_decision. Defined.

(** The exceptions of the module, by the name the specification gives
    them, and those of the host language and of the runtime. *)
Inductive Error :=
| UnsupportedRuntime
| InvalidResourceType
| NotBuilt
| DuplicateEndpointName (name : string)
| UnspecializedFunction
| MissingSignature
| NoEndpoints
| EndpointNotFound (endpoint : string) (available : list string)
| RuntimeFailure
| PyAttributeError (attr : string)
| PyTypeError
| PyIndexError.

Global Instance Error_eq_dec : EqDecision Error.
Proof. solve_decision. Defined.

Inductive outcome (A : Type) :=
| Return (a : A)
| Raise (e : Error).
Global Arguments Return {A} a.
Global Arguments Raise {A} e.

(** A method on a mutable object of type [S]: its outcome, and the object
    as the method leaves it (also when it raises). *)
Definition M (S A : Type) : Type := S → outcome A * S.

Global Instance M_ret {S} : MRet (M S) := λ A a s, (Return a, s).

Global Instance M_bind {S} : MBind (M S) := λ A B f m s,
  match m s with
  | (Return a, s') => f a s'
  | (Raise e, s') => (Raise e, s')
  end.

Definition raise {S A} (e : Error) : M S A := λ s, (Raise e, s).
Definition gets {S A} (f : S → A) : M S A := λ s, (Return (f s), s).
Definition modify {S} (f : S → S) : M S unit := λ s, (Return (), f s).

(** [if cond: raise e] *)
Definition raise_if {S} (cond : bool) (e : Error) : M S unit :=
  if cond then raise e else mret ().

(** The value of an external call that may raise. *)
Definition external {S A} (r : option A) : M S A :=
  match r with
  | Some a => mret a
  | None => raise RuntimeFailure
  end.

(** [for x in l: body(x)] *)
Fixpoint for_each {S A} (l : list A) (body : A → M S unit) : M S unit :=
  match l with
  | [] => mret ()
  | x :: l => body x;; for_each l body
  end.

(** [[f(x) for x in l]] *)
Fixpoint comprehension {S A B} (l : list A) (f : A → M S B) : M S (list B) :=
  match l with
  | [] => mret []
  | x :: l => y ← f x; ys ← comprehension l f; mret (y :: ys)
  end.

(** The value of a call that does not touch the object. *)
Definition lift {S A} (o : outcome A) : M S A := λ s, (o, s).

(** ** [_list_variables_used_by_fns], with its exceptions

    A call of the collector can raise in three places:
    [fn.get_concrete_function()] traces [fn], which runs the Python
    function, and [concrete_fn.trainable_variables] and
    [concrete_fn.variables] are read on whatever the function was
    handed.  The local variables are lost with the exception. *)
Module Collector.
Import TF.
Section collector.
Context {Fn : Type} `{!TFRuntime Fn}.

(** The three-way [hasattr] test at the head of the outer loop, with the
    call it makes. *)
Definition concrete_functions_of (fn : Fn) : M Collect.Locals (list Fn) :=
  match concrete_functions fn with
  | Some cfs => mret cfs
  | None =>
      match get_concrete_function fn with
      | Some cf =>
          if get_concrete_function_raises fn then raise RuntimeFailure
          else mret [cf]
      | None => mret [fn]
      end
  end.

(** Body of [for concrete_fn in concrete_functions]: the two inner
    loops, each after the attribute it iterates over is read. *)
Definition visit_concrete (concrete_fn : Fn) : M Collect.Locals unit :=
  raise_if (negb (has_trainable_variables concrete_fn))
    (PyAttributeError "trainable_variables");;
  modify (λ s,
    foldl Collect.visit_trainable s (trainable_variables concrete_fn));;
  raise_if (negb (has_variables concrete_fn))
    (PyAttributeError "variables");;
  modify (λ s, foldl Collect.visit_variable s (variables concrete_fn)).

(** Body of [for fn in fns]. *)
Definition visit_fn (fn : Fn) : M Collect.Locals unit :=
  concrete_functions ← concrete_functions_of fn;
  for_each concrete_functions visit_concrete.

Definition _list_variables_used_by_fns (fns : list Fn)
  : outcome (list var * list var) :=
  match for_each fns visit_fn Collect.init with
  | (Return _, s) =>
      Return (Collect.trainable_variables_ s,
              Collect.non_trainable_variables_ s)
  | (Raise e, _) => Raise e
  end.

(** The exceptions of the collector: of a trace that fails, and of an
    object that has no variables to list. *)
Definition collector_error (e : Error) : Prop :=
  e = RuntimeFailure
  ∨ e = PyAttributeError "trainable_variables"
  ∨ e = PyAttributeError "variables".

(** The object has the two attributes that the inner loops read. *)
Definition listable (concrete_fn : Fn) : bool :=
  has_trainable_variables concrete_fn && has_variables concrete_fn.

(** Nothing raises while the collector visits [fn]. *)
Definition answers (fn : Fn) : bool :=
  match concrete_functions fn with
  | Some cfs => forallb listable cfs
  | None =>
      match get_concrete_function fn with
      | Some cf => negb (get_concrete_function_raises fn) && listable cf
      | None => listable fn
      end
  end.

End collector.
End Collector.

(** ** Dicts

    A [dict] keeps its keys in the order of their insertion. *)
Module Dict.

(** [d[key] = value]: the value of an existing key is replaced in place,
    a new key goes last. *)
Fixpoint setitem {V} (d : list (string * V)) (key : string) (value : V)
  : list (string * V) :=
  match d with
  | [] => [(key, value)]
  | (k, v) :: d =>
      if decide (k = key) then (key, value) :: d
      else (k, v) :: setitem d key value
  end.

(** [d[key]] when [key in d] *)
Fixpoint getitem {V} (d : list (string * V)) (key : string) : option V :=
  match d with
  | [] => None
  | (k, v) :: d => if decide (k = key) then Some v else getitem d key
  end.

End Dict.

(** ** [ExportArchive] *)

Module ExportArchive.
Section archive.
Context {Fn : Type} `{!TF.TFRuntime Fn}.
(** [backend.backend()], fixed for the life of the process. *)
Variable backend : Backend.

(** A value held by an attribute of [self._tf_trackable].  Endpoints are
    set as attributes of that object under their own name, next to the
    variable lists, so all of them live in one name space.  [AFunction]
    holds an object of the runtime: the function of an endpoint, or what
    [_get_concrete_fn] takes for its first trace. *)
Inductive Attr :=
| AVariables (vs : list var)
| AFunction (f : Fn)
| AAssets (assets : list Resource.Descendant).

(** The object that an attribute value is for the runtime: a list that
    is set as an attribute of a trackable object is kept in a wrapper,
    which is a trackable object itself. *)
Definition as_object (a : Attr) : Fn :=
  match a with
  | AFunction f => f
  | AVariables vs => TF.list_wrapper vs
  | AAssets assets => TF.assets_wrapper assets
  end.

Record t := {
  _endpoint_names : list string;
  _endpoint_signatures : gmap string Signature;
  tensorflow_version : string;
  _tf_trackable : gmap string Attr;
  (** The three lists below are only created and used on the JAX
      backend. *)
  _backend_variables : list var;
  _backend_trainable_variables : list var;
  _backend_non_trainable_variables : list var;
  (** [None] until the first call of [track] creates the attribute. *)
  _tracked : option (list Resource.t);
  (** Serial number of the next [tf.Variable] object to be created. *)
  next_serial : positive;
}.

Definition set_endpoint_names (f : list string → list string) (self : t) : t :=
  {| _endpoint_names := f (_endpoint_names self);
     _endpoint_signatures := _endpoint_signatures self;
     tensorflow_version := tensorflow_version self;
     _tf_trackable := _tf_trackable self;
     _backend_variables := _backend_variables self;
     _backend_trainable_variables := _backend_trainable_variables self;
     _backend_non_trainable_variables :=
       _backend_non_trainable_variables self;
     _tracked := _tracked self;
     next_serial := next_serial self |}.

Definition set_endpoint_signatures
    (f : gmap string Signature → gmap string Signature) (self : t) : t :=
  {| _endpoint_names := _endpoint_names self;
     _endpoint_signatures := f (_endpoint_signatures self);
     tensorflow_version := tensorflow_version self;
     _tf_trackable := _tf_trackable self;
     _backend_variables := _backend_variables self;
     _backend_trainable_variables := _backend_trainable_variables self;
     _backend_non_trainable_variables :=
       _backend_non_trainable_variables self;
     _tracked := _tracked self;
     next_serial := next_serial self |}.

Definition set_tf_trackable
    (f : gmap string Attr → gmap string Attr) (self : t) : t :=
  {| _endpoint_names := _endpoint_names self;
     _endpoint_signatures := _endpoint_signatures self;
     tensorflow_version := tensorflow_version self;
     _tf_trackable := f (_tf_trackable self);
     _backend_variables := _backend_variables self;
     _backend_trainable_variables := _backend_trainable_variables self;
     _backend_non_trainable_variables :=
       _backend_non_trainable_variables self;
     _tracked := _tracked self;
     next_serial := next_serial self |}.

Definition set_backend_lists (bv btv bntv : list var) (self : t) : t :=
  {| _endpoint_names := _endpoint_names self;
     _endpoint_signatures := _endpoint_signatures self;
     tensorflow_version := tensorflow_version self;
     _tf_trackable := _tf_trackable self;
     _backend_variables := bv;
     _backend_trainable_variables := btv;
     _backend_non_trainable_variables := bntv;
     _tracked := _tracked self;
     next_serial := next_serial self |}.

Definition set_tracked (l : list Resource.t) (self : t) : t :=
  {| _endpoint_names := _endpoint_names self;
     _endpoint_signatures := _endpoint_signatures self;
     tensorflow_version := tensorflow_version self;
     _tf_trackable := _tf_trackable self;
     _backend_variables := _backend_variables self;
     _backend_trainable_variables := _backend_trainable_variables self;
     _backend_non_trainable_variables :=
       _backend_non_trainable_variables self;
     _tracked := Some l;
     next_serial := next_serial self |}.

Definition set_next_serial (n : positive) (self : t) : t :=
  {| _endpoint_names := _endpoint_names self;
     _endpoint_signatures := _endpoint_signatures self;
     tensorflow_version := tensorflow_version self;
     _tf_trackable := _tf_trackable self;
     _backend_variables := _backend_variables self;
     _backend_trainable_variables := _backend_trainable_variables self;
     _backend_non_trainable_variables :=
       _backend_non_trainable_variables self;
     _tracked := _tracked self;
     next_serial := n |}.

(** [ExportArchive()].  The attributes are set before the backend is
    checked, but an archive only comes into being when the check
    passes. *)
Definition __init__ : outcome t :=
  let self :=
    {| _endpoint_names := [];
       _endpoint_signatures := ∅;
       tensorflow_version := TF.tf_version;
       _tf_trackable :=
         <["non_trainable_variables" := AVariables []]>
           (<["trainable_variables" := AVariables []]>
              (<["variables" := AVariables []]> ∅));
       _backend_variables := [];
       _backend_trainable_variables := [];
       _backend_non_trainable_variables := [];
       _tracked := None;
       next_serial := 1%positive |} in
  if decide (backend ≠ tensorflow ∧ backend ≠ jax)
  then Raise UnsupportedRuntime
  else Return self.

(** [getattr(self._tf_trackable, name)] *)
Definition getattr (name : string) : M t Attr := λ self,
  match _tf_trackable self !! name with
  | Some a => (Return a, self)
  | None => (Raise (PyAttributeError name), self)
  end.

(** [self._tf_trackable.<name> = value], for the names that the class
    assigns of its own. *)
Definition assign (name : string) (value : Attr) : M t unit :=
  modify (set_tf_trackable (<[name := value]>)).

(** The exception of a refused [setattr]. *)
Definition refusal_error (name : string) (why : TF.Refusal) : Error :=
  match why with
  | TF.ReadOnly => PyAttributeError name
  | TF.WrongType => PyTypeError
  end.

(** [setattr(self._tf_trackable, name, value)] for a name that the caller
    chose: the object refuses some names, and raises. *)
Definition setattr (name : string) (value : Attr) : M t unit :=
  match TF.setattr_refusal name with
  | Some why => raise (refusal_error name why)
  | None => assign name value
  end.

(** The properties [variables], [trainable_variables] and
    [non_trainable_variables]. *)
Definition variables : M t Attr := getattr "variables".
Definition trainable_variables : M t Attr := getattr "trainable_variables".
Definition non_trainable_variables : M t Attr :=
  getattr "non_trainable_variables".

(** [self._tf_trackable.<name> += rhs] on a list attribute: the attribute
    is read, the right-hand side evaluated, the list extended and the
    attribute set again.  An attribute that holds something else than a
    list of variables has no [+=] with a list. *)
Definition iadd (name : string) (rhs : M t (list var)) : M t unit :=
  cur ← getattr name;
  vs ← rhs;
  match cur with
  | AVariables l => assign name (AVariables (l ++ vs))
  | _ => raise PyTypeError
  end.

(** [a + b] for two attribute values *)
Definition add (a b : Attr) : M t Attr :=
  match a, b with
  | AVariables l, AVariables k => mret (AVariables (l ++ k))
  | _, _ => raise PyTypeError
  end.

(** [tf.Variable(v)]: a new variable object. *)
Definition tf_Variable (v : var) : M t var := λ self,
  (Return (TfMirror (next_serial self)),
   set_next_serial (Pos.succ (next_serial self)) self).

(** [tree.flatten] of a flat list of variables. *)
Definition tree_flatten (l : list var) : list var := l.

(** The block of [track] that merges the variables of a layer into the
    lists of [self._tf_trackable] (the second [if isinstance(resource,
    Layer)]). *)
Definition track_variables (resource : Resource.t) : M t unit :=
  if decide (backend = jax) then
    let trainable_variables :=
      tree_flatten (Resource.trainable_variables resource) in
    let non_trainable_variables :=
      tree_flatten (Resource.non_trainable_variables resource) in
    modify (λ self,
      let btv := _backend_trainable_variables self
                 ++ trainable_variables in
      let bntv := _backend_non_trainable_variables self
                  ++ non_trainable_variables in
      set_backend_lists (btv ++ bntv) btv bntv self);;
    iadd "trainable_variables"
      (comprehension trainable_variables tf_Variable);;
    iadd "non_trainable_variables"
      (comprehension non_trainable_variables tf_Variable);;
    tvs ← getattr "trainable_variables";
    ntvs ← getattr "non_trainable_variables";
    vs ← add tvs ntvs;
    assign "variables" vs
  else
    iadd "variables" (mret (Resource.variables resource));;
    iadd "trainable_variables"
      (mret (Resource.trainable_variables resource));;
    iadd "non_trainable_variables"
      (mret (Resource.non_trainable_variables resource)).

Definition track (resource : Resource.t) : M t unit :=
  raise_if (bool_decide (backend = tensorflow)
            && negb (Resource.is_tf_trackable resource))
    InvalidResourceType;;
  raise_if (bool_decide (backend = jax)
            && negb (Resource.is_jax_layer resource))
    InvalidResourceType;;
  (if Resource.is_layer resource
   then raise_if (negb (Resource.built resource)) NotBuilt
   else mret ());;
  modify (λ self,
    set_tracked (default [] (_tracked self) ++ [resource]) self);;
  if Resource.is_layer resource
  then track_variables resource
  else mret ().

Definition add_endpoint (name : string) (fn : Fn)
    (input_signature : option Signature) : M t unit :=
  names ← gets _endpoint_names;
  raise_if (bool_decide (name ∈ names)) (DuplicateEndpointName name);;
  decorated_fn ←
    (if truthy input_signature then
       let sig := default [] input_signature in
       decorated_fn ←
         (if decide (backend = tensorflow) then
            external (TF.tf_function fn sig)
          else
            backend_variables ← gets _backend_variables;
            external (TF.jax2tf_function backend_variables fn sig));
       modify (set_endpoint_signatures (<[name := sig]>));;
       mret decorated_fn
     else
       if TF.is_generic_function fn then
         match TF._list_all_concrete_functions fn with
         | [] => raise UnspecializedFunction
         | _ :: _ => mret fn
         end
       else raise MissingSignature);
  setattr name (AFunction decorated_fn);;
  modify (set_endpoint_names (λ names, names ++ [name])).

(** [_get_concrete_fn].  Every attribute of [self._tf_trackable] is a
    function of the runtime or the wrapper of a list, and both have
    [_trackable_children]. *)
Definition _get_concrete_fn (endpoint : string) : M t Attr :=
  signatures ← gets _endpoint_signatures;
  if decide (is_Some (signatures !! endpoint)) then getattr endpoint
  else
    fn ← getattr endpoint;
    match (TF._trackable_children (as_object fn)).*2 with
    | trace :: _ => mret (AFunction trace)
    | [] => raise PyIndexError
    end.

Definition _get_variables_used_by_endpoints : M t (list var * list var) :=
  names ← gets _endpoint_names;
  fns ← comprehension names _get_concrete_fn;
  lift (Collector._list_variables_used_by_fns (as_object <$> fns)).

(** [self._tf_trackable._misc_assets.append(trackable)] *)
Definition append_misc_asset (trackable : Resource.Descendant) : M t unit :=
  cur ← getattr "_misc_assets";
  match cur with
  | AAssets l => assign "_misc_assets" (AAssets (l ++ [trackable]))
  | _ => raise (PyAttributeError "append")
  end.

Definition _filter_and_track_resources : M t unit :=
  names ← gets _endpoint_names;
  fns ← comprehension names _get_concrete_fn;
  r ← lift (Collector._list_variables_used_by_fns (as_object <$> fns));
  let '(tvs, ntvs) := r in
  assign "_all_variables" (AVariables (tvs ++ ntvs));;
  assign "_misc_assets" (AAssets []);;
  tracked ← gets _tracked;
  match tracked with
  | Some roots =>
      for_each roots (λ root,
        for_each (Resource.descendants root) (λ trackable,
          if Resource.is_lookup trackable
          then append_misc_asset trackable
          else mret ()))
  | None => mret ()
  end.

(** What [write_out] hands to [tf.saved_model.save]; [signatures] is a
    dict, in the order in which its keys were set. *)
Record SavedModel := {
  saved_object : gmap string Attr;
  saved_filepath : string;
  saved_options : option string;
  saved_signatures : list (string * Attr);
}.

(** [for name in self._endpoint_names:
      signatures[name] = self._get_concrete_fn(name)] *)
Fixpoint fill_signatures (names : list string)
    (signatures : list (string * Attr)) : M t (list (string * Attr)) :=
  match names with
  | [] => mret signatures
  | name :: names =>
      fn ← _get_concrete_fn name;
      fill_signatures names (Dict.setitem signatures name fn)
  end.

(** [write_out], up to the call of [tf.saved_model.save]: its value is
    what it hands to that call.  The call itself, which writes the files,
    and the summary printed afterwards are not part of the model. *)
Definition write_out (filepath : string) (options : option string)
  : M t SavedModel :=
  names ← gets _endpoint_names;
  raise_if (bool_decide (names = [])) NoEndpoints;;
  (if decide (backend = tensorflow)
   then _filter_and_track_resources
   else mret ());;
  let signatures : list (string * Attr) := [] in
  names ← gets _endpoint_names;
  signatures ← fill_signatures names signatures;
  (* Add "serving_default" signature key for TFServing *)
  names ← gets _endpoint_names;
  signatures ←
    (if decide ("serving_default" ∉ names) then
       names ← gets _endpoint_names;
       match names with
       | first :: _ =>
           fn ← _get_concrete_fn first;
           mret (Dict.setitem signatures "serving_default" fn)
       | [] => raise PyIndexError
       end
     else mret signatures);
  tf_trackable ← gets _tf_trackable;
  mret {| saved_object := tf_trackable;
          saved_filepath := filepath;
          saved_options := options;
          saved_signatures := signatures |}.

(** *** Notions used to state the properties of the archive *)

(** The capability [track] requires of a resource on each backend. *)
Definition capable (resource : Resource.t) : bool :=
  match backend with
  | tensorflow => Resource.is_tf_trackable resource
  | jax => Resource.is_jax_layer resource
  | _ => true
  end.

(** The lists held by the three variable attributes. *)
Definition holds_lists (self : t) (vs tvs ntvs : list var) : Prop :=
  _tf_trackable self !! "variables" = Some (AVariables vs)
  ∧ _tf_trackable self !! "trainable_variables" = Some (AVariables tvs)
  ∧ _tf_trackable self !! "non_trainable_variables"
    = Some (AVariables ntvs).

(** The archive once [resource] is appended to [self._tracked]. *)
Definition tracked_with (resource : Resource.t) (self : t) : t :=
  set_tracked (default [] (_tracked self) ++ [resource]) self.

(** The new variable objects that [[tf.Variable(v) for v in l]] creates
    when the next serial number is [n], and the serial number after. *)
Fixpoint mirrors (n : positive) (l : list var) : list var :=
  match l with
  | [] => []
  | _ :: l => TfMirror n :: mirrors (Pos.succ n) l
  end.

Fixpoint advance (n : positive) (l : list var) : positive :=
  match l with
  | [] => n
  | _ :: l => advance (Pos.succ n) l
  end.

(** Exceptions of the host language. *)
Definition host_error (e : Error) : Prop :=
  e = PyTypeError ∨ e = PyIndexError ∨ ∃ name, e = PyAttributeError name.

(** The exceptions that [write_out] lets through, next to its own:
    those of the host language, and that of a trace that fails. *)
Definition write_error (e : Error) : Prop :=
  host_error e ∨ e = RuntimeFailure.

(** Attribute names that [_filter_and_track_resources] assigns. *)
Definition reserved (name : string) : Prop :=
  name = "_all_variables" ∨ name = "_misc_assets".

(** The step of [write_out] that precedes the signature map. *)
Definition track_step : M t unit :=
  if decide (backend = tensorflow)
  then _filter_and_track_resources
  else mret ().

(** A method leaves the endpoint registry as it is. *)
Definition keeps_registry {A} (m : M t A) : Prop :=
  ∀ s o s', m s = (o, s') →
    _endpoint_names s' = _endpoint_names s
    ∧ _endpoint_signatures s' = _endpoint_signatures s.

(** The frozen callable [add_endpoint] builds from a given signature;
    [None] when the runtime rejects the function or the signature. *)
Definition decorate (self : t) (fn : Fn) (sig : Signature) : option Fn :=
  if decide (backend = tensorflow) then TF.tf_function fn sig
  else TF.jax2tf_function (_backend_variables self) fn sig.

End archive.
End ExportArchive.

(** A program raises no other exceptions than those of [P]. *)
Definition raises_only {S A} (P : Error → Prop) (m : M S A) : Prop :=
  ∀ s e s', m s = (Raise e, s') → P e.

(** ** [TFSMLayer] *)

Module TFSMLayer.
Section layer.
Context {Fn : Type} `{!TF.TFRuntime Fn}.
Variable backend : Backend.

(** The object returned by [tf.saved_model.load]: its attributes, and its
    [signatures] mapping in the order of its keys.  [hasattr] and
    [getattr] take any attribute: the restored functions, and also the
    restored lists and the attribute [signatures] itself. *)
Record ReloadedObj := {
  attributes : gmap string Fn;
  signatures : list (string * Fn);
}.

(** [tf.saved_model.load(filepath)]; [None] when it raises. *)
Variable saved_model_load : string → option ReloadedObj.

(** The trainable flag of a variable, [v.trainable]. *)
Variable var_trainable : var → bool.

(** Inputs and keyword arguments of a call are opaque. *)
Context {Inputs Kwargs : Type}.

(** [mapping[name]] when [name in mapping] *)
Fixpoint lookup_key (mapping : list (string * Fn)) (name : string)
  : option Fn :=
  match mapping with
  | [] => None
  | (key, fn) :: mapping =>
      if decide (key = name) then Some fn else lookup_key mapping name
  end.

Definition signatures_lookup (obj : ReloadedObj) (name : string)
  : option Fn :=
  lookup_key (signatures obj) name.

Record t := {
  (** Arguments handed to [super().__init__]. *)
  trainable : bool;
  name : option string;
  dtype : option string;
  _reloaded_obj : ReloadedObj;
  filepath : string;
  call_endpoint : string;
  call_training_endpoint : option string;
  call_endpoint_fn : Fn;
  (** [None] while the attribute does not exist. *)
  call_training_endpoint_fn : option Fn;
  (** The weights the layer owns, in the order of their registration. *)
  _trainable_variables : list var;
  _non_trainable_variables : list var;
  built : bool;
}.

(** Modelled from the spec: [Layer._track_variable] is defined by the base
    class [Layer], which is not part of this file.  Section 4.6 has each
    discovered parameter registered as an owned weight of the layer,
    "trainable ones as trainable, others as frozen"; the method receives
    the variable alone, so the variable's own flag decides. *)
Definition _track_variable (weight : var) (self : t) : t :=
  {| trainable := trainable self;
     name := name self;
     dtype := dtype self;
     _reloaded_obj := _reloaded_obj self;
     filepath := filepath self;
     call_endpoint := call_endpoint self;
     call_training_endpoint := call_training_endpoint self;
     call_endpoint_fn := call_endpoint_fn self;
     call_training_endpoint_fn := call_training_endpoint_fn self;
     _trainable_variables :=
       if var_trainable weight
       then _trainable_variables self ++ [weight]
       else _trainable_variables self;
     _non_trainable_variables :=
       if var_trainable weight
       then _non_trainable_variables self
       else _non_trainable_variables self ++ [weight];
     built := built self |}.

(** Tracks an existing weight. *)
Definition _add_existing_weight (weight : var) (self : t) : t :=
  _track_variable weight self.

(** Modelled from the spec: the weight properties of the base class
    [Layer] (section 6: a parameter container exposes [variables],
    [trainable_variables] and [non_trainable_variables] as ordered
    sequences). *)
Definition trainable_variables (self : t) : list var :=
  _trainable_variables self.
Definition non_trainable_variables (self : t) : list var :=
  _non_trainable_variables self.
Definition variables (self : t) : list var :=
  _trainable_variables self ++ _non_trainable_variables self.

Definition set_built (b : bool) (self : t) : t :=
  {| trainable := trainable self;
     name := name self;
     dtype := dtype self;
     _reloaded_obj := _reloaded_obj self;
     filepath := filepath self;
     call_endpoint := call_endpoint self;
     call_training_endpoint := call_training_endpoint self;
     call_endpoint_fn := call_endpoint_fn self;
     call_training_endpoint_fn := call_training_endpoint_fn self;
     _trainable_variables := _trainable_variables self;
     _non_trainable_variables := _non_trainable_variables self;
     built := b |}.

Definition __init__ (filepath : string) (call_endpoint : string)
    (call_training_endpoint : option string) (trainable : bool)
    (name dtype : option string) : outcome t :=
  if decide (backend ≠ tensorflow) then Raise UnsupportedRuntime else
  match saved_model_load filepath with
  | None => Raise RuntimeFailure
  | Some _reloaded_obj =>
  (* Resolve the call function. *)
  let call_endpoint_fn :=
    match attributes _reloaded_obj !! call_endpoint with
    | Some fn => Return fn
    | None =>
        match signatures_lookup _reloaded_obj call_endpoint with
        | Some fn => Return fn
        | None =>
            Raise (EndpointNotFound call_endpoint
                     (signatures _reloaded_obj).*1)
        end
    end in
  match call_endpoint_fn with
  | Raise e => Raise e
  | Return call_endpoint_fn =>
  (* Resolving the training function. *)
  let call_training_endpoint_fn :=
    if truthy_str call_training_endpoint then
      let endpoint := default "" call_training_endpoint in
      match attributes _reloaded_obj !! endpoint with
      | Some fn => Return (Some fn)
      | None =>
          match signatures_lookup _reloaded_obj endpoint with
          | Some fn => Return (Some fn)
          | None =>
              Raise (EndpointNotFound endpoint
                       (signatures _reloaded_obj).*1)
          end
      end
    else Return None in
  match call_training_endpoint_fn with
  | Raise e => Raise e
  | Return call_training_endpoint_fn =>
  let self :=
    {| trainable := trainable;
       name := name;
       dtype := dtype;
       _reloaded_obj := _reloaded_obj;
       filepath := filepath;
       call_endpoint := call_endpoint;
       call_training_endpoint := call_training_endpoint;
       call_endpoint_fn := call_endpoint_fn;
       call_training_endpoint_fn := call_training_endpoint_fn;
       _trainable_variables := [];
       _non_trainable_variables := [];
       built := false |} in
  (* Add trainable and non-trainable weights from the call_endpoint_fn. *)
  let all_fns :=
    [call_endpoint_fn]
    ++ (if truthy_str call_training_endpoint
        then from_option (λ fn, [fn]) [] call_training_endpoint_fn
        else []) in
  match Collector._list_variables_used_by_fns all_fns with
  | Raise e => Raise e
  | Return (tvs, ntvs) =>
  let self := foldl (λ self v, _add_existing_weight v self) self tvs in
  let self := foldl (λ self v, _add_existing_weight v self) self ntvs in
  Return (set_built true self)
  end end end end.

(** The call a layer makes on one of its endpoint functions. *)
Inductive Invocation :=
| Invoke (fn : Fn) (inputs : Inputs) (kwargs : Kwargs).

Definition call (self : t) (inputs : Inputs) (training : bool)
    (kwargs : Kwargs) : outcome Invocation :=
  let call_endpoint := Return (Invoke (call_endpoint_fn self) inputs kwargs) in
  if training then
    if truthy_str (call_training_endpoint self) then
      match call_training_endpoint_fn self with
      | Some fn => Return (Invoke fn inputs kwargs)
      | None => Raise (PyAttributeError "call_training_endpoint_fn")
      end
    else call_endpoint
  else call_endpoint.

(** The two-step rule of the specification: a direct named entry of the
    artifact first, its signature map second. *)
Definition resolve (obj : ReloadedObj) (endpoint : string) : option Fn :=
  match attributes obj !! endpoint with
  | Some fn => Some fn
  | None => signatures_lookup obj endpoint
  end.

(** *** Notions used to state the properties of the layer *)

(** The functions [__init__] hands to the collector. *)
Definition all_fns (self : t) : list Fn :=
  [call_endpoint_fn self]
  ++ (if truthy_str (call_training_endpoint self)
      then from_option (λ fn, [fn]) [] (call_training_endpoint_fn self)
      else []).


(** The effect of one of the two registration loops of [__init__]. *)
Definition add_weights (vs : list var) (self : t) : t :=
  foldl (λ self v, _add_existing_weight v self) self vs.


End layer.
End TFSMLayer.

(** ** A small runtime to run the definitions on

    Function objects that carry the variables their traces use: a plain
    Python callable, a [tf.function] around one (with an optional signature
    and the number of times it was called), a function restored from an
    artifact, and a concrete trace.  Next to them, a Python callable that
    raises when it is run and the [tf.function] around it, and the objects
    that are no functions: a variable, the wrapper of a list that was set
    as an attribute of a trackable object, a lookup layer, a list as an
    artifact gives it back, and the signature map of a reloaded
    artifact. *)
Module Sample.
Import TF.

Definition Uses : Type := list var * list var.

Inductive SampleFn :=
| PyCallable (uses : Uses)
| TfFunction (uses : Uses) (input_signature : option Signature)
    (calls : nat)
| RestoredFunction (traces : list Uses)
| ConcreteFunction (uses : Uses)
| PyRaising
| TfRaising (input_signature : Signature)
| VariableObject (v : var)
| ListWrapper (vs : list var)
| LookupLayer (asset : Resource.Descendant)
| AssetsWrapper (assets : list Resource.Descendant)
| RestoredList
| SignatureMap.

(** [v.trainable]: the first two variables of the scenarios are
    trainable. *)
Definition sample_trainable (v : var) : bool :=
  match v with
  | NativeVar 1 | NativeVar 2 => true
  | _ => false
  end.

(** The keys under which a list wrapper tracks its elements. *)
Definition index_names (n : nat) : list string :=
  pretty <$> seq 0 n.

Definition trace_names (n : nat) : list string :=
  (λ i, "trace_" +:+ pretty i) <$> seq 0 n.

(** [tf.function] takes a callable without running it. *)
Definition sample_tf_function (fn : SampleFn) (sig : Signature)
  : option SampleFn :=
  match fn with
  | PyCallable u | TfFunction u _ _ => Some (TfFunction u (Some sig) 0)
  | PyRaising | TfRaising _ => Some (TfRaising sig)
  | _ => None
  end.

Definition sample_all_concrete (fn : SampleFn) : list SampleFn :=
  match fn with
  | TfFunction u _ calls => replicate calls (ConcreteFunction u)
  | RestoredFunction ts => ConcreteFunction <$> ts
  | _ => []
  end.

Definition sample_children (fn : SampleFn) : list (string * SampleFn) :=
  match fn with
  | TfFunction u (Some _) _ => [("trace_0", ConcreteFunction u)]
  | ListWrapper vs => zip (index_names (length vs)) (VariableObject <$> vs)
  | AssetsWrapper assets =>
      zip (index_names (length assets)) (LookupLayer <$> assets)
  | _ =>
      let cfs := sample_all_concrete fn in
      zip (trace_names (length cfs)) cfs
  end.

(** The objects that have [trainable_variables] and [variables]. *)
Definition sample_has_variables (fn : SampleFn) : bool :=
  match fn with
  | ConcreteFunction _ | ListWrapper _ | AssetsWrapper _ | LookupLayer _ =>
      true
  | _ => false
  end.

Definition sample_setattr_refusal (name : string) : option Refusal :=
  if decide (name = "_object_identifier") then Some ReadOnly
  else if decide (name = "__class__") then Some WrongType
  else if decide (name = "__dict__") then Some WrongType
  else None.

Definition sample_own_names_accepted :
  Forall (λ name, sample_setattr_refusal name = None)
    ["variables"; "trainable_variables"; "non_trainable_variables";
     "_all_variables"; "_misc_assets"] :=
  ltac:(repeat constructor).

Global Instance sample_runtime : TFRuntime SampleFn := {|
  tf_version := "2.15.0";
  tf_function := sample_tf_function;
  jax2tf_function _ := sample_tf_function;
  is_generic_function fn :=
    match fn with
    | TfFunction _ _ _ | RestoredFunction _ | TfRaising _ => true
    | _ => false
    end;
  _list_all_concrete_functions := sample_all_concrete;
  _trackable_children := sample_children;
  concrete_functions fn :=
    match fn with
    | RestoredFunction ts => Some (ConcreteFunction <$> ts)
    | _ => None
    end;
  get_concrete_function fn :=
    match fn with
    | TfFunction u _ _ => Some (ConcreteFunction u)
    | TfRaising _ => Some (ConcreteFunction ([], []))
    | _ => None
    end;
  trainable_variables fn :=
    match fn with
    | ConcreteFunction u => u.1
    | ListWrapper vs => filter (λ v, sample_trainable v = true) vs
    | _ => []
    end;
  variables fn :=
    match fn with
    | ConcreteFunction u => u.2
    | ListWrapper vs => vs
    | _ => []
    end;
  get_concrete_function_raises fn :=
    match fn with TfRaising _ => true | _ => false end;
  has_trainable_variables := sample_has_variables;
  has_variables := sample_has_variables;
  setattr_refusal := sample_setattr_refusal;
  own_names_accepted := sample_own_names_accepted;
  list_wrapper := ListWrapper;
  assets_wrapper := AssetsWrapper;
|}.

(** What the sample loader makes of a saved attribute: a function comes
    back as a restored function with its trace, a concrete trace as
    itself, a list as a restored list; what cannot be saved does not come
    back. *)
Definition restore (a : ExportArchive.Attr (Fn:=SampleFn))
  : option SampleFn :=
  match a with
  | ExportArchive.AFunction (TfFunction u _ _) =>
      Some (RestoredFunction [u])
  | ExportArchive.AFunction (ConcreteFunction u) =>
      Some (ConcreteFunction u)
  | ExportArchive.AFunction (RestoredFunction ts) =>
      Some (RestoredFunction ts)
  | ExportArchive.AVariables _ | ExportArchive.AAssets _ =>
      Some RestoredList
  | _ => None
  end.

(** The entries of a dict that the loader gives back, in their order. *)
Definition restore_items
    (d : list (string * ExportArchive.Attr (Fn:=SampleFn)))
  : list (string * SampleFn) :=
  omap (λ '(key, a), (λ fn, (key, fn)) <$> restore a) d.

Definition reload (artifact : ExportArchive.SavedModel (Fn:=SampleFn))
  : TFSMLayer.ReloadedObj (Fn:=SampleFn) :=
  {| TFSMLayer.attributes :=
       <["signatures" := SignatureMap]>
         (omap restore (ExportArchive.saved_object artifact));
     TFSMLayer.signatures :=
       restore_items (ExportArchive.saved_signatures artifact)
  |}.

(** A store that holds one artifact. *)
Definition sample_load
    (artifact : ExportArchive.SavedModel (Fn:=SampleFn))
    (filepath : string) : option (TFSMLayer.ReloadedObj (Fn:=SampleFn)) :=
  if decide (filepath = ExportArchive.saved_filepath artifact)
  then Some (reload artifact)
  else None.

End Sample.

(** ** Scenarios

    The objects on which the properties below are exercised. *)
Module Scenario.
Import Sample ExportArchive.

Definition a := NativeVar 1.
Definition b := NativeVar 2.
Definition c := NativeVar 3.
Definition d := NativeVar 4.
Definition e := NativeVar 5.

Definition overlapping : list SampleFn :=
  [ ConcreteFunction ([a; b], [a; b; c]);
    RestoredFunction [([b; d], [b; d; c; e]); ([a], [e; a])];
    TfFunction ([d], [c; d]) None 1 ].

(** A trace that references [a] as non-trainable, followed by a trace
    that lists the same [a] as trainable. *)
Definition disagreeing : list SampleFn :=
  [ ConcreteFunction ([], [a]); ConcreteFunction ([a], [a]) ].

(** [a] and [b] are trainable, [c] is not. *)
Definition flag (v : var) : bool :=
  bool_decide (v = a ∨ v = b).

(** A built layer with two trainable parameters and one that is not. *)
Definition dense : Resource.t :=
  {| Resource.resource_id := 1;
     Resource.is_tf_trackable := true;
     Resource.is_jax_layer := true;
     Resource.is_layer := true;
     Resource.built := true;
     Resource.variables := [a; b; c];
     Resource.trainable_variables := [a; b];
     Resource.non_trainable_variables := [c];
     Resource.descendants :=
       [ {| Resource.descendant_id := 2;
            Resource.kind := Resource.StringLookup |};
         {| Resource.descendant_id := 3;
            Resource.kind := Resource.OtherTrackable |} ] |}.

Definition unbuilt : Resource.t :=
  {| Resource.resource_id := 4;
     Resource.is_tf_trackable := true;
     Resource.is_jax_layer := true;
     Resource.is_layer := true;
     Resource.built := false;
     Resource.variables := [];
     Resource.trainable_variables := [];
     Resource.non_trainable_variables := [];
     Resource.descendants := [] |}.

(** The model's [call], a plain Python callable. *)
Definition model_call : SampleFn := PyCallable ([a; b], [a; b; c]).
(** A [tf.function] that was never called, and one called once. *)
Definition untraced : SampleFn := TfFunction ([a; b], [a; b; c]) None 0.
Definition traced : SampleFn := TfFunction ([a; b], [a; b; c]) None 1.

Definition spec : Signature := [TensorSpec [None; Some 3%N] "float32"].

(** The state of a new archive. *)
Definition fresh : ExportArchive.t (Fn:=SampleFn) :=
  {| _endpoint_names := [];
     _endpoint_signatures := ∅;
     tensorflow_version := "2.15.0";
     _tf_trackable :=
       <["non_trainable_variables" := AVariables []]>
         (<["trainable_variables" := AVariables []]>
            (<["variables" := AVariables []]> ∅));
     _backend_variables := [];
     _backend_trainable_variables := [];
     _backend_non_trainable_variables := [];
     _tracked := None;
     next_serial := 1%positive |}.

(** The archive after [track(dense)],
    [add_endpoint("serve", model.call, spec)] and
    [add_endpoint("call_training", traced)]. *)
Definition served : ExportArchive.t (Fn:=SampleFn) :=
  ((track tensorflow dense;;
    add_endpoint tensorflow "serve" model_call (Some spec);;
    add_endpoint tensorflow "call_training" traced None) fresh).2.

(** An archive with an endpoint that is named "serving_default":
    [track(dense)], [add_endpoint("serve", model.call, spec)] and
    [add_endpoint("serving_default", traced)]. *)
Definition aliased : ExportArchive.t (Fn:=SampleFn) :=
  ((track tensorflow dense;;
    add_endpoint tensorflow "serve" model_call (Some spec);;
    add_endpoint tensorflow "serving_default" traced None) fresh).2.

(** The artifact [write_out] saves for it, and its reloaded form. *)
Definition artifact : SavedModel (Fn:=SampleFn) :=
  match (write_out tensorflow "path/to/location" None served).1 with
  | Return artifact => artifact
  | Raise _ =>
      {| saved_object := ∅; saved_filepath := ""; saved_options := None;
         saved_signatures := [] |}
  end.

Definition load := sample_load artifact.
Definition reloaded := reload artifact.

Definition init :=
  TFSMLayer.__init__ tensorflow load flag "path/to/location".

(** A Python object that is not trackable. *)
Definition not_trackable : Resource.t :=
  {| Resource.resource_id := 5;
     Resource.is_tf_trackable := false;
     Resource.is_jax_layer := false;
     Resource.is_layer := false;
     Resource.built := false;
     Resource.variables := [];
     Resource.trainable_variables := [];
     Resource.non_trainable_variables := [];
     Resource.descendants := [] |}.

(** The layer reloaded with both endpoints. *)
Definition reloaded_layer : TFSMLayer.t (Fn:=SampleFn) :=
  match init "serve" (Some "call_training") true None None with
  | Return self => self
  | Raise _ =>
      {| TFSMLayer.trainable := true; TFSMLayer.name := None;
         TFSMLayer.dtype := None; TFSMLayer._reloaded_obj := reloaded;
         TFSMLayer.filepath := ""; TFSMLayer.call_endpoint := "";
         TFSMLayer.call_training_endpoint := None;
         TFSMLayer.call_endpoint_fn := model_call;
         TFSMLayer.call_training_endpoint_fn := None;
         TFSMLayer._trainable_variables := [];
         TFSMLayer._non_trainable_variables := [];
         TFSMLayer.built := false |}
  end.

End Scenario.

(** ** [ExportArchive.add_variable_collection] *)

Module VariableCollection.
Import ExportArchive.
Section collection.
Context {Fn : Type} `{!TF.TFRuntime Fn}.
Variable backend : Backend.
Notation archive := (ExportArchive.t (Fn:=Fn)).

(** The class of the [variables] argument: a list, a tuple, a set, or any
    other object (a dict, a generator, a single variable). *)
Inductive Container := PyList | PyTuple | PySet | PyOther.

(** What iterating over the argument yields: a [tf.Variable] or
    [backend.Variable], or an object of another type. *)
Inductive Element :=
| EVariable (v : var)
| EObject.

Record Collection := {
  container : Container;
  elements : list Element;
}.

(** The call has no exception class of its own: both checks raise a
    [ValueError], told apart by their message.  The last two outcomes are
    exceptions of the runtime: of [tf.Variable], and of [setattr]. *)
Inductive Outcome :=
| Registered
| ExpectedListTupleSet
| ExpectedVariables
| ConversionFailed
| SetattrRaised (e : Error).

(** [isinstance(variables, (list, tuple, set))] *)
Definition is_list_tuple_set (c : Container) : bool :=
  match c with
  | PyList | PyTuple | PySet => true
  | PyOther => false
  end.

(** [isinstance(v, (tf.Variable, backend.Variable))] *)
Definition is_variable (e : Element) : bool :=
  match e with
  | EVariable _ => true
  | EObject => false
  end.

(** The variables among the elements, in the order of iteration: what
    [list(variables)] holds once both checks have passed. *)
Definition variables_of (l : list Element) : list var :=
  omap (λ e, match e with EVariable v => Some v | EObject => None end) l.

(** The last statement, [setattr(self._tf_trackable, name,
    list(variables))], on the archive [self'] that the statements before
    it have made of [self].  When it raises, the variable objects that
    were created for the call are lost with the exception, and the
    archive is as the call found it. *)
Definition set_collection (name : string) (vs : list var)
    (self self' : archive) : Outcome * archive :=
  match setattr name (AVariables vs) self' with
  | (Return _, self') => (Registered, self')
  | (Raise e, _) => (SetattrRaised e, self)
  end.

(** [add_variable_collection].  On the JAX backend the elements are mapped
    to new [tf.Variable] objects by [tree.map_structure]; a set is a leaf
    for [tree], so that [tf.Variable] is applied to the set itself, which
    it cannot convert. *)
Definition add_variable_collection (name : string) (variables : Collection)
    (self : archive) : Outcome * archive :=
  if negb (is_list_tuple_set (container variables)) then
    (ExpectedListTupleSet, self)
  else if negb (forallb is_variable (elements variables)) then
    (ExpectedVariables, self)
  else
    let vs := variables_of (elements variables) in
    if decide (backend = jax) then
      match container variables with
      | PySet => (ConversionFailed, self)
      | _ =>
          match comprehension vs tf_Variable self with
          | (Return vs, self') => set_collection name vs self self'
          | (Raise _, _) => (ConversionFailed, self)
          end
      end
    else set_collection name vs self self.

End collection.
End VariableCollection.

(** ** Sequences of calls on one archive *)

(** A method relates the object it finds to the object it leaves by [R],
    whether it returns or raises. *)
Definition preserves {S A} (R : relation S) (m : M S A) : Prop :=
  ∀ s o s', m s = (o, s') → R s s'.

Module Session.
Import ExportArchive VariableCollection.
Section session.
Context {Fn : Type} `{!TF.TFRuntime Fn}.
Variable backend : Backend.
Notation archive := (ExportArchive.t (Fn:=Fn)).

(** A call of one of the public methods of an archive. *)
Inductive Call :=
| Track (resource : Resource.t)
| AddEndpoint (name : string) (fn : Fn) (input_signature : option Signature)
| AddVariableCollection (name : string) (variables : Collection)
| WriteOut (filepath : string) (options : option string).

(** The archive as the call leaves it, whether it returns or raises. *)
Definition step (self : archive) (c : Call) : archive :=
  match c with
  | Track resource => (track backend resource self).2
  | AddEndpoint name fn input_signature =>
      (add_endpoint backend name fn input_signature self).2
  | AddVariableCollection name variables =>
      (add_variable_collection backend name variables self).2
  | WriteOut filepath options => (write_out backend filepath options self).2
  end.

Definition run (calls : list Call) (self : archive) : archive :=
  foldl step self calls.

(** The resources of a list that [track] does not reject, and the layers
    among them. *)
Definition accepted (rs : list Resource.t) : list Resource.t :=
  filter (λ r, capable backend r = true
               ∧ (Resource.is_layer r = true → Resource.built r = true)) rs.

Definition accepted_layers (rs : list Resource.t) : list Resource.t :=
  filter (λ r, Resource.is_layer r = true) (accepted rs).

(** The mirrors of the archive stand one to one for its backend
    variables (JAX backend). *)
Definition aligned (self : archive) : Prop :=
  ∃ tvs ntvs,
    holds_lists self (tvs ++ ntvs) tvs ntvs
    ∧ length tvs = length (_backend_trainable_variables self)
    ∧ length ntvs = length (_backend_non_trainable_variables self)
    ∧ _backend_variables self
      = _backend_trainable_variables self
        ++ _backend_non_trainable_variables self.

(** The lookup layers below the tracked roots, in the order in which
    [_filter_and_track_resources] meets them. *)
Definition lookup_assets (self : archive) : list Resource.Descendant :=
  default [] (_tracked self)
  ≫= (λ root, filter (λ d, Resource.is_lookup d = true)
                 (Resource.descendants root)).

(** The registry is as it was, and no attribute was removed. *)
Definition registry_le (self self' : archive) : Prop :=
  _endpoint_names self' = _endpoint_names self
  ∧ _endpoint_signatures self' = _endpoint_signatures self
  ∧ ∀ name, is_Some (_tf_trackable self !! name) →
            is_Some (_tf_trackable self' !! name).

(** Nothing but the attributes of [self._tf_trackable] differs, and of
    these only the reserved ones. *)
Definition reserved_only (self self' : archive) : Prop :=
  self' = set_tf_trackable (λ _, _tf_trackable self') self
  ∧ ∀ name, ¬ reserved name →
      _tf_trackable self' !! name = _tf_trackable self !! name.

(** The registry is well formed: no name is registered twice; a name
    that has a signature is registered, unless [setattr] refuses it;
    every registered name is an attribute of [self._tf_trackable], and
    one that [setattr] takes. *)
Definition registry_ok (self : archive) : Prop :=
  NoDup (_endpoint_names self)
  ∧ (∀ name, is_Some (_endpoint_signatures self !! name) →
             name ∈ _endpoint_names self
             ∨ is_Some (TF.setattr_refusal name))
  ∧ (∀ name, name ∈ _endpoint_names self →
             is_Some (_tf_trackable self !! name)
             ∧ TF.setattr_refusal name = None).

(** The objects that [_filter_and_track_resources] and
    [_get_variables_used_by_endpoints] hand to the collector. *)
Definition endpoint_functions (self : archive) : outcome (list Fn) :=
  ((names ← gets _endpoint_names;
    fns ← comprehension names _get_concrete_fn;
    mret (as_object <$> fns)) self).1.

End session.
End Session.

(** ** [_get_save_spec] *)

Module SaveSpec.
Import Dict.

(** [s.rstrip(chars)]: [s] without its trailing characters that occur in
    [chars]. *)
Fixpoint rstrip (chars : list Ascii.ascii) (s : string) : string :=
  match s with
  | "" => ""
  | String c s =>
      match rstrip chars s with
      | "" => if decide (c ∈ chars) then "" else String c ""
      | r => String c r
      end
  end.

(** What [_get_save_spec] reads of a model. *)
Record Model := {
  (** [getattr(model, "_build_shapes_dict", None)], a dict in insertion
      order: its keys are pairwise distinct. *)
  _build_shapes_dict : option (list (string * list (option N)));
  input_dtype : string;
}.

(** The characters of ["_shape"]. *)
Definition shape_chars : list Ascii.ascii :=
  String.list_ascii_of_string "_shape".

Definition _get_save_spec (model : Model) : option Spec :=
  match _build_shapes_dict model with
  | None | Some [] => None
  | Some [(_, shape)] => Some (TensorSpec shape (input_dtype model))
  | Some shapes_dict =>
      Some (DictSpec
        (foldl (λ specs '(key, value),
                  let key := rstrip shape_chars key in
                  setitem specs key (TensorSpec value (input_dtype model)))
               [] shapes_dict))
  end.

(** The last character of a string. *)
Fixpoint last_char (s : string) : option Ascii.ascii :=
  match s with
  | "" => None
  | String c "" => Some c
  | String _ s => last_char s
  end.

(** All the characters of [s] occur in [chars]. *)
Fixpoint all_in (chars : list Ascii.ascii) (s : string) : Prop :=
  match s with
  | "" => True
  | String c s => c ∈ chars ∧ all_in chars s
  end.

(** [s] does not end with a character of [chars]. *)
Definition clean_end (chars : list Ascii.ascii) (s : string) : Prop :=
  ∀ c, last_char s = Some c → c ∉ chars.

(** The entry a key of the shapes dict gives rise to. *)
Definition spec_entry (model : Model) (e : string * list (option N))
  : string * Spec :=
  (rstrip shape_chars e.1, TensorSpec e.2 (input_dtype model)).

End SaveSpec.

(** ** [export_model] *)

Module ExportModel.
Import ExportArchive SaveSpec.
Section export.
Context {Fn : Type} `{!TF.TFRuntime Fn}.
Variable backend : Backend.

(** A symbolic input of a functional model. *)
Record KerasTensor := {
  shape : list (option N);
  dtype : string;
  name : string;
}.

(** [_make_tensor_spec].  The name is handed to [tf.TensorSpec] with the
    shape and the type; [Spec] keeps only what the archive looks at. *)
Definition _make_tensor_spec (x : KerasTensor) : Spec :=
  TensorSpec (shape x) (dtype x).

(** What [export_model] reads of a model. *)
Record Model := {
  (** The model as the resource handed to [track]. *)
  resource : Resource.t;
  (** [isinstance(model, (Functional, Sequential))] *)
  is_functional_or_sequential : bool;
  inputs : list KerasTensor;
  shapes : SaveSpec.Model;
  _called : bool;
  __call__ : Fn;
}.

(** The exceptions of [export_model]: its own, and those of the archive
    it drives. *)
Inductive ExportError :=
| NeverCalled
| ArchiveError (e : Error).

(** Truth value of a save spec: [None] is false, a [TensorSpec] object is
    true, a dict is true when it has entries. *)
Definition spec_truthy (save_spec : option Spec) : bool :=
  match save_spec with
  | None => false
  | Some (TensorSpec _ _) => true
  | Some (ListSpec elems) => bool_decide (elems ≠ [])
  | Some (DictSpec items) => bool_decide (items ≠ [])
  end.

(** The signature of the endpoint of a functional or sequential model. *)
Definition functional_signature (model : Model) : Signature :=
  let input_signature := _make_tensor_spec <$> inputs model in
  if bool_decide (1 < length input_signature)
  then [ListSpec input_signature]
  else input_signature.

(** The two branches of [export_model] that compute the signature of the
    endpoint. *)
Definition input_signature_of (model : Model) : ExportError + Signature :=
  if is_functional_or_sequential model then
    inr (functional_signature model)
  else
    let save_spec := _get_save_spec (shapes model) in
    if negb (spec_truthy save_spec) || negb (_called model)
    then inl NeverCalled
    else
      match save_spec with
      | Some save_spec => inr [save_spec]
      | None => inl NeverCalled
      end.

(** [export_model]; its value is the artifact handed to
    [tf.saved_model.save]. *)
Definition export_model (model : Model) (filepath : string)
  : ExportError + SavedModel :=
  match __init__ backend with
  | Raise e => inl (ArchiveError e)
  | Return export_archive =>
  match track backend (resource model) export_archive with
  | (Raise e, _) => inl (ArchiveError e)
  | (Return _, export_archive) =>
  match input_signature_of model with
  | inl e => inl e
  | inr input_signature =>
  match add_endpoint backend "serve" (__call__ model)
          (Some input_signature) export_archive with
  | (Raise e, _) => inl (ArchiveError e)
  | (Return _, export_archive) =>
  match write_out backend filepath None export_archive with
  | (Raise e, _) => inl (ArchiveError e)
  | (Return artifact, _) => inr artifact
  end end end end end.

End export.
End ExportModel.

(** ** [TFSMLayer.get_config] and [_print_signature] *)

Module LayerConfig.
Import Dict SaveSpec.
Section config.
Context {Fn : Type} `{!TF.TFRuntime Fn}.

(** A value of a config dict. *)
Inductive ConfigValue :=
| CNone
| CString (s : string)
| CBool (b : bool).

(** [{**base, **config}] *)
Definition merge {V} (base config : list (string * V))
  : list (string * V) :=
  foldl (λ d '(key, value), setitem d key value) base config.

(** [get_config]; [base_config] is the value of [super().get_config()]. *)
Definition get_config (base_config : list (string * ConfigValue))
    (self : TFSMLayer.t (Fn:=Fn)) : list (string * ConfigValue) :=
  let config :=
    [ ("filepath", CString (TFSMLayer.filepath self));
      ("call_endpoint", CString (TFSMLayer.call_endpoint self));
      ("call_training_endpoint",
       from_option CString CNone (TFSMLayer.call_training_endpoint self)) ] in
  merge base_config config.

End config.
End LayerConfig.

Module Printing.
Section printing.
Context {Fn : Type} `{!TF.TFRuntime Fn}.

(** [concrete_fn.pretty_printed_signature(verbose=True)] *)
Variable pretty_printed_signature : Fn → string.

(** The line feed, character 10. *)
Definition newline : Ascii.ascii :=
  Ascii.Ascii false true false true false false false false.

(** [s.split("\n")] *)
Fixpoint split_lines (s : string) : list string :=
  match s with
  | "" => [""]
  | String c s =>
      if decide (c = newline) then "" :: split_lines s
      else match split_lines s with
           | line :: lines => String c line :: lines
           | [] => [String c ""]
           end
  end.

(** ["\n".join(lines)] *)
Fixpoint join_lines (lines : list string) : string :=
  match lines with
  | [] => ""
  | [line] => line
  | line :: lines => line +:+ String newline (join_lines lines)
  end.

(** [f"* Endpoint '{name}'"] *)
Definition header (name : string) : string :=
  "* Endpoint '" +:+ name +:+ "'".

Definition _print_signature (fn : Fn) (name : string) : outcome string :=
  match TF._list_all_concrete_functions fn with
  | [] => Raise PyIndexError
  | concrete_fn :: _ =>
      let pprinted_signature := pretty_printed_signature concrete_fn in
      let lines := split_lines pprinted_signature in
      let lines := [header name] ++ drop 1 lines in
      let endpoint := join_lines lines in
      Return endpoint
  end.

(** A text without line break. *)
Fixpoint one_line (s : string) : Prop :=
  match s with
  | "" => True
  | String c s => c ≠ newline ∧ one_line s
  end.

End printing.
End Printing.

(** ** Further scenarios *)

Module MoreScenarios.
Import Sample ExportArchive VariableCollection Session Scenario.

(** The variables of an optimizer, as a list. *)
Definition optimizer_variables : Collection :=
  {| container := PyList; elements := [EVariable d; EVariable e] |}.

(** A dict is not a collection of variables, and a string is no
    variable. *)
Definition a_dict : Collection :=
  {| container := PyOther; elements := [EVariable d] |}.
Definition with_a_string : Collection :=
  {| container := PyTuple; elements := [EVariable d; EObject] |}.

(** A session in which some calls raise. *)
Definition session : list (Call (Fn:=SampleFn)) :=
  [ Track dense;
    AddEndpoint "serve" model_call (Some spec);
    AddEndpoint "serve" traced None;
    AddEndpoint "untraced" untraced None;
    AddVariableCollection "optimizer_variables" optimizer_variables;
    WriteOut "path/to/location" None;
    Track unbuilt;
    AddEndpoint "call_training" traced None ].

(** A session in which [add_endpoint] is called with a name that the
    trackable object refuses. *)
Definition refusing_session : list (Call (Fn:=SampleFn)) :=
  [ Track dense;
    AddEndpoint "_object_identifier" model_call (Some spec);
    AddEndpoint "serve" model_call (Some spec);
    AddVariableCollection "__dict__" optimizer_variables ].

Definition resources : list Resource.t :=
  [dense; unbuilt; not_trackable; dense].

(** The archive [served] once a list of variables is set under the name
    of its first endpoint. *)
Definition shadowed : ExportArchive.t (Fn:=SampleFn) :=
  (add_variable_collection tensorflow "serve" optimizer_variables served).2.

(** The archive after [write_out]. *)
Definition written : ExportArchive.t (Fn:=SampleFn) :=
  (write_out tensorflow "path/to/location" None served).2.

(** A model with two inputs that was called, and the same model with keys
    that end in one of the characters of ["_shape"]. *)
Definition image : list (option N) := [None; Some 28%N; Some 28%N].
Definition mask : list (option N) := [None; Some 28%N].

Definition two_inputs : SaveSpec.Model :=
  {| SaveSpec._build_shapes_dict :=
       Some [("pixel_shape", image); ("mask_shape", mask)];
     SaveSpec.input_dtype := "float32" |}.

Definition plural_inputs : SaveSpec.Model :=
  {| SaveSpec._build_shapes_dict :=
       Some [("images_shape", image); ("masks_shape", mask)];
     SaveSpec.input_dtype := "float32" |}.

(** A subclassed model around [dense], called once on one input, and a
    functional model around it. *)
Definition subclassed : ExportModel.Model (Fn:=SampleFn) :=
  {| ExportModel.resource := dense;
     ExportModel.is_functional_or_sequential := false;
     ExportModel.inputs := [];
     ExportModel.shapes :=
       {| SaveSpec._build_shapes_dict := Some [("inputs_shape", mask)];
          SaveSpec.input_dtype := "float32" |};
     ExportModel._called := true;
     ExportModel.__call__ := model_call |}.

(** The same model with a [__call__] that raises on its save spec. *)
Definition failing : ExportModel.Model (Fn:=SampleFn) :=
  {| ExportModel.resource := dense;
     ExportModel.is_functional_or_sequential := false;
     ExportModel.inputs := [];
     ExportModel.shapes :=
       {| SaveSpec._build_shapes_dict := Some [("inputs_shape", mask)];
          SaveSpec.input_dtype := "float32" |};
     ExportModel._called := true;
     ExportModel.__call__ := PyRaising |}.

Definition functional : ExportModel.Model (Fn:=SampleFn) :=
  {| ExportModel.resource := dense;
     ExportModel.is_functional_or_sequential := true;
     ExportModel.inputs :=
       [ {| ExportModel.shape := mask; ExportModel.dtype := "float32";
            ExportModel.name := "input_1" |} ];
     ExportModel.shapes :=
       {| SaveSpec._build_shapes_dict := None;
          SaveSpec.input_dtype := "float32" |};
     ExportModel._called := false;
     ExportModel.__call__ := model_call |}.

(** The layer reloaded with its call endpoint only. *)
Definition serve_layer : TFSMLayer.t (Fn:=SampleFn) :=
  match init "serve" None true None None with
  | Return self => self
  | Raise _ => reloaded_layer
  end.

(** A printer of signatures that writes two lines. *)
Definition two_lines (fn : SampleFn) : string :=
  "serve(inputs)" +:+ String Printing.newline "  Args: inputs".

End MoreScenarios.

(** * Properties *)

Lemma py_id_inj v w : py_id v = py_id w → v = w.
Proof. unfold py_id. apply (inj encode). Qed.

Module CollectFacts.
Import TF Collect.
Section facts.
Context {Fn : Type} `{!TFRuntime Fn}.

Lemma visit_concrete_sightings s cf :
  visit_concrete s cf = foldl visit_sighting s (sightings_of_concrete cf).
Proof.
  unfold visit_concrete, sightings_of_concrete.
  rewrite foldl_app, !foldl_fmap. done.
Qed.

Lemma foldl_bind {A B C} (f : A → C → A) (g : B → list C) (l : list B) a :
  foldl f a (l ≫= g) = foldl (λ a b, foldl f a (g b)) a l.
Proof.
  revert a. induction l as [|b l IH]; intros a; [done|].
  cbn. rewrite foldl_app. apply IH.
Qed.

Lemma foldl_ext_eq {A B} (f g : A → B → A) (l : list B) a :
  (∀ a b, f a b = g a b) → foldl f a l = foldl g a l.
Proof.
  intros Hfg. revert a. induction l as [|b l IH]; intros a; [done|].
  cbn. rewrite Hfg. apply IH.
Qed.

Lemma visit_fns_sightings s fns :
  foldl visit_fn s fns = foldl visit_sighting s (sightings fns).
Proof.
  unfold sightings, traces. rewrite !foldl_bind.
  apply foldl_ext_eq. intros a fn. unfold visit_fn.
  apply foldl_ext_eq. intros b cf. apply visit_concrete_sightings.
Qed.

Lemma listed_trainable_cons v c ev :
  listed_trainable ((v, c) :: ev)
  = if c then v :: listed_trainable ev else listed_trainable ev.
Proof.
  unfold listed_trainable. destruct c.
  - by rewrite filter_cons_True.
  - by rewrite filter_cons_False.
Qed.

(** The loops, run from any state on any stream of sightings. *)
Lemma run_sightings ev : ∀ s,
  let s' := foldl visit_sighting s ev in
  trainable_variables_ s'
  = trainable_variables_ s
    ++ first_occurrences (trainable_variables_ids s) (listed_trainable ev)
  ∧ non_trainable_variables_ s'
    = non_trainable_variables_ s
      ++ (collect (trainable_variables_ids s
                   ∪ non_trainable_variables_ids s) ev).2.
Proof.
  induction ev as [|[v c] ev IH]; intros s.
  { cbn. by rewrite !app_nil_r. }
  destruct (IH (visit_sighting s (v, c))) as [IH1 IH2].
  cbn [foldl]. cbv zeta. rewrite IH1, IH2. clear IH IH1 IH2.
  rewrite listed_trainable_cons.
  unfold visit_sighting. cbn [fst snd collect first_occurrences].
  destruct c.
  - unfold visit_trainable.
    destruct (decide (py_id v ∉ trainable_variables_ids s)) as [Hn|Hn]; cbn.
    + rewrite decide_False by done. rewrite <- (assoc_L (++)). cbn.
      split; [done|].
      destruct (decide (py_id v ∈ trainable_variables_ids s
                               ∪ non_trainable_variables_ids s)) as [Hs|Hs].
      * f_equal. f_equal. f_equal. set_solver.
      * cbn. f_equal. f_equal. f_equal. set_solver.
    + apply dec_stable in Hn. rewrite decide_True by done.
      rewrite decide_True by set_solver. done.
  - unfold visit_variable.
    destruct (decide ((py_id v ∉ trainable_variables_ids s)
                      ∧ (py_id v ∉ non_trainable_variables_ids s)))
      as [Hn|Hn]; cbn.
    + rewrite decide_False by set_solver. cbn.
      rewrite <- (assoc_L (++)). cbn. split; [done|].
      f_equal. f_equal. f_equal. f_equal. set_solver.
    + rewrite decide_True; [done|].
      apply not_and_l in Hn as [Hn|Hn]; apply dec_stable in Hn; set_solver.
Qed.

Lemma elem_of_first_occurrences seen l v :
  v ∈ first_occurrences seen l ↔ v ∈ l ∧ py_id v ∉ seen.
Proof.
  revert seen. induction l as [|w l IH]; intros seen; cbn.
  { split; [by intros ?%elem_of_nil | by intros [?%elem_of_nil _]]. }
  destruct (decide (py_id w ∈ seen)) as [Hw|Hw].
  - rewrite IH, elem_of_cons. split; [tauto|].
    intros [[->|?] ?]; tauto.
  - rewrite !elem_of_cons, IH. split.
    + intros [->|[? Hs]]; [tauto|]. split; [tauto|]. set_solver.
    + intros [[->|?] Hs]; [tauto|].
      destruct (decide (v = w)) as [->|Hne]; [tauto|].
      right. split; [done|].
      intros [Heq%elem_of_singleton|?]%elem_of_union; [|done].
      by apply py_id_inj in Heq.
Qed.

Lemma NoDup_first_occurrences seen l : NoDup (first_occurrences seen l).
Proof.
  revert seen. induction l as [|w l IH]; intros seen; cbn.
  { constructor. }
  destruct (decide (py_id w ∈ seen)); [apply IH|].
  constructor; [|apply IH].
  rewrite elem_of_first_occurrences. set_solver.
Qed.

Lemma elem_of_listed_trainable ev v :
  v ∈ listed_trainable ev ↔ (v, true) ∈ ev.
Proof.
  unfold listed_trainable. rewrite list_elem_of_fmap. split.
  - intros ([w c] & -> & [Hc ?]%list_elem_of_filter). cbn in *. by subst.
  - intros ?. exists (v, true). split; [done|].
    by apply list_elem_of_filter.
Qed.

Lemma first_class_Some ev v c :
  first_class ev v = Some c → (v, c) ∈ ev.
Proof.
  induction ev as [|[w d] ev IH]; cbn; [done|].
  destruct (decide (w = v)) as [->|?].
  - intros [= ->]. apply elem_of_cons. by left.
  - intros ?. apply elem_of_cons. right. by apply IH.
Qed.

Lemma first_class_None ev v :
  first_class ev v = None ↔ v ∉ ev.*1.
Proof.
  induction ev as [|[w d] ev IH]; cbn.
  { split; [intros _; apply not_elem_of_nil | done]. }
  rewrite not_elem_of_cons.
  destruct (decide (w = v)) as [->|?]; [split; [done|tauto]|].
  rewrite IH. split; [by intros; split|tauto].
Qed.

Lemma first_class_head w d ev : first_class ((w, d) :: ev) w = Some d.
Proof. cbn. by rewrite decide_True. Qed.

(** Membership in the two sequences of the specification's [collect]. *)
Lemma elem_of_collect seen ev v c :
  v ∈ (if c : bool then (collect seen ev).1 else (collect seen ev).2)
  ↔ py_id v ∉ seen ∧ first_class ev v = Some c.
Proof.
  revert seen. induction ev as [|[w d] ev IH]; intros seen; cbn.
  { destruct c; cbn; split;
      [by intros ?%elem_of_nil | by intros [_ ?]
      |by intros ?%elem_of_nil | by intros [_ ?]]. }
  destruct (decide (py_id w ∈ seen)) as [Hw|Hw].
  - rewrite IH. destruct (decide (w = v)) as [->|?]; [tauto|done].
  - assert (∀ l : list var, v ∈ l ∨ False ↔ v ∈ l) as Hf by tauto.
    assert (v ∈ (if c then (collect ({[py_id w]} ∪ seen) ev).1
                 else (collect ({[py_id w]} ∪ seen) ev).2)
            ↔ v ≠ w ∧ py_id v ∉ seen ∧ first_class ev v = Some c) as IH'.
    { rewrite IH. rewrite not_elem_of_union, elem_of_singleton.
      split; [intros [[? ?] ?]|intros (? & ? & ?)]; repeat split; auto.
      - by intros ->.
      - by intros ?%py_id_inj. }
    destruct (decide (w = v)) as [->|Hne].
    + destruct d, c; cbn; rewrite ?elem_of_cons, ?IH';
        split; try tauto; try (by intros [_ [=]]);
        try (by intros (? & _)); by intros; left.
    + destruct d, c; cbn; rewrite ?elem_of_cons, ?IH';
        split; try tauto; try naive_solver.
Qed.

Lemma NoDup_collect seen ev :
  NoDup ((collect seen ev).1 ++ (collect seen ev).2).
Proof.
  revert seen. induction ev as [|[w d] ev IH]; intros seen; cbn.
  { constructor. }
  destruct (decide (py_id w ∈ seen)) as [Hw|Hw]; [apply IH|].
  specialize (IH ({[py_id w]} ∪ seen)).
  assert (w ∉ (collect ({[py_id w]} ∪ seen) ev).1
          ∧ w ∉ (collect ({[py_id w]} ∪ seen) ev).2) as [H1 H2].
  { split.
    - rewrite (elem_of_collect _ _ _ true). set_solver.
    - rewrite (elem_of_collect _ _ _ false). set_solver. }
  destruct d; cbn.
  - constructor; [|done]. rewrite elem_of_app. tauto.
  - apply NoDup_app in IH as (Ha & Hb & Hc).
    apply NoDup_app. split_and!; [done| |by constructor].
    intros x Hx [->|?]%elem_of_cons; [done|]. by eapply Hb.
Qed.

Lemma filter_iff_elem {A} (P Q : A → Prop)
    `{!∀ x, Decision (P x), !∀ x, Decision (Q x)} (l : list A) :
  (∀ x, x ∈ l → P x ↔ Q x) → filter P l = filter Q l.
Proof.
  induction l as [|a l IH]; intros HPQ; [done|].
  rewrite !filter_cons.
  rewrite IH by (intros x Hx; apply HPQ, elem_of_cons; by right).
  apply decide_ext, HPQ, elem_of_cons. by left.
Qed.

(** Each sequence of [collect] lists its members in the order in which
    the identities are first met in the stream of sightings. *)
Lemma collect_order seen ev c :
  (if c : bool then (collect seen ev).1 else (collect seen ev).2)
  = filter (λ v, first_class ev v = Some c)
      (first_occurrences seen ev.*1).
Proof.
  revert seen. induction ev as [|[w d] ev IH]; intros seen.
  { by destruct c. }
  cbn [collect fmap list_fmap first_occurrences fst snd].
  assert (∀ seen', py_id w ∈ seen' →
    filter (λ v, first_class ((w, d) :: ev) v = Some c)
      (first_occurrences seen' ev.*1)
    = filter (λ v, first_class ev v = Some c)
        (first_occurrences seen' ev.*1)) as Hskip.
  { intros seen' Hw. apply filter_iff_elem.
    intros x [_ Hx]%elem_of_first_occurrences. cbn.
    destruct (decide (w = x)) as [->|?]; [done|tauto]. }
  destruct (decide (py_id w ∈ seen)) as [Hw|Hw].
  - rewrite IH. symmetry. by apply Hskip.
  - rewrite filter_cons, first_class_head.
    rewrite Hskip by set_solver. rewrite <- IH.
    destruct d, c; cbn.
    + by rewrite decide_True.
    + by rewrite decide_False.
    + by rewrite decide_False.
    + by rewrite decide_True.
Qed.

(** When no identity is listed as trainable after a non-trainable first
    sighting, the trainable sequence of the loops is the one of the
    specification's [collect]. *)
Lemma first_occurrences_collect ev : ∀ tvseen seen : gset positive,
  tvseen ⊆ seen →
  (∀ v, py_id v ∈ seen → py_id v ∉ tvseen → (v, true) ∉ ev) →
  (∀ v, py_id v ∉ seen → first_class ev v = Some false → (v, true) ∉ ev) →
  first_occurrences tvseen (listed_trainable ev) = (collect seen ev).1.
Proof.
  induction ev as [|[w d] ev IH]; intros tvseen seen Hsub Hin Hout.
  { done. }
  rewrite listed_trainable_cons. cbn [collect].
  assert (∀ v, py_id v ∉ seen → v ≠ w → first_class ev v = Some false →
               (v, true) ∉ ev) as Hout'.
  { intros v Hv Hne Hfc. specialize (Hout v Hv). cbn in Hout.
    rewrite decide_False in Hout by done.
    specialize (Hout Hfc). by apply not_elem_of_cons in Hout as [_ ?]. }
  assert (∀ v, py_id v ∈ seen → py_id v ∉ tvseen → (v, true) ∉ ev) as Hin'.
  { intros v Hv Hv'. specialize (Hin v Hv Hv').
    by apply not_elem_of_cons in Hin as [_ ?]. }
  destruct d.
  - cbn [first_occurrences].
    destruct (decide (py_id w ∈ tvseen)) as [Hw|Hw].
    + rewrite decide_True by set_solver. apply IH; [done..|].
      intros v Hv. apply Hout'; [done|]. intros ->. set_solver.
    + destruct (decide (py_id w ∈ seen)) as [Hs|Hs].
      { exfalso. apply (Hin w Hs Hw), elem_of_cons. by left. }
      cbn. f_equal. apply IH.
      * set_solver.
      * intros v [Hv|Hv]%elem_of_union Hv'; [set_solver|].
        apply Hin'; set_solver.
      * intros v [Hv1 Hv2]%not_elem_of_union. apply Hout'; [done|].
        intros ->. set_solver.
  - destruct (decide (py_id w ∈ seen)) as [Hs|Hs].
    + apply IH; [done..|].
      intros v Hv. apply Hout'; [done|]. intros ->. done.
    + cbn. apply IH.
      * set_solver.
      * intros v [Hv|Hv]%elem_of_union Hv'; [|by apply Hin'].
        apply elem_of_singleton, py_id_inj in Hv as ->.
        specialize (Hout w Hs). cbn in Hout.
        rewrite decide_True in Hout by done. specialize (Hout eq_refl).
        by apply not_elem_of_cons in Hout as [_ ?].
      * intros v [Hv1 Hv2]%not_elem_of_union. apply Hout'; [done|].
        intros ->. set_solver.
Qed.

Lemma consistent_alt ev :
  consistent ev ↔ ∀ v, first_class ev v = Some false → (v, true) ∉ ev.
Proof.
  unfold consistent. rewrite Forall_forall. split; [|by auto].
  intros Hc v Hv. apply Hc; [|done].
  apply first_class_Some in Hv. apply list_elem_of_fmap. by exists (v, false).
Qed.

(** The result of the loops, in terms of the stream of sightings. *)
Lemma list_variables_used_by_fns_run (fns : list Fn) :
  let r := _list_variables_used_by_fns fns in
  let ev := sightings fns in
  r.1 = first_occurrences ∅ (listed_trainable ev)
  ∧ r.2 = (collect ∅ ev).2.
Proof.
  intros r ev. subst r ev. unfold _list_variables_used_by_fns.
  rewrite visit_fns_sightings. cbn [fst snd].
  destruct (run_sightings (sightings fns) init) as [Ha Hb].
  cbn in Ha, Hb. rewrite Ha, Hb. split; [done|].
  by rewrite (left_id_L ∅ (∪)).
Qed.

Lemma list_variables_used_by_fns_consistent (fns : list Fn) :
  consistent (sightings fns) →
  _list_variables_used_by_fns fns = collect ∅ (sightings fns).
Proof.
  intros Hc. pose proof (proj1 (consistent_alt _) Hc) as Hc'.
  destruct (list_variables_used_by_fns_run fns) as [H1 H2].
  destruct (_list_variables_used_by_fns fns) as [r1 r2].
  cbn in H1, H2. rewrite H1, H2.
  rewrite (first_occurrences_collect _ ∅ ∅);
    [by destruct (collect ∅ (sightings fns))|done|set_solver|by auto].
Qed.

(** C1, as the code has it.  The trainable sequence holds every identity
    that some trace lists as trainable, in the order of the first such
    listing; the non-trainable sequence holds the identities whose first
    sighting is non-trainable, in first-encounter order; neither sequence
    repeats an identity, and an identity first sighted as trainable is
    never also non-trainable.  When no trace lists as trainable an
    identity whose first sighting was non-trainable, the result is the
    one of the specification's [collect]: every identity that is sighted
    appears exactly once across both sequences, in the partition of its
    first sighting, in first-encounter order. *)
Theorem list_variables_used_by_fns_spec (fns : list Fn) :
  let r := _list_variables_used_by_fns fns in
  let ev := sightings fns in
  r.1 = first_occurrences ∅ (listed_trainable ev)
  ∧ r.2 = filter (λ v, first_class ev v = Some false)
            (first_occurrences ∅ ev.*1)
  ∧ NoDup r.1 ∧ NoDup r.2
  ∧ (∀ v, v ∈ r.1 ↔ (v, true) ∈ ev)
  ∧ (∀ v, v ∈ r.2 ↔ first_class ev v = Some false)
  ∧ (∀ v, first_class ev v = Some true → v ∈ r.1 ∧ v ∉ r.2)
  ∧ (consistent ev →
       r = collect ∅ ev
       ∧ NoDup (r.1 ++ r.2)
       ∧ (∀ v, v ∈ r.1 ++ r.2 ↔ v ∈ ev.*1)
       ∧ (∀ v, v ∈ r.1 ↔ first_class ev v = Some true)
       ∧ r.1 = filter (λ v, first_class ev v = Some true)
                 (first_occurrences ∅ ev.*1)).
Proof.
  intros r ev.
  destruct (list_variables_used_by_fns_run fns) as [H1 H2].
  fold r ev in H1, H2.
  assert (∀ v, v ∈ r.2 ↔ first_class ev v = Some false) as Hntv.
  { intros v. rewrite H2, (elem_of_collect _ _ _ false). set_solver. }
  assert (∀ v, v ∈ r.1 ↔ (v, true) ∈ ev) as Htv.
  { intros v. rewrite H1, elem_of_first_occurrences,
      elem_of_listed_trainable. set_solver. }
  split_and!; try done.
  - rewrite H2. apply (collect_order _ _ false).
  - rewrite H1. apply NoDup_first_occurrences.
  - rewrite H2. eapply NoDup_app, NoDup_collect.
  - intros v Hv. split.
    + by apply Htv, first_class_Some.
    + rewrite Hntv, Hv. done.
  - intros Hc.
    pose proof (list_variables_used_by_fns_consistent fns Hc) as Hr.
    fold r ev in Hr.
    split_and!; [done| | | |].
    + rewrite Hr. apply NoDup_collect.
    + intros v. rewrite elem_of_app, Hr.
      rewrite (elem_of_collect _ _ _ true), (elem_of_collect _ _ _ false).
      split.
      * intros [[_ Hv]|[_ Hv]]; apply first_class_Some in Hv;
          apply list_elem_of_fmap; by eexists (_, _).
      * intros Hv. destruct (first_class ev v) as [[]|] eqn:Hfc.
        -- left. set_solver.
        -- right. set_solver.
        -- by apply first_class_None in Hfc.
    + intros v. rewrite Hr, (elem_of_collect _ _ _ true). set_solver.
    + rewrite Hr. apply (collect_order _ _ true).
Qed.

End facts.
End CollectFacts.

(** ** The monad *)

Section monad_facts.
Context {S : Type}.

Lemma run_bind {A B} (m : M S A) (f : A → M S B) s :
  (m ≫= f) s
  = match m s with
    | (Return a, s') => f a s'
    | (Raise e, s') => (Raise e, s')
    end.
Proof. reflexivity. Qed.

Lemma run_gets {A B} (g : S → A) (f : A → M S B) s :
  (gets g ≫= f) s = f (g s) s.
Proof. reflexivity. Qed.

Lemma run_modify {B} (g : S → S) (f : unit → M S B) s :
  (modify g ≫= f) s = f () (g s).
Proof. reflexivity. Qed.

Lemma run_ret {A B} (a : A) (f : A → M S B) s : (mret a ≫= f) s = f a s.
Proof. reflexivity. Qed.

Lemma run_raise {A B} e (f : A → M S B) s :
  (raise e ≫= f) s = (Raise e, s).
Proof. reflexivity. Qed.

Lemma run_raise_if {B} (c : bool) e (f : unit → M S B) s :
  (raise_if c e ≫= f) s = if c then (Raise e, s) else f () s.
Proof. by destruct c. Qed.

Lemma raises_only_ret {A} P (a : A) : raises_only (S:=S) P (mret a).
Proof. intros s e s' [=]. Qed.

Lemma raises_only_raise {A} (P : Error → Prop) e :
  P e → raises_only (S:=S) (A:=A) P (raise e).
Proof. intros HP s e' s' [= <- _]. done. Qed.

Lemma raises_only_gets {A} P (f : S → A) : raises_only P (gets f).
Proof. intros s e s' [=]. Qed.

Lemma raises_only_modify P (f : S → S) : raises_only P (modify f).
Proof. intros s e s' [=]. Qed.

Lemma raises_only_bind {A B} P (m : M S A) (f : A → M S B) :
  raises_only P m → (∀ a, raises_only P (f a)) → raises_only P (m ≫= f).
Proof.
  intros Hm Hf s e s'. rewrite run_bind.
  destruct (m s) as [[a|e'] s1] eqn:Hms.
  - apply Hf.
  - intros [= <- <-]. by eapply Hm.
Qed.

Lemma raises_only_comprehension {A B} P (l : list A) (f : A → M S B) :
  (∀ x, raises_only P (f x)) → raises_only P (comprehension l f).
Proof.
  intros Hf. induction l as [|x l IH]; cbn.
  - apply raises_only_ret.
  - apply raises_only_bind; [done|]. intros y.
    apply raises_only_bind; [done|]. intros ys. apply raises_only_ret.
Qed.

Lemma raises_only_for_each {A} P (l : list A) (f : A → M S unit) :
  (∀ x, raises_only P (f x)) → raises_only P (for_each l f).
Proof.
  intros Hf. induction l as [|x l IH]; cbn.
  - apply raises_only_ret.
  - apply raises_only_bind; [done|]. by intros _.
Qed.
End monad_facts.

(** ** The collector and its exceptions *)

Module CollectorFacts.
Import TF.
Section facts.
Context {Fn : Type} `{!TFRuntime Fn}.
Implicit Types (fn : Fn) (s : Collect.Locals).

Lemma collector_visit_concrete_run concrete_fn s :
  Collector.listable concrete_fn = true →
  Collector.visit_concrete concrete_fn s
  = (Return (), Collect.visit_concrete s concrete_fn).
Proof.
  unfold Collector.listable, Collector.visit_concrete.
  intros [-> ->]%andb_true_iff. by rewrite !run_raise_if.
Qed.

Lemma collector_visit_concrete_raise concrete_fn s :
  Collector.listable concrete_fn = false →
  ∃ e, (Collector.visit_concrete concrete_fn s).1 = Raise e
       ∧ Collector.collector_error e.
Proof.
  unfold Collector.listable, Collector.visit_concrete.
  rewrite run_raise_if.
  destruct (has_trainable_variables concrete_fn); cbn [negb andb].
  - intros ->. rewrite run_modify, run_raise_if. cbn [negb].
    eexists. split; [done|]. right. by right.
  - intros _. eexists. split; [done|]. right. by left.
Qed.

Lemma collector_visit_concretes_run cfs : ∀ s,
  forallb Collector.listable cfs = true →
  for_each cfs Collector.visit_concrete s
  = (Return (), foldl Collect.visit_concrete s cfs).
Proof.
  induction cfs as [|cf cfs IH]; intros s; [done|].
  cbn [forallb]. intros [Hcf Hcfs]%andb_true_iff.
  cbn [for_each foldl].
  rewrite run_bind, collector_visit_concrete_run by done. by apply IH.
Qed.

Lemma collector_visit_concretes_raise cfs : ∀ s,
  forallb Collector.listable cfs = false →
  ∃ e, (for_each cfs Collector.visit_concrete s).1 = Raise e
       ∧ Collector.collector_error e.
Proof.
  induction cfs as [|cf cfs IH]; intros s; [done|].
  cbn [forallb for_each]. rewrite run_bind.
  destruct (Collector.listable cf) eqn:Hcf.
  - rewrite collector_visit_concrete_run by done. cbn [andb]. apply IH.
  - intros _.
    destruct (collector_visit_concrete_raise cf s Hcf) as (e & He & Herr).
    exists e. split; [|done].
    destruct (Collector.visit_concrete cf s) as [o s1]. cbn in He.
    by subst o.
Qed.

Lemma collector_visit_fn_run fn s :
  Collector.answers fn = true →
  Collector.visit_fn fn s = (Return (), Collect.visit_fn s fn).
Proof.
  unfold Collector.answers, Collector.visit_fn, Collect.visit_fn,
    Collector.concrete_functions_of, Collect.concrete_functions_of.
  destruct (concrete_functions fn) as [cfs|].
  { intros Hcfs. rewrite run_ret. by apply collector_visit_concretes_run. }
  destruct (get_concrete_function fn) as [cf|].
  - intros [Hr Hcf]%andb_true_iff. apply negb_true_iff in Hr.
    rewrite Hr, run_ret. apply collector_visit_concretes_run.
    cbn. by rewrite Hcf.
  - intros Hfn. rewrite run_ret. apply collector_visit_concretes_run.
    cbn. by rewrite Hfn.
Qed.

Lemma collector_visit_fn_raise fn s :
  Collector.answers fn = false →
  ∃ e, (Collector.visit_fn fn s).1 = Raise e ∧ Collector.collector_error e.
Proof.
  unfold Collector.answers, Collector.visit_fn,
    Collector.concrete_functions_of.
  destruct (concrete_functions fn) as [cfs|].
  { intros Hcfs. rewrite run_ret.
    by apply collector_visit_concretes_raise. }
  destruct (get_concrete_function fn) as [cf|].
  - destruct (get_concrete_function_raises fn).
    { intros _. eexists. split; [done|by left]. }
    cbn [negb andb]. intros Hcf. rewrite run_ret.
    apply collector_visit_concretes_raise. cbn. by rewrite Hcf.
  - intros Hfn. rewrite run_ret.
    apply collector_visit_concretes_raise. cbn. by rewrite Hfn.
Qed.

Lemma collector_visit_fns_run fns : ∀ s,
  forallb Collector.answers fns = true →
  for_each fns Collector.visit_fn s
  = (Return (), foldl Collect.visit_fn s fns).
Proof.
  induction fns as [|fn fns IH]; intros s; [done|].
  cbn [forallb]. intros [Hfn Hfns]%andb_true_iff.
  cbn [for_each foldl].
  rewrite run_bind, collector_visit_fn_run by done. by apply IH.
Qed.

Lemma collector_visit_fns_raise fns : ∀ s,
  forallb Collector.answers fns = false →
  ∃ e, (for_each fns Collector.visit_fn s).1 = Raise e
       ∧ Collector.collector_error e.
Proof.
  induction fns as [|fn fns IH]; intros s; [done|].
  cbn [forallb for_each]. rewrite run_bind.
  destruct (Collector.answers fn) eqn:Hfn.
  - rewrite collector_visit_fn_run by done. cbn [andb]. apply IH.
  - intros _.
    destruct (collector_visit_fn_raise fn s Hfn) as (e & He & Herr).
    exists e. split; [|done].
    destruct (Collector.visit_fn fn s) as [o s1]. cbn in He. by subst o.
Qed.

(** On functions that answer, the collector returns what its loops
    compute. *)
Lemma collector_returns fns :
  forallb Collector.answers fns = true →
  Collector._list_variables_used_by_fns fns
  = Return (Collect._list_variables_used_by_fns fns).
Proof.
  intros Hfns. unfold Collector._list_variables_used_by_fns.
  by rewrite collector_visit_fns_run.
Qed.

(** It raises as soon as one of them does not. *)
Lemma collector_raises fns :
  forallb Collector.answers fns = false →
  ∃ e, Collector._list_variables_used_by_fns fns = Raise e
       ∧ Collector.collector_error e.
Proof.
  intros Hfns. unfold Collector._list_variables_used_by_fns.
  destruct (collector_visit_fns_raise fns Collect.init Hfns)
    as (e & He & Herr).
  exists e. split; [|done].
  destruct (for_each fns Collector.visit_fn Collect.init) as [o s1].
  cbn in He. by subst o.
Qed.

Lemma collector_Return fns r :
  Collector._list_variables_used_by_fns fns = Return r →
  forallb Collector.answers fns = true
  ∧ r = Collect._list_variables_used_by_fns fns.
Proof.
  destruct (forallb Collector.answers fns) eqn:Hfns.
  - rewrite collector_returns by done. by intros [= <-].
  - destruct (collector_raises fns Hfns) as (e & -> & _). done.
Qed.

Lemma collector_Raise fns e :
  Collector._list_variables_used_by_fns fns = Raise e →
  forallb Collector.answers fns = false ∧ Collector.collector_error e.
Proof.
  destruct (forallb Collector.answers fns) eqn:Hfns.
  - by rewrite collector_returns.
  - destruct (collector_raises fns Hfns) as (e' & -> & He).
    by intros [= <-].
Qed.

End facts.
End CollectorFacts.

(** ** Dicts in insertion order *)

Module DictFacts.
Import Dict.
Section dict.
Context {V : Type}.
Implicit Types d : list (string * V).

Lemma getitem_setitem d key value k :
  getitem (setitem d key value) k
  = if decide (key = k) then Some value else getitem d k.
Proof.
  induction d as [|[k' v'] d IH]; cbn.
  - done.
  - destruct (decide (k' = key)) as [->|Hne]; cbn.
    + by destruct (decide (key = k)).
    + rewrite IH. destruct (decide (k' = k)) as [->|?]; [|done].
      by rewrite decide_False.
Qed.

Lemma setitem_new d key value :
  key ∉ d.*1 → setitem d key value = d ++ [(key, value)].
Proof.
  induction d as [|[k' v'] d IH]; cbn; [done|].
  intros Hk. rewrite decide_False by set_solver.
  rewrite IH; [done|set_solver].
Qed.

Lemma setitem_keys d key value :
  (setitem d key value).*1
  = if decide (key ∈ d.*1) then d.*1 else d.*1 ++ [key].
Proof.
  induction d as [|[k' v'] d IH]; cbn.
  - rewrite decide_False; [done|]. by intros ?%elem_of_nil.
  - destruct (decide (k' = key)) as [->|Hne]; cbn.
    + rewrite decide_True; [done|by left].
    + rewrite IH. destruct (decide (key ∈ d.*1)) as [Hin|Hnin].
      * rewrite decide_True; [done|by right].
      * rewrite decide_False; [done|]. by intros [?|?]%elem_of_cons.
Qed.

Lemma setitem_length d key value :
  (length (setitem d key value) ≤ S (length d))%nat.
Proof.
  induction d as [|[k' v'] d IH]; cbn; [lia|].
  case_decide; cbn; lia.
Qed.

Lemma getitem_None d k : getitem d k = None ↔ k ∉ d.*1.
Proof.
  induction d as [|[k' v'] d IH]; cbn.
  - split; [by intros _ ?%elem_of_nil|done].
  - destruct (decide (k' = k)) as [->|Hne].
    + split; [done|]. intros Hk. destruct Hk. by left.
    + rewrite IH. split; [by intros ? [?|?]%elem_of_cons|].
      intros Hk Hin. apply Hk. by right.
Qed.

Lemma elem_of_setitem_keys d key value k :
  k ∈ (setitem d key value).*1 ↔ k = key ∨ k ∈ d.*1.
Proof.
  rewrite setitem_keys. case_decide as Hkey.
  - split; [by right|]. by intros [->|?].
  - rewrite elem_of_app, list_elem_of_singleton. tauto.
Qed.

Lemma setitem_keys_NoDup d key value :
  NoDup d.*1 → NoDup (setitem d key value).*1.
Proof.
  intros Hd. rewrite setitem_keys. case_decide as Hkey; [done|].
  apply NoDup_app. split_and!; [done| |apply NoDup_singleton].
  by intros k Hk ->%list_elem_of_singleton.
Qed.

End dict.
End DictFacts.

Module ArchiveFacts.
Import ExportArchive.
Section facts.
Context {Fn : Type} `{!TF.TFRuntime Fn}.
Notation archive := (ExportArchive.t (Fn:=Fn)).
Implicit Types (self : archive) (fn : Fn).

(** On the names that the class assigns of its own, [setattr] is the
    assignment: the trackable object takes them. *)
Lemma setattr_own_name name (value : Attr (Fn:=Fn)) :
  name ∈ ["variables"; "trainable_variables"; "non_trainable_variables";
          "_all_variables"; "_misc_assets"] →
  setattr name value = assign name value.
Proof.
  intros Hname. unfold setattr.
  pose proof (TF.own_names_accepted (Fn:=Fn)) as Hown.
  rewrite Forall_forall in Hown. by rewrite (Hown name Hname).
Qed.

(** *** [add_endpoint] *)

Lemma add_endpoint_duplicate backend name fn sig self :
  name ∈ _endpoint_names self →
  add_endpoint backend name fn sig self
  = (Raise (DuplicateEndpointName name), self).
Proof.
  intros Hin. unfold add_endpoint.
  rewrite run_gets, run_raise_if, bool_decide_eq_true_2 by done. done.
Qed.

Lemma add_endpoint_falsy backend name fn sig self :
  name ∉ _endpoint_names self →
  truthy sig = false →
  add_endpoint backend name fn sig self
  = if TF.is_generic_function fn then
      match TF._list_all_concrete_functions fn with
      | [] => (Raise UnspecializedFunction, self)
      | _ :: _ =>
          match TF.setattr_refusal name with
          | Some why => (Raise (refusal_error name why), self)
          | None =>
              (Return (),
               set_endpoint_names (λ names, names ++ [name])
                 (set_tf_trackable (<[name := AFunction fn]>) self))
          end
      end
    else (Raise MissingSignature, self).
Proof.
  intros Hin Hsig. unfold add_endpoint, setattr.
  rewrite run_gets, run_raise_if, bool_decide_eq_false_2 by done.
  rewrite Hsig.
  destruct (TF.is_generic_function fn); [|done].
  destruct (TF._list_all_concrete_functions fn); [done|].
  destruct (TF.setattr_refusal name); done.
Qed.

Lemma add_endpoint_truthy backend name fn sig self :
  name ∉ _endpoint_names self →
  truthy (Some sig) = true →
  add_endpoint backend name fn (Some sig) self
  = match decorate backend self fn sig with
    | Some decorated_fn =>
        match TF.setattr_refusal name with
        | Some why =>
            (Raise (refusal_error name why),
             set_endpoint_signatures (<[name := sig]>) self)
        | None =>
            (Return (),
             set_endpoint_names (λ names, names ++ [name])
               (set_tf_trackable (<[name := AFunction decorated_fn]>)
                  (set_endpoint_signatures (<[name := sig]>) self)))
        end
    | None => (Raise RuntimeFailure, self)
    end.
Proof.
  intros Hin Hsig. unfold add_endpoint, decorate, setattr.
  rewrite run_gets, run_raise_if, bool_decide_eq_false_2 by done.
  rewrite Hsig. change (default [] (Some sig)) with sig.
  destruct (decide (backend = tensorflow)).
  - unfold external. destruct (TF.tf_function fn sig); [|done].
    destruct (TF.setattr_refusal name); done.
  - rewrite !run_bind. unfold gets, external.
    destruct (TF.jax2tf_function _ fn sig); [|done].
    destruct (TF.setattr_refusal name); done.
Qed.

(** The exception of a refusal is none of the four that [add_endpoint]
    raises before it sets the attribute. *)
Lemma refusal_error_other name why :
  refusal_error name why ≠ DuplicateEndpointName name
  ∧ refusal_error name why ≠ UnspecializedFunction
  ∧ refusal_error name why ≠ MissingSignature
  ∧ refusal_error name why ≠ RuntimeFailure.
Proof. by destruct why. Qed.

(** The calls that raise.  Four exceptions are raised before anything is
    assigned, and leave the archive as it was.  The fifth is that of
    [setattr] for a name that the object refuses: the name is not
    registered, and the signature, when one was given, is recorded
    already. *)
Lemma add_endpoint_raise backend name fn sig self e self' :
  add_endpoint backend name fn sig self = (Raise e, self') →
  (self' = self
   ∧ (e = DuplicateEndpointName name ∨ e = UnspecializedFunction
      ∨ e = MissingSignature ∨ e = RuntimeFailure))
  ∨ (∃ why, TF.setattr_refusal name = Some why
       ∧ e = refusal_error name why
       ∧ name ∉ _endpoint_names self
       ∧ self' = if truthy sig
                 then set_endpoint_signatures (<[name := default [] sig]>)
                        self
                 else self).
Proof.
  destruct (decide (name ∈ _endpoint_names self)) as [Hin|Hin].
  { rewrite add_endpoint_duplicate by done. intros [= <- <-]. left. auto. }
  destruct (truthy sig) eqn:Hsig.
  - destruct sig as [sig|]; [|done].
    rewrite add_endpoint_truthy by done.
    destruct (decorate backend self fn sig);
      [|intros [= <- <-]; left; auto].
    destruct (TF.setattr_refusal name) as [why|]; [|done].
    intros [= <- <-]. right. by exists why.
  - rewrite add_endpoint_falsy by done.
    destruct (TF.is_generic_function fn); [|intros [= <- <-]; left; auto].
    destruct (TF._list_all_concrete_functions fn);
      [intros [= <- <-]; left; auto|].
    destruct (TF.setattr_refusal name) as [why|]; [|done].
    intros [= <- <-]. right. by exists why.
Qed.

(** Whatever the exception, the names are as they were. *)
Lemma add_endpoint_raise_names backend name fn sig self e self' :
  add_endpoint backend name fn sig self = (Raise e, self') →
  _endpoint_names self' = _endpoint_names self.
Proof.
  intros [[-> _]|(why & _ & _ & _ & ->)]%add_endpoint_raise; [done|].
  by destruct (truthy sig).
Qed.

(** *** [track] *)

Lemma track_unfold backend r self :
  track backend r self
  = if negb (capable backend r) then (Raise InvalidResourceType, self)
    else if Resource.is_layer r then
      if negb (Resource.built r) then (Raise NotBuilt, self)
      else track_variables backend r (tracked_with r self)
    else (Return (), tracked_with r self).
Proof.
  unfold track, capable.
  destruct backend, (Resource.is_tf_trackable r),
    (Resource.is_jax_layer r), (Resource.is_layer r), (Resource.built r);
    reflexivity.
Qed.

Lemma iadd_list name (vs l : list var) self :
  _tf_trackable self !! name = Some (AVariables l) →
  iadd name (mret vs) self
  = (Return (), set_tf_trackable (<[name := AVariables (l ++ vs)]>) self).
Proof.
  intros Hl. unfold iadd, getattr. rewrite run_bind, Hl. done.
Qed.

Lemma track_variables_native backend r self vs tvs ntvs :
  backend ≠ jax →
  holds_lists self vs tvs ntvs →
  track_variables backend r self
  = (Return (),
     set_tf_trackable
       (λ m, <["non_trainable_variables" :=
                 AVariables (ntvs ++ Resource.non_trainable_variables r)]>
               (<["trainable_variables" :=
                    AVariables (tvs ++ Resource.trainable_variables r)]>
                  (<["variables" :=
                       AVariables (vs ++ Resource.variables r)]> m)))
       self).
Proof.
  intros Hb (Hv & Htv & Hntv). unfold track_variables.
  rewrite decide_False by done.
  rewrite run_bind, (iadd_list _ _ vs) by done.
  rewrite run_bind, (iadd_list _ _ tvs)
    by (cbn; by rewrite lookup_insert_ne).
  rewrite (iadd_list _ _ ntvs)
    by (cbn; by rewrite !lookup_insert_ne).
  done.
Qed.

Lemma raises_only_getattr P name :
  P (PyAttributeError name) → raises_only (S:=archive) P (getattr name).
Proof.
  intros HP self e self'. unfold getattr.
  destruct (_ !! _); intros [= <- <-]. done.
Qed.

Lemma raises_only_iadd name (rhs : M archive (list var)) :
  raises_only host_error rhs → raises_only host_error (iadd name rhs).
Proof.
  intros Hr. unfold iadd.
  apply raises_only_bind.
  { apply raises_only_getattr. right. right. by eexists. }
  intros cur. apply raises_only_bind; [done|]. intros vs.
  destruct cur; try (apply raises_only_raise; by left).
  apply raises_only_modify.
Qed.

Lemma raises_only_track_variables backend r :
  raises_only host_error (track_variables (Fn:=Fn) backend r).
Proof.
  assert (∀ name, raises_only (S:=archive) host_error (getattr name)) as Hget.
  { intros name. apply raises_only_getattr. right. right. by eexists. }
  assert (∀ l, raises_only host_error
            (comprehension l (tf_Variable (Fn:=Fn)))) as Hc.
  { intros l. apply raises_only_comprehension. intros v s e s' [=]. }
  unfold track_variables. destruct (decide (backend = jax)).
  - apply raises_only_bind; [apply raises_only_modify|]. intros _.
    apply raises_only_bind; [by apply raises_only_iadd|]. intros _.
    apply raises_only_bind; [by apply raises_only_iadd|]. intros _.
    apply raises_only_bind; [done|]. intros a.
    apply raises_only_bind; [done|]. intros b.
    apply raises_only_bind; [|intros; apply raises_only_modify].
    destruct a, b; try (apply raises_only_raise; by left).
    apply raises_only_ret.
  - repeat (apply raises_only_bind; [|intros _]);
      apply raises_only_iadd, raises_only_ret.
Qed.


Lemma iadd_run name (rhs : M archive (list var)) self l vs self1 :
  _tf_trackable self !! name = Some (AVariables l) →
  rhs self = (Return vs, self1) →
  iadd name rhs self
  = (Return (), set_tf_trackable (<[name := AVariables (l ++ vs)]>) self1).
Proof.
  intros Hl Hrhs. unfold iadd, getattr.
  rewrite run_bind, Hl, run_bind, Hrhs. done.
Qed.

Lemma comprehension_tf_Variable l self :
  comprehension l tf_Variable self
  = (Return (mirrors (next_serial self) l),
     set_next_serial (advance (next_serial self) l) self).
Proof.
  revert self. induction l as [|v l IH]; intros self.
  { by destruct self. }
  cbn [comprehension]. rewrite run_bind. cbn [tf_Variable].
  rewrite run_bind, IH. done.
Qed.

(** [track_variables] on the JAX backend: the backend lists receive the
    variables of the layer, the lists of [self._tf_trackable] receive new
    variable objects. *)
Lemma track_variables_jax r self vs tvs ntvs :
  holds_lists self vs tvs ntvs →
  let n := next_serial self in
  let n' := advance n (Resource.trainable_variables r) in
  let tvs' := tvs ++ mirrors n (Resource.trainable_variables r) in
  let ntvs' := ntvs ++ mirrors n' (Resource.non_trainable_variables r) in
  ∃ self',
    track_variables jax r self = (Return (), self')
    ∧ holds_lists self' (tvs' ++ ntvs') tvs' ntvs'
    ∧ next_serial self'
      = advance n' (Resource.non_trainable_variables r)
    ∧ _backend_trainable_variables self'
      = _backend_trainable_variables self
        ++ Resource.trainable_variables r
    ∧ _backend_non_trainable_variables self'
      = _backend_non_trainable_variables self
        ++ Resource.non_trainable_variables r
    ∧ _backend_variables self'
      = _backend_trainable_variables self'
        ++ _backend_non_trainable_variables self'
    ∧ _endpoint_names self' = _endpoint_names self
    ∧ _endpoint_signatures self' = _endpoint_signatures self.
Proof.
  intros (Hv & Htv & Hntv) n n' tvs' ntvs'.
  unfold track_variables. rewrite decide_True by done.
  unfold tree_flatten.
  rewrite run_modify.
  rewrite run_bind.
  erewrite iadd_run; [|exact Htv|apply comprehension_tf_Variable].
  rewrite run_bind.
  erewrite iadd_run;
    [|cbn; rewrite lookup_insert_ne by done; exact Hntv
     |apply comprehension_tf_Variable].
  rewrite run_bind. unfold getattr at 1.
  cbn [_tf_trackable set_tf_trackable set_next_serial set_backend_lists].
  rewrite lookup_insert_ne, lookup_insert_eq by done.
  rewrite run_bind. unfold getattr at 1.
  cbn [_tf_trackable set_tf_trackable set_next_serial set_backend_lists].
  rewrite lookup_insert_eq.
  cbn [add]. rewrite run_ret.
  eexists. split; [reflexivity|].
  unfold holds_lists.
  cbn [_tf_trackable set_tf_trackable set_next_serial set_backend_lists
       next_serial _backend_trainable_variables _backend_variables
       _backend_non_trainable_variables _endpoint_names
       _endpoint_signatures].
  split_and!; try done.
  - apply lookup_insert_eq.
  - rewrite !lookup_insert_ne by done. apply lookup_insert_eq.
  - rewrite lookup_insert_ne by done. apply lookup_insert_eq.
Qed.

Lemma holds_lists_tracked_with r self vs tvs ntvs :
  holds_lists self vs tvs ntvs → holds_lists (tracked_with r self) vs tvs ntvs.
Proof. done. Qed.

(** [track] on a built layer, on a backend whose variables are the
    runtime's own. *)
Lemma track_native backend r self vs tvs ntvs :
  backend ≠ jax →
  capable backend r = true →
  Resource.is_layer r = true →
  Resource.built r = true →
  holds_lists self vs tvs ntvs →
  ∃ self',
    track backend r self = (Return (), self')
    ∧ holds_lists self'
        (vs ++ Resource.variables r)
        (tvs ++ Resource.trainable_variables r)
        (ntvs ++ Resource.non_trainable_variables r)
    ∧ _endpoint_names self' = _endpoint_names self
    ∧ _endpoint_signatures self' = _endpoint_signatures self.
Proof.
  intros Hb Hc Hl Hbuilt Hlists.
  rewrite track_unfold, Hc, Hl, Hbuilt. cbn [negb].
  erewrite track_variables_native
    by eauto using holds_lists_tracked_with.
  eexists. split; [done|]. split; [|done].
  destruct Hlists as (Hv & Htv & Hntv).
  unfold holds_lists.
  cbn [_tf_trackable set_tf_trackable tracked_with set_tracked].
  split_and!.
  - rewrite !lookup_insert_ne by done. apply lookup_insert_eq.
  - rewrite lookup_insert_ne by done. apply lookup_insert_eq.
  - apply lookup_insert_eq.
Qed.

Lemma track_jax r self vs tvs ntvs :
  Resource.is_jax_layer r = true →
  Resource.is_layer r = true →
  Resource.built r = true →
  holds_lists self vs tvs ntvs →
  let n := next_serial self in
  let n' := advance n (Resource.trainable_variables r) in
  let tvs' := tvs ++ mirrors n (Resource.trainable_variables r) in
  let ntvs' := ntvs ++ mirrors n' (Resource.non_trainable_variables r) in
  ∃ self',
    track jax r self = (Return (), self')
    ∧ holds_lists self' (tvs' ++ ntvs') tvs' ntvs'
    ∧ next_serial self'
      = advance n' (Resource.non_trainable_variables r)
    ∧ _backend_trainable_variables self'
      = _backend_trainable_variables self
        ++ Resource.trainable_variables r
    ∧ _backend_non_trainable_variables self'
      = _backend_non_trainable_variables self
        ++ Resource.non_trainable_variables r.
Proof.
  intros Hc Hl Hb Hlists n n' tvs' ntvs'.
  rewrite track_unfold. unfold capable. rewrite Hc, Hl, Hb. cbn [negb].
  destruct (track_variables_jax r (tracked_with r self) vs tvs ntvs)
    as (self' & Hrun & ? & ? & ? & ? & _); [done|].
  exists self'. split_and!; done.
Qed.

Lemma mirrors_range n l v :
  v ∈ mirrors n l →
  ∃ k, v = TfMirror k ∧ (n ≤ k)%positive ∧ (k < advance n l)%positive.
Proof.
  revert n. induction l as [|w l IH]; intros n; cbn.
  { by intros ?%elem_of_nil. }
  assert (∀ m k, (m ≤ advance m k)%positive) as Hle.
  { intros m k. revert m. induction k as [|? k IHk]; intros m; cbn; [lia|].
    specialize (IHk (Pos.succ m)). lia. }
  intros [->|Hv]%elem_of_cons.
  - exists n. split; [done|]. specialize (Hle (Pos.succ n) l). lia.
  - destruct (IH _ Hv) as (k & -> & ? & ?). exists k. split; [done|]. lia.
Qed.

Lemma advance_le n l : (n ≤ advance n l)%positive.
Proof.
  revert n. induction l as [|? l IH]; intros n; cbn; [lia|].
  specialize (IH (Pos.succ n)). lia.
Qed.

Lemma NoDup_mirrors n l : NoDup (mirrors n l).
Proof.
  revert n. induction l as [|w l IH]; intros n; cbn.
  { constructor. }
  constructor; [|done].
  intros (k & [= <-] & ? & _)%mirrors_range. lia.
Qed.

Lemma NoDup_mirrors_app n l m k :
  (advance n l ≤ m)%positive → NoDup k →
  (∀ v, v ∈ k → ∃ j, v = TfMirror j ∧ (m ≤ j)%positive) →
  NoDup (mirrors n l ++ k).
Proof.
  intros Hle Hk Hrange. apply NoDup_app. split_and!; [| |done].
  - apply NoDup_mirrors.
  - intros v (j & -> & ? & ?)%mirrors_range Hv.
    destruct (Hrange _ Hv) as (j' & [= <-] & ?). lia.
Qed.

Lemma NoDup_mirrors_four n0 l0 l1 l2 l3 :
  let n1 := advance n0 l0 in
  let n2 := advance n1 l1 in
  let n3 := advance n2 l2 in
  NoDup ((mirrors n0 l0 ++ mirrors n2 l2)
         ++ (mirrors n1 l1 ++ mirrors n3 l3)).
Proof.
  intros n1 n2 n3.
  assert (∀ m n l v, (m ≤ n)%positive → v ∈ mirrors n l →
                     ∃ j, v = TfMirror j ∧ (m ≤ j)%positive) as Hr.
  { intros m n l v Hmn (j & -> & ? & _)%mirrors_range.
    exists j. split; [done|lia]. }
  pose proof (advance_le n1 l1). pose proof (advance_le n2 l2).
  fold n2 in H0. fold n3 in H1.
  assert (NoDup (mirrors n0 l0 ++ mirrors n1 l1
                 ++ mirrors n2 l2 ++ mirrors n3 l3)) as Hnd.
  { apply (NoDup_mirrors_app _ _ n1); [done| |].
    - apply (NoDup_mirrors_app _ _ n2); [done| |].
      + apply (NoDup_mirrors_app _ _ n3); [done|apply NoDup_mirrors|].
        intros v. by apply Hr.
      + intros v [?|?]%elem_of_app; eapply Hr; [|done| |done]; lia.
    - intros v [?|[?|?]%elem_of_app]%elem_of_app;
        eapply Hr; [|done| |done| |done]; lia. }
  eapply NoDup_Permutation_proper; [|exact Hnd].
  rewrite <- !(assoc_L (++)).
  f_equiv. rewrite !(assoc_L (++)). f_equiv. apply Permutation_app_comm.
Qed.

(** C2, as the code has it.  On the TensorFlow backend [track] appends the
    three sequences of the root to those of the archive at every call:
    after two calls on the same built layer each of them holds the
    sequence of the root twice, and [variables] is free of duplicates only
    if the root has no variables.  On the JAX backend every call wraps the
    parameters of the root in new variable objects: the sequences of the
    archive receive two distinct mirrors of each parameter, and the lists
    of backend variables hold the parameters of the root twice. *)
Theorem track_twice_appends_twice r self vs tvs ntvs :
  Resource.is_layer r = true →
  Resource.built r = true →
  holds_lists self vs tvs ntvs →
  (Resource.is_tf_trackable r = true →
   ∃ self',
     (track tensorflow r;; track tensorflow r) self = (Return (), self')
     ∧ variables self'
       = (Return (AVariables
                    (vs ++ Resource.variables r ++ Resource.variables r)),
          self')
     ∧ trainable_variables self'
       = (Return (AVariables
                    (tvs ++ Resource.trainable_variables r
                         ++ Resource.trainable_variables r)),
          self')
     ∧ non_trainable_variables self'
       = (Return (AVariables
                    (ntvs ++ Resource.non_trainable_variables r
                          ++ Resource.non_trainable_variables r)),
          self')
     ∧ (NoDup (vs ++ Resource.variables r ++ Resource.variables r)
        → Resource.variables r = []))
  ∧ (Resource.is_jax_layer r = true →
     let rtv := Resource.trainable_variables r in
     let rntv := Resource.non_trainable_variables r in
     let n0 := next_serial self in
     let n1 := advance n0 rtv in
     let n2 := advance n1 rntv in
     let n3 := advance n2 rtv in
     let new_tvs := mirrors n0 rtv ++ mirrors n2 rtv in
     let new_ntvs := mirrors n1 rntv ++ mirrors n3 rntv in
     ∃ self',
       (track jax r;; track jax r) self = (Return (), self')
       ∧ variables self'
         = (Return (AVariables ((tvs ++ new_tvs) ++ (ntvs ++ new_ntvs))),
            self')
       ∧ trainable_variables self'
         = (Return (AVariables (tvs ++ new_tvs)), self')
       ∧ non_trainable_variables self'
         = (Return (AVariables (ntvs ++ new_ntvs)), self')
       ∧ NoDup (new_tvs ++ new_ntvs)
       ∧ _backend_trainable_variables self'
         = _backend_trainable_variables self ++ rtv ++ rtv
       ∧ _backend_non_trainable_variables self'
         = _backend_non_trainable_variables self ++ rntv ++ rntv).
Proof.
  intros Hl Hb Hlists. split.
  - intros Ht.
    destruct (track_native tensorflow r self vs tvs ntvs)
      as (self1 & Hrun1 & Hlists1 & _); [done..|].
    destruct (track_native tensorflow r self1 _ _ _ ltac:(done) Ht Hl Hb
                Hlists1) as (self2 & Hrun2 & (Hv & Htv & Hntv) & _).
    exists self2. rewrite run_bind, Hrun1.
    split; [done|].
    unfold variables, trainable_variables, non_trainable_variables, getattr.
    rewrite Hv, Htv, Hntv, <- !(assoc_L (++)).
    split_and!; [done..|].
    intros (_ & _ & Hnd)%NoDup_app.
    apply NoDup_app in Hnd as (_ & Hnd & _).
    destruct (Resource.variables r) as [|v l]; [done|].
    exfalso. apply (Hnd v); apply elem_of_cons; by left.
  - intros Hj rtv rntv n0 n1 n2 n3 new_tvs new_ntvs.
    destruct (track_jax r self vs tvs ntvs Hj Hl Hb Hlists)
      as (self1 & Hrun1 & Hlists1 & Hn1 & Hbt1 & Hbnt1).
    destruct (track_jax r self1 _ _ _ Hj Hl Hb Hlists1)
      as (self2 & Hrun2 & (Hv & Htv & Hntv) & _ & Hbt2 & Hbnt2).
    exists self2. rewrite run_bind, Hrun1.
    split; [done|].
    rewrite Hn1 in Hv, Htv, Hntv.
    subst new_tvs new_ntvs n3 n2 n1 n0 rtv rntv.
    unfold variables, trainable_variables, non_trainable_variables, getattr.
    rewrite Hv, Htv, Hntv, Hbt2, Hbnt2, Hbt1, Hbnt1.
    rewrite <- !(assoc_L (++)).
    split_and!; try done.
    rewrite !(assoc_L (++)). rewrite <- (assoc_L (++) (_ ++ _)).
    apply NoDup_mirrors_four.
Qed.

(** C5.  [track] rejects with invalid-resource-type every resource that
    lacks the capability the backend requires, rejects with not-built
    every capable layer that is not built, and does not reject a built
    capable layer: on such a layer it raises neither of the two, and it
    returns whenever the three variable attributes hold lists. *)
Theorem track_rejections backend r self :
  (capable backend r = false →
   track backend r self = (Raise InvalidResourceType, self))
  ∧ (capable backend r = true → Resource.is_layer r = true →
     Resource.built r = false →
     track backend r self = (Raise NotBuilt, self))
  ∧ (capable backend r = true → Resource.is_layer r = true →
     Resource.built r = true →
     (track backend r self).1 ≠ Raise InvalidResourceType
     ∧ (track backend r self).1 ≠ Raise NotBuilt
     ∧ (∀ vs tvs ntvs, holds_lists self vs tvs ntvs →
          (track backend r self).1 = Return ())).
Proof.
  split_and!.
  - rewrite track_unfold. by intros ->.
  - rewrite track_unfold. by intros -> -> ->.
  - intros Hc Hl Hb.
    assert (∀ e, host_error e → e ≠ InvalidResourceType ∧ e ≠ NotBuilt)
      as Hhost.
    { intros e [->|[->|[name ->]]]; done. }
    split_and!.
    + rewrite track_unfold, Hc, Hl, Hb. cbn [negb].
      destruct (track_variables backend r (tracked_with r self))
        as [[[]|e] s'] eqn:Hrun; cbn; [done|].
      apply raises_only_track_variables, Hhost in Hrun. naive_solver.
    + rewrite track_unfold, Hc, Hl, Hb. cbn [negb].
      destruct (track_variables backend r (tracked_with r self))
        as [[[]|e] s'] eqn:Hrun; cbn; [done|].
      apply raises_only_track_variables, Hhost in Hrun. naive_solver.
    + intros vs tvs ntvs Hlists.
      destruct (decide (backend = jax)) as [->|Hne].
      * rewrite track_unfold, Hc, Hl, Hb. cbn [negb].
        destruct (track_variables_jax r (tracked_with r self) vs tvs ntvs)
          as (self' & -> & _); done.
      * destruct (track_native backend r self vs tvs ntvs)
          as (self' & -> & _); done.
Qed.

(** C4, as the code has it.  [add_endpoint] raises
    duplicate-endpoint-name when the name is already registered, whatever
    the other arguments.  For a name that is not registered and a
    signature that is not given (its truth value is false), it raises
    unspecialized-function when [fn] is a [tf.function] without any
    concrete function, raises missing-signature when [fn] is not a
    [tf.function], and otherwise registers [fn] itself, provided that
    the trackable object takes the name as an attribute.  For a name
    that is not registered and a signature that is given and that the
    runtime accepts, it succeeds under the same proviso: it records the
    signature, sets the frozen callable as an attribute and appends the
    name.  For a name that the object refuses, the call raises the
    exception of [setattr] in both cases and does not register the name;
    the signature, when one was given, is recorded by then. *)
Theorem add_endpoint_outcomes backend name fn self :
  (∀ sig, name ∈ _endpoint_names self →
     add_endpoint backend name fn sig self
     = (Raise (DuplicateEndpointName name), self))
  ∧ (∀ sig, name ∉ _endpoint_names self →
       truthy sig = false →
       TF.is_generic_function fn = true →
       TF._list_all_concrete_functions fn = [] →
       add_endpoint backend name fn sig self
       = (Raise UnspecializedFunction, self))
  ∧ (∀ sig, name ∉ _endpoint_names self →
       truthy sig = false →
       TF.is_generic_function fn = false →
       add_endpoint backend name fn sig self
       = (Raise MissingSignature, self))
  ∧ (∀ sig, name ∉ _endpoint_names self →
       truthy sig = false →
       TF.is_generic_function fn = true →
       TF._list_all_concrete_functions fn ≠ [] →
       TF.setattr_refusal name = None →
       add_endpoint backend name fn sig self
       = (Return (),
          set_endpoint_names (λ names, names ++ [name])
            (set_tf_trackable (<[name := AFunction fn]>) self)))
  ∧ (∀ sig decorated_fn,
       name ∉ _endpoint_names self →
       truthy (Some sig) = true →
       decorate backend self fn sig = Some decorated_fn →
       TF.setattr_refusal name = None →
       add_endpoint backend name fn (Some sig) self
       = (Return (),
          set_endpoint_names (λ names, names ++ [name])
            (set_tf_trackable (<[name := AFunction decorated_fn]>)
               (set_endpoint_signatures (<[name := sig]>) self))))
  ∧ (∀ sig why, name ∉ _endpoint_names self →
       truthy sig = false →
       TF.is_generic_function fn = true →
       TF._list_all_concrete_functions fn ≠ [] →
       TF.setattr_refusal name = Some why →
       add_endpoint backend name fn sig self
       = (Raise (refusal_error name why), self))
  ∧ (∀ sig decorated_fn why,
       name ∉ _endpoint_names self →
       truthy (Some sig) = true →
       decorate backend self fn sig = Some decorated_fn →
       TF.setattr_refusal name = Some why →
       add_endpoint backend name fn (Some sig) self
       = (Raise (refusal_error name why),
          set_endpoint_signatures (<[name := sig]>) self)).
Proof.
  split_and!.
  - intros sig Hin. by apply add_endpoint_duplicate.
  - intros sig Hin Hsig Hg Hl. rewrite add_endpoint_falsy by done.
    by rewrite Hg, Hl.
  - intros sig Hin Hsig Hg. rewrite add_endpoint_falsy by done.
    by rewrite Hg.
  - intros sig Hin Hsig Hg Hl Hset. rewrite add_endpoint_falsy by done.
    rewrite Hg, Hset. by destruct (TF._list_all_concrete_functions fn).
  - intros sig d Hin Hsig Hd Hset.
    by rewrite add_endpoint_truthy, Hd, Hset.
  - intros sig why Hin Hsig Hg Hl Hset. rewrite add_endpoint_falsy by done.
    rewrite Hg, Hset. by destruct (TF._list_all_concrete_functions fn).
  - intros sig d why Hin Hsig Hd Hset.
    by rewrite add_endpoint_truthy, Hd, Hset.
Qed.

(** C6.  A call of [add_endpoint] that raises duplicate-endpoint-name,
    unspecialized-function or missing-signature, or that raises because
    the runtime rejects the function or the signature, leaves the whole
    archive as it was, and so the list of endpoint names and the map of
    endpoint signatures.  These are the exceptions that are raised
    before the signature is recorded.  The one exception that is raised
    after it is that of [setattr], for a name that the trackable object
    refuses: the list of names is as it was then too, and the map of
    signatures has the signature of the call under the name, when one
    was given. *)
Theorem add_endpoint_atomic backend name fn sig self e self' :
  add_endpoint backend name fn sig self = (Raise e, self') →
  (e = DuplicateEndpointName name ∨ e = UnspecializedFunction
   ∨ e = MissingSignature ∨ e = RuntimeFailure →
   self' = self
   ∧ _endpoint_names self' = _endpoint_names self
   ∧ _endpoint_signatures self' = _endpoint_signatures self)
  ∧ (e ≠ DuplicateEndpointName name → e ≠ UnspecializedFunction →
     e ≠ MissingSignature → e ≠ RuntimeFailure →
     ∃ why, TF.setattr_refusal name = Some why
       ∧ e = refusal_error name why
       ∧ _endpoint_names self' = _endpoint_names self
       ∧ _endpoint_signatures self'
         = if truthy sig
           then <[name := default [] sig]> (_endpoint_signatures self)
           else _endpoint_signatures self).
Proof.
  intros [[-> He]|(why & Hset & -> & Hin & ->)]%add_endpoint_raise.
  - split; [done|]. intros. naive_solver.
  - pose proof (refusal_error_other name why) as (? & ? & ? & ?).
    split; [naive_solver|]. intros _ _ _ _. exists why.
    by destruct (truthy sig).
Qed.

(** C10, as the code has it.  An empty signature is treated exactly as
    no signature: the call has the same outcome and leaves the same
    archive, and the signature is not recorded.  For a name that is not
    registered the call raises missing-signature when [fn] is not a
    [tf.function], and raises unspecialized-function, not
    missing-signature, when it is one that has no concrete function;
    when it has one, the call raises neither of the two, and sets [fn]
    itself as the attribute, which registers it unless the trackable
    object refuses the name. *)
Theorem add_endpoint_empty_signature backend name fn self :
  add_endpoint backend name fn (Some []) self
  = add_endpoint backend name fn None self
  ∧ _endpoint_signatures (add_endpoint backend name fn (Some []) self).2
    = _endpoint_signatures self
  ∧ add_endpoint backend name fn (Some []) self
    = if bool_decide (name ∈ _endpoint_names self) then
        (Raise (DuplicateEndpointName name), self)
      else if negb (TF.is_generic_function fn) then
        (Raise MissingSignature, self)
      else if bool_decide (TF._list_all_concrete_functions fn = []) then
        (Raise UnspecializedFunction, self)
      else
        match TF.setattr_refusal name with
        | Some why => (Raise (refusal_error name why), self)
        | None =>
            (Return (),
             set_endpoint_names (λ names, names ++ [name])
               (set_tf_trackable (<[name := AFunction fn]>) self))
        end.
Proof.
  assert (add_endpoint backend name fn (Some []) self
    = if bool_decide (name ∈ _endpoint_names self) then
        (Raise (DuplicateEndpointName name), self)
      else if negb (TF.is_generic_function fn) then
        (Raise MissingSignature, self)
      else if bool_decide (TF._list_all_concrete_functions fn = []) then
        (Raise UnspecializedFunction, self)
      else
        match TF.setattr_refusal name with
        | Some why => (Raise (refusal_error name why), self)
        | None =>
            (Return (),
             set_endpoint_names (λ names, names ++ [name])
               (set_tf_trackable (<[name := AFunction fn]>) self))
        end) as Heq.
  { case_bool_decide as Hin; [by apply add_endpoint_duplicate|].
    rewrite add_endpoint_falsy by done.
    destruct (TF.is_generic_function fn); [|done]. cbn [negb].
    destruct (TF._list_all_concrete_functions fn); done. }
  split_and!; [|rewrite Heq|done].
  - destruct (decide (name ∈ _endpoint_names self)) as [Hin|Hin].
    + by rewrite !add_endpoint_duplicate.
    + by rewrite !add_endpoint_falsy.
  - repeat case_match; done.
Qed.

End facts.
End ArchiveFacts.

Module WriteFacts.
Import Dict DictFacts ExportArchive Session ArchiveFacts CollectorFacts.
Section facts.
Context {Fn : Type} `{!TF.TFRuntime Fn}.
Notation archive := (ExportArchive.t (Fn:=Fn)).
Notation lookups ds := (filter (λ d, Resource.is_lookup d = true) ds).
Implicit Types (self : archive) (fn : Fn).

Lemma getattr_pure name self : (getattr name self).2 = self.
Proof. unfold getattr. by destruct (_tf_trackable self !! name). Qed.

Lemma get_concrete_fn_pure name self : (_get_concrete_fn name self).2 = self.
Proof.
  unfold _get_concrete_fn. rewrite run_gets.
  destruct (decide _); [apply getattr_pure|].
  rewrite run_bind. unfold getattr.
  destruct (_tf_trackable self !! name) as [a|]; [|done].
  by destruct ((TF._trackable_children (as_object a)).*2).
Qed.

Lemma get_concrete_fn_run name self :
  _get_concrete_fn name self = ((_get_concrete_fn name self).1, self).
Proof.
  rewrite <- (get_concrete_fn_pure name self) at 3.
  by destruct (_get_concrete_fn name self).
Qed.

(** The concrete function of an endpoint only depends on the signature
    and on the attribute of that name. *)
Lemma get_concrete_fn_lookup name self self' :
  _endpoint_signatures self' !! name = _endpoint_signatures self !! name →
  _tf_trackable self' !! name = _tf_trackable self !! name →
  (_get_concrete_fn name self').1 = (_get_concrete_fn name self).1.
Proof.
  intros Hs Ha. unfold _get_concrete_fn. rewrite !run_gets, Hs.
  case_decide.
  - unfold getattr. rewrite Ha. by destruct (_tf_trackable self !! name).
  - rewrite !run_bind. unfold getattr. rewrite Ha.
    destruct (_tf_trackable self !! name) as [a|]; [|done].
    by destruct (TF._trackable_children (as_object a)).*2.
Qed.

(** What [_get_concrete_fn] returns: the attribute of the name when the
    name has a signature, and the first trackable child of that attribute
    when it has none. *)
Lemma get_concrete_fn_Return name self trace :
  (_get_concrete_fn name self).1 = Return trace →
  ∃ attr,
    _tf_trackable self !! name = Some attr
    ∧ (is_Some (_endpoint_signatures self !! name) → trace = attr)
    ∧ (_endpoint_signatures self !! name = None →
       ∃ key first rest,
         TF._trackable_children (as_object attr) = (key, first) :: rest
         ∧ trace = AFunction first).
Proof.
  unfold _get_concrete_fn. rewrite run_gets. case_decide as Hsig.
  - unfold getattr.
    destruct (_tf_trackable self !! name) as [a|]; [|done].
    intros [= <-]. exists a. split_and!; [done..|].
    intros Hnone. rewrite Hnone in Hsig. by destruct Hsig.
  - rewrite run_bind. unfold getattr.
    destruct (_tf_trackable self !! name) as [a|]; [|done].
    destruct (TF._trackable_children (as_object a))
      as [|[key first] rest] eqn:Hch; [done|].
    intros [= <-]. exists a. split_and!; [done..|]. intros _.
    by exists key, first, rest.
Qed.

Lemma raises_only_get_concrete_fn name :
  raises_only host_error (_get_concrete_fn (Fn:=Fn) name).
Proof.
  assert (∀ n, raises_only (S:=archive) host_error (getattr n)) as Hget.
  { intros n. apply raises_only_getattr. right. right. by eexists. }
  unfold _get_concrete_fn.
  apply raises_only_bind; [apply raises_only_gets|]. intros sigs.
  destruct (decide _); [done|].
  apply raises_only_bind; [done|]. intros a.
  destruct ((TF._trackable_children (as_object a)).*2).
  - apply raises_only_raise. right. by left.
  - apply raises_only_ret.
Qed.

(** *** Comprehensions that leave the archive as it is *)

Lemma comprehension_pure {A B} (f : A → M archive B) l :
  (∀ x s, (f x s).2 = s) → ∀ s, (comprehension l f s).2 = s.
Proof.
  intros Hf. induction l as [|x l IH]; intros s; [done|].
  cbn [comprehension]. rewrite run_bind.
  pose proof (Hf x s) as Hx. destruct (f x s) as [[y|e] s1];
    cbn in Hx; subst s1; [|done].
  rewrite run_bind. pose proof (IH s) as Hl.
  destruct (comprehension l f s) as [[ys|e] s1]; cbn in Hl; by subst s1.
Qed.

Lemma comprehension_ext {A B} (f : A → M archive B) l (s s' : archive) :
  (∀ x s, (f x s).2 = s) →
  (∀ x, x ∈ l → (f x s').1 = (f x s).1) →
  (comprehension l f s').1 = (comprehension l f s).1.
Proof.
  intros Hpure. induction l as [|x l IH]; intros Hf; [done|].
  cbn [comprehension]. rewrite !run_bind.
  pose proof (Hf x (list_elem_of_here _ _)) as Hx.
  pose proof (Hpure x s) as Hs. pose proof (Hpure x s') as Hs'.
  destruct (f x s) as [o s1], (f x s') as [o' s1'].
  cbn in Hx, Hs, Hs'. subst. destruct o as [y|e]; [|done].
  rewrite !run_bind.
  assert ((comprehension l f s').1 = (comprehension l f s).1) as Hl.
  { apply IH. intros z Hz. apply Hf. by right. }
  pose proof (comprehension_pure f l Hpure s) as Hs.
  pose proof (comprehension_pure f l Hpure s') as Hs'.
  destruct (comprehension l f s) as [o s1], (comprehension l f s') as [o' s1'].
  cbn in Hl, Hs, Hs'. subst. by destruct o.
Qed.

Lemma comprehension_Return {A B} (f : A → M archive B) l :
  (∀ x s, (f x s).2 = s) →
  ∀ s ys, (comprehension l f s).1 = Return ys →
  Forall2 (λ x y, (f x s).1 = Return y) l ys.
Proof.
  intros Hpure. induction l as [|x l IH]; intros s ys.
  { intros [= <-]. constructor. }
  cbn [comprehension]. rewrite run_bind.
  pose proof (Hpure x s) as Hs.
  destruct (f x s) as [[y|e] s1] eqn:Hx; cbn in Hs; subst s1; [|done].
  rewrite run_bind.
  pose proof (comprehension_pure f l Hpure s) as Hs.
  destruct (comprehension l f s) as [[zs|e] s1] eqn:Hl;
    cbn in Hs; subst s1; [|done].
  intros [= <-]. constructor; [by rewrite Hx|].
  apply IH. by rewrite Hl.
Qed.

(** *** The loop that fills the signature map *)

Lemma fill_signatures_spec names : ∀ (sigs : list (string * Attr)) self,
  match fill_signatures names sigs self with
  | (Return sigs', self') =>
      self' = self
      ∧ (∀ name, name ∈ names →
           ∃ c, (_get_concrete_fn name self).1 = Return c
                ∧ getitem sigs' name = Some c)
      ∧ (∀ name, name ∉ names → getitem sigs' name = getitem sigs name)
  | (Raise e, self') =>
      self' = self
      ∧ ∃ name, name ∈ names ∧ (_get_concrete_fn name self).1 = Raise e
  end.
Proof.
  induction names as [|name names IH]; intros sigs self.
  { cbn. split_and!; [done| |done]. by intros ? ?%elem_of_nil. }
  cbn [fill_signatures]. rewrite run_bind, get_concrete_fn_run.
  destruct ((_get_concrete_fn name self).1) as [c|e] eqn:Hc.
  - specialize (IH (setitem sigs name c) self).
    destruct (fill_signatures names _ self) as [[sigs'|e] self'].
    + destruct IH as (-> & Hin & Hout). split_and!; [done| |].
      * intros n Hn. destruct (decide (n ∈ names)) as [?|Hnn]; [by auto|].
        apply elem_of_cons in Hn as [->|?]; [|done].
        exists c. split; [done|]. rewrite Hout by done.
        by rewrite getitem_setitem, decide_True.
      * intros n [Hne Hn]%not_elem_of_cons. rewrite Hout by done.
        by rewrite getitem_setitem, decide_False.
    + destruct IH as (-> & n & Hn & He). split; [done|].
      exists n. split; [|done]. apply elem_of_cons. by right.
  - split; [done|]. exists name. split; [|done]. apply elem_of_cons. by left.
Qed.

Lemma fill_signatures_pure names :
  ∀ (sigs : list (string * Attr)) self,
  (fill_signatures names sigs self).2 = self.
Proof.
  intros sigs self. pose proof (fill_signatures_spec names sigs self) as Hs.
  destruct (fill_signatures names sigs self) as [[?|?] ?]; by destruct Hs.
Qed.

(** The keys of the signature map: the names, each once, in the order of
    the list. *)
Lemma fill_signatures_keys names :
  ∀ (sigs sigs' : list (string * Attr)) self self',
  fill_signatures names sigs self = (Return sigs', self') →
  (∀ key, key ∈ sigs'.*1 ↔ key ∈ names ∨ key ∈ sigs.*1)
  ∧ (NoDup sigs.*1 → NoDup sigs'.*1)
  ∧ (NoDup names → (∀ key, key ∈ names → key ∉ sigs.*1) →
     sigs'.*1 = sigs.*1 ++ names).
Proof.
  induction names as [|name names IH]; intros sigs sigs' self self'.
  { intros [= <- <-]. split_and!; [|done|by rewrite app_nil_r].
    intros key. rewrite elem_of_nil. tauto. }
  cbn [fill_signatures]. rewrite run_bind, get_concrete_fn_run.
  destruct ((_get_concrete_fn name self).1) as [c|e]; [|done].
  intros (Hkeys & Hnd & Hord)%IH. split_and!.
  - intros key. rewrite Hkeys, elem_of_setitem_keys, elem_of_cons. tauto.
  - intros Hs. by apply Hnd, setitem_keys_NoDup.
  - intros [Hname Hnames]%NoDup_cons Hfresh.
    rewrite Hord; [|done|].
    + rewrite setitem_keys, decide_False, <-(assoc_L (++)); [done|].
      apply Hfresh. by left.
    + intros key Hkey [->|Hin]%elem_of_setitem_keys; [done|].
      apply (Hfresh key); [by right|done].
Qed.

Lemma fill_signatures_returns names (sigs : list (string * Attr)) self :
  (∀ name, name ∈ names →
     ∃ c, (_get_concrete_fn name self).1 = Return c) →
  ∃ sigs', fill_signatures names sigs self = (Return sigs', self).
Proof.
  intros Hres. pose proof (fill_signatures_spec names sigs self) as Hspec.
  destruct (fill_signatures names sigs self) as [[sigs'|e] self'].
  - destruct Hspec as (-> & _). by exists sigs'.
  - destruct Hspec as (_ & name & Hname & He).
    destruct (Hres name Hname) as [c Hc]. congruence.
Qed.

Lemma raises_only_fill_signatures names (sigs : list (string * Attr)) :
  raises_only (S:=archive) host_error (fill_signatures names sigs).
Proof.
  intros self e self' Hrun.
  pose proof (fill_signatures_spec names sigs self) as Hspec.
  rewrite Hrun in Hspec. destruct Hspec as (_ & name & _ & He).
  destruct (_get_concrete_fn name self) as [o s] eqn:Hget.
  cbn in He. subst o. by eapply raises_only_get_concrete_fn.
Qed.

(** *** The objects handed to the collector *)

Lemma endpoint_functions_unfold self :
  endpoint_functions self
  = match (comprehension (_endpoint_names self) _get_concrete_fn self).1 with
    | Return attrs => Return (as_object <$> attrs)
    | Raise e => Raise e
    end.
Proof.
  unfold endpoint_functions. rewrite run_gets, run_bind.
  by destruct (comprehension _ _get_concrete_fn self) as [[attrs|e] s1].
Qed.

Lemma endpoint_functions_run {A} (k : list Fn → M archive A) self :
  (names ← gets _endpoint_names;
   fns ← comprehension names _get_concrete_fn;
   k (as_object <$> fns)) self
  = match endpoint_functions self with
    | Return fns => k fns self
    | Raise e => (Raise e, self)
    end.
Proof.
  rewrite endpoint_functions_unfold, run_gets, run_bind.
  pose proof (comprehension_pure _get_concrete_fn (_endpoint_names self)
                get_concrete_fn_pure self) as Hs.
  destruct (comprehension _ _get_concrete_fn self) as [[attrs|e] s1];
    cbn in Hs; by subst s1.
Qed.

(** When they are obtained, the concrete function of every endpoint
    is. *)
Lemma endpoint_functions_Return self fns :
  endpoint_functions self = Return fns →
  ∀ name, name ∈ _endpoint_names self →
    ∃ c, (_get_concrete_fn name self).1 = Return c.
Proof.
  rewrite endpoint_functions_unfold.
  destruct (comprehension _ _get_concrete_fn self).1 as [attrs|e] eqn:Hc;
    [|done].
  intros _ name Hname.
  apply (comprehension_Return _ _ get_concrete_fn_pure) in Hc.
  apply list_elem_of_lookup in Hname as [i Hi].
  destruct (Forall2_lookup_l _ _ _ _ _ Hc Hi) as (c & _ & Hget).
  by exists c.
Qed.

Lemma endpoint_functions_Raise self e :
  endpoint_functions self = Raise e → host_error e.
Proof.
  rewrite endpoint_functions_unfold.
  destruct (comprehension _ _get_concrete_fn self) as [[attrs|e'] s1] eqn:Hc;
    [done|].
  intros [= <-]. revert Hc.
  apply raises_only_comprehension, raises_only_get_concrete_fn.
Qed.

Lemma endpoint_functions_frame self self' :
  _endpoint_names self' = _endpoint_names self →
  (∀ name, name ∈ _endpoint_names self →
     (_get_concrete_fn name self').1 = (_get_concrete_fn name self).1) →
  endpoint_functions self' = endpoint_functions self.
Proof.
  intros Hn Hf. rewrite !endpoint_functions_unfold, Hn.
  by rewrite (comprehension_ext _get_concrete_fn (_endpoint_names self)
                self self' get_concrete_fn_pure Hf).
Qed.

(** *** [_filter_and_track_resources] *)

Lemma set_tf_trackable_id self f :
  f (_tf_trackable self) = _tf_trackable self → set_tf_trackable f self = self.
Proof. destruct self. unfold set_tf_trackable. cbn. by intros ->. Qed.

Lemma set_misc_assets_twice l k self :
  set_tf_trackable (<["_misc_assets" := AAssets l]>)
    (set_tf_trackable (<["_misc_assets" := AAssets k]>) self)
  = set_tf_trackable (<["_misc_assets" := AAssets l]>) self.
Proof.
  destruct self. unfold set_tf_trackable. cbn. f_equal.
  apply insert_insert_eq.
Qed.

Lemma append_misc_asset_run d self l :
  _tf_trackable self !! "_misc_assets" = Some (AAssets l) →
  append_misc_asset d self
  = (Return (),
     set_tf_trackable (<["_misc_assets" := AAssets (l ++ [d])]>) self).
Proof.
  intros Hl. unfold append_misc_asset. rewrite run_bind.
  unfold getattr. by rewrite Hl.
Qed.

Lemma misc_assets_inner_run ds : ∀ self l,
  _tf_trackable self !! "_misc_assets" = Some (AAssets l) →
  for_each ds (λ trackable,
    if Resource.is_lookup trackable
    then append_misc_asset trackable
    else mret ()) self
  = (Return (),
     set_tf_trackable (<["_misc_assets" := AAssets (l ++ lookups ds)]>) self).
Proof.
  induction ds as [|d ds IH]; intros self l Hl.
  - cbn. f_equal. symmetry. apply set_tf_trackable_id.
    rewrite app_nil_r. by apply insert_id.
  - cbn [for_each]. rewrite run_bind, filter_cons.
    destruct (Resource.is_lookup d) eqn:Hd.
    + rewrite decide_True by done.
      rewrite (append_misc_asset_run d self l Hl).
      rewrite (IH _ (l ++ [d])) by (cbn; apply lookup_insert_eq).
      by rewrite set_misc_assets_twice, <-(assoc_L (++)).
    + rewrite decide_False by done. by apply IH.
Qed.

Lemma misc_assets_outer_run roots : ∀ self l,
  _tf_trackable self !! "_misc_assets" = Some (AAssets l) →
  for_each roots (λ root,
    for_each (Resource.descendants root) (λ trackable,
      if Resource.is_lookup trackable
      then append_misc_asset trackable
      else mret ())) self
  = (Return (),
     set_tf_trackable
       (<["_misc_assets" :=
            AAssets (l ++ roots ≫= (λ root,
                            lookups (Resource.descendants root)))]>) self).
Proof.
  induction roots as [|root roots IH]; intros self l Hl.
  - cbn. f_equal. symmetry. apply set_tf_trackable_id.
    rewrite app_nil_r. by apply insert_id.
  - cbn [for_each]. rewrite run_bind.
    rewrite (misc_assets_inner_run _ self l Hl).
    rewrite (IH _ (l ++ lookups (Resource.descendants root)))
      by (cbn; apply lookup_insert_eq).
    cbn [mbind list_bind].
    by rewrite set_misc_assets_twice, <-(assoc_L (++)).
Qed.

(** The archive once the two reserved attributes are assigned. *)
Lemma filter_and_track_resources_run self :
  _filter_and_track_resources self
  = match endpoint_functions self with
    | Return fns =>
        match Collector._list_variables_used_by_fns fns with
        | Return r =>
            (Return (),
             set_tf_trackable
               (λ m, <["_misc_assets" := AAssets (lookup_assets self)]>
                       (<["_all_variables" := AVariables (r.1 ++ r.2)]> m))
               self)
        | Raise e => (Raise e, self)
        end
    | Raise e => (Raise e, self)
    end.
Proof.
  unfold _filter_and_track_resources.
  rewrite (endpoint_functions_run (λ fns,
    r ← lift (Collector._list_variables_used_by_fns fns); _)).
  destruct (endpoint_functions self) as [fns|e]; [|done].
  rewrite run_bind. unfold lift at 1.
  destruct (Collector._list_variables_used_by_fns fns) as [[tvs ntvs]|e];
    [|done].
  cbn [fst snd]. unfold assign. rewrite !run_modify, run_gets.
  unfold lookup_assets. cbn [_tracked set_tf_trackable].
  destruct (_tracked self) as [roots|].
  - rewrite (misc_assets_outer_run roots _ [])
      by (cbn; apply lookup_insert_eq).
    by rewrite set_misc_assets_twice.
  - done.
Qed.

Lemma get_variables_used_by_endpoints_run self :
  _get_variables_used_by_endpoints self
  = match endpoint_functions self with
    | Return fns => (Collector._list_variables_used_by_fns fns, self)
    | Raise e => (Raise e, self)
    end.
Proof.
  unfold _get_variables_used_by_endpoints.
  by rewrite (endpoint_functions_run (λ fns,
    lift (Collector._list_variables_used_by_fns fns))).
Qed.

Lemma raises_only_filter_and_track_resources :
  raises_only write_error (_filter_and_track_resources (Fn:=Fn)).
Proof.
  intros s e s'. rewrite filter_and_track_resources_run.
  destruct (endpoint_functions s) as [fns|e'] eqn:Hfns.
  - destruct (Collector._list_variables_used_by_fns fns) as [r|e'] eqn:Hc;
      [done|].
    intros [= <- <-]. apply collector_Raise in Hc as [_ [->|[->| ->]]].
    + by right.
    + left. right. right. by eexists.
    + left. right. right. by eexists.
  - intros [= <- <-]. left. by eapply endpoint_functions_Raise.
Qed.

(** What tracking leaves as it is. *)
Lemma track_step_frame backend self o self' :
  track_step backend self = (o, self') →
  _endpoint_names self' = _endpoint_names self
  ∧ _endpoint_signatures self' = _endpoint_signatures self
  ∧ ∀ name, backend ≠ tensorflow ∨ ¬ reserved name →
      _tf_trackable self' !! name = _tf_trackable self !! name.
Proof.
  unfold track_step. case_decide as Hb; [|by intros [= <- <-]].
  rewrite filter_and_track_resources_run.
  destruct (endpoint_functions self) as [fns|e]; [|by intros [= <- <-]].
  destruct (Collector._list_variables_used_by_fns fns) as [r|e];
    [|by intros [= <- <-]].
  intros [= <- <-]. split_and!; [done..|].
  intros name [?|Hname]; [done|]. cbn.
  rewrite !lookup_insert_ne; [done|..]; intros <-; apply Hname;
    [by left|by right].
Qed.

Lemma keeps_registry_track_step backend :
  keeps_registry (track_step backend).
Proof.
  intros s o s' Hrun. by destruct (track_step_frame _ _ _ _ Hrun) as (? & ? & _).
Qed.

(** [write_out] once the resources are tracked. *)
Lemma write_out_run backend filepath options self :
  _endpoint_names self ≠ [] →
  write_out backend filepath options self
  = match track_step backend self with
    | (Raise e, self1) => (Raise e, self1)
    | (Return _, self1) =>
        match fill_signatures (_endpoint_names self1) [] self1 with
        | (Raise e, self2) => (Raise e, self2)
        | (Return signatures, self2) =>
            if decide ("serving_default" ∉ _endpoint_names self2) then
              match _endpoint_names self2 with
              | first :: _ =>
                  match (_get_concrete_fn first self2).1 with
                  | Return fn =>
                      (Return
                         {| saved_object := _tf_trackable self2;
                            saved_filepath := filepath;
                            saved_options := options;
                            saved_signatures :=
                              setitem signatures "serving_default" fn |},
                       self2)
                  | Raise e => (Raise e, self2)
                  end
              | [] => (Raise PyIndexError, self2)
              end
            else
              (Return {| saved_object := _tf_trackable self2;
                         saved_filepath := filepath;
                         saved_options := options;
                         saved_signatures := signatures |},
               self2)
        end
    end.
Proof.
  intros Hne. unfold write_out, track_step.
  rewrite run_gets, run_raise_if, bool_decide_eq_false_2 by done.
  rewrite run_bind.
  destruct ((if decide (backend = tensorflow)
             then _filter_and_track_resources else mret ()) self)
    as [[[]|e] self1]; [|done].
  rewrite run_gets, run_bind.
  destruct (fill_signatures _ _ self1) as [[signatures|e] self2]; [|done].
  rewrite run_gets.
  destruct (decide ("serving_default" ∉ _endpoint_names self2)); [|done].
  rewrite run_bind, run_gets.
  destruct (_endpoint_names self2) as [|first rest]; [done|].
  rewrite run_bind, get_concrete_fn_run.
  destruct ((_get_concrete_fn first self2).1); done.
Qed.

Lemma write_error_not_no_endpoints e : write_error e → e ≠ NoEndpoints.
Proof. intros [[->|[->|[? ->]]]| ->]; done. Qed.

(** C3.  [write_out] raises no-endpoints exactly when no endpoint is
    registered.  When it returns, at least one endpoint is registered,
    the object it saves is [self._tf_trackable], and the signature map it
    saves has as its keys the registered names, in the order of their
    registration, followed by "serving_default" when no endpoint has
    that name.  It binds every registered name to the concrete function
    of that endpoint: the attribute of that name of the saved object when
    the endpoint has a recorded signature, and the first trackable child
    of that attribute when it has none; the attribute is the one the
    archive had before the call, unless the name is one of the two that
    tracking assigns.  It binds "serving_default" to what it binds the
    first registered name to when no endpoint is named "serving_default";
    when one is, the key is bound as every registered name is, to the
    concrete function of that endpoint.  [write_out] does get as far as
    the call of [tf.saved_model.save] when an endpoint is registered, the
    concrete function of every endpoint can be obtained and, on the
    TensorFlow backend, where the variables of the endpoints are
    collected first, the collector has an answer for each of them and no
    endpoint bears a name that tracking assigns.  On that backend it
    raises, and leaves the archive as it was, when the collector has no
    answer for one of them: the trace that the collector asks for fails,
    or the object has no variables to list. *)
Theorem write_out_signatures backend filepath options self :
  ((write_out backend filepath options self).1 = Raise NoEndpoints
   ↔ _endpoint_names self = [])
  ∧ (∀ artifact self',
       write_out backend filepath options self = (Return artifact, self') →
       let names := _endpoint_names self in
       let signatures := saved_signatures artifact in
       names ≠ []
       ∧ _endpoint_names self' = names
       ∧ saved_object artifact = _tf_trackable self'
       ∧ (∀ name, name ∈ names →
            ∃ attr trace,
              saved_object artifact !! name = Some attr
              ∧ getitem signatures name = Some trace
              ∧ (backend ≠ tensorflow ∨ ¬ reserved name →
                 _tf_trackable self !! name = Some attr)
              ∧ (is_Some (_endpoint_signatures self !! name) →
                 trace = attr)
              ∧ (_endpoint_signatures self !! name = None →
                 ∃ key first rest,
                   TF._trackable_children (as_object attr)
                   = (key, first) :: rest
                   ∧ trace = AFunction first))
       ∧ ("serving_default" ∉ names →
            ∃ first rest,
              names = first :: rest
              ∧ getitem signatures "serving_default"
                = getitem signatures first)
       ∧ (∀ key, key ∈ signatures.*1
                 ↔ key ∈ names ∨ key = "serving_default")
       ∧ NoDup signatures.*1
       ∧ (NoDup names →
          signatures.*1
          = names ++ if decide ("serving_default" ∈ names) then []
                     else ["serving_default"]))
  ∧ (∀ fns,
       _endpoint_names self ≠ [] →
       endpoint_functions self = Return fns →
       (backend = tensorflow →
        forallb Collector.answers fns = true
        ∧ ∀ name, name ∈ _endpoint_names self → ¬ reserved name) →
       ∃ artifact self',
         write_out backend filepath options self = (Return artifact, self'))
  ∧ (∀ fns,
       backend = tensorflow →
       _endpoint_names self ≠ [] →
       endpoint_functions self = Return fns →
       forallb Collector.answers fns = false →
       ∃ e, write_out backend filepath options self = (Raise e, self)
            ∧ Collector.collector_error e).
Proof.
  split_and!.
  - split.
    + intros Hraise.
      destruct (decide (_endpoint_names self = [])) as [|Hne]; [done|].
      exfalso.
      destruct (write_out backend filepath options self) as [o s'] eqn:Hrun.
      cbn in Hraise. subst o. rewrite write_out_run in Hrun by done.
      destruct (track_step backend self) as [[[]|e] self1] eqn:Hstep.
      2:{ injection Hrun as -> _. unfold track_step in Hstep.
          destruct (decide _); [|done].
          apply raises_only_filter_and_track_resources in Hstep.
          by apply write_error_not_no_endpoints in Hstep. }
      destruct (fill_signatures _ _ self1) as [[sigs|e] self2] eqn:Hfill.
      2:{ injection Hrun as -> _.
          apply raises_only_fill_signatures in Hfill.
          by destruct Hfill as [?|[?|[? ?]]]. }
      destruct (decide _); [|done].
      destruct (_endpoint_names self2); [done|].
      destruct (_get_concrete_fn s self2) as [[c|e] s2] eqn:Hget; [done|].
      cbn in Hrun. injection Hrun as -> _.
      apply raises_only_get_concrete_fn in Hget.
      by destruct Hget as [?|[?|[? ?]]].
    + intros Hnil. unfold write_out.
      rewrite run_gets, run_raise_if, bool_decide_eq_true_2 by done. done.
  - intros artifact self' Hrun names signatures.
    assert (names ≠ []) as Hne.
    { intros Hnil. unfold write_out in Hrun.
      rewrite run_gets, run_raise_if, bool_decide_eq_true_2 in Hrun
        by done. done. }
    split; [done|].
    rewrite write_out_run in Hrun by done.
    destruct (track_step backend self) as [[[]|e] self1] eqn:Hstep;
      [|done].
    apply track_step_frame in Hstep as (Hnames & Hsigs & Hattrs).
    pose proof (fill_signatures_spec (_endpoint_names self1) [] self1)
      as Hspec.
    destruct (fill_signatures _ _ self1) as [[sigs|e] self2] eqn:Hfill;
      [|done].
    pose proof (fill_signatures_keys _ _ _ _ _ Hfill)
      as (Hkeys & Hnd & Hord).
    clear Hfill. destruct Hspec as (-> & Hin & Hout).
    rewrite Hnames in *. subst names.
    specialize (Hnd (NoDup_nil_2 (A:=string))).
    assert (∀ name, name ∈ _endpoint_names self →
      ∃ attr trace,
        _tf_trackable self1 !! name = Some attr
        ∧ getitem sigs name = Some trace
        ∧ (backend ≠ tensorflow ∨ ¬ reserved name →
           _tf_trackable self !! name = Some attr)
        ∧ (is_Some (_endpoint_signatures self !! name) → trace = attr)
        ∧ (_endpoint_signatures self !! name = None →
           ∃ key first rest,
             TF._trackable_children (as_object attr) = (key, first) :: rest
             ∧ trace = AFunction first)) as Hpin.
    { intros name Hname. destruct (Hin name Hname) as (trace & Hget & Hitem).
      apply get_concrete_fn_Return in Hget as (attr & Hattr & Hsig & Hnosig).
      rewrite Hsigs in Hsig, Hnosig.
      exists attr, trace. split_and!; [done..| |done|done].
      intros Hname'. by rewrite <- Hattrs. }
    destruct (decide ("serving_default" ∉ _endpoint_names self))
      as [Hsd|Hsd].
    + destruct (_endpoint_names self) as [|first rest] eqn:Hnm; [done|].
      destruct ((_get_concrete_fn first self1).1) as [c|e] eqn:Hc;
        [|done].
      injection Hrun as <- <-. subst signatures.
      cbn [saved_signatures saved_object].
      split_and!; [done|done| | | | |].
      * intros name Hname.
        destruct (Hpin name Hname) as (attr & trace & ? & ? & ? & ? & ?).
        exists attr, trace. split_and!; [done| |done..].
        rewrite getitem_setitem, decide_False; [done|]. by intros <-.
      * intros _. exists first, rest. split; [done|].
        destruct (Hin first) as (c' & Hc' & Hitem); [by left|].
        rewrite !getitem_setitem, decide_True by done.
        rewrite decide_False by (intros <-; apply Hsd; by left).
        congruence.
      * intros key. rewrite elem_of_setitem_keys, Hkeys.
        rewrite elem_of_nil. tauto.
      * by apply setitem_keys_NoDup.
      * intros Hnames'. rewrite decide_False by done.
        rewrite setitem_keys, Hord; [|done|by intros ? _ ?%elem_of_nil].
        by rewrite decide_False.
    + injection Hrun as <- <-. subst signatures.
      cbn [saved_signatures saved_object].
      apply dec_stable in Hsd.
      split_and!; [done|done|done|done| |done|].
      * intros key. rewrite Hkeys, elem_of_nil.
        split; [tauto|]. intros [?| ->]; by left.
      * intros Hnames'. rewrite decide_True by done.
        rewrite Hord; [by rewrite app_nil_r|done|by intros ? _ ?%elem_of_nil].
  - intros fns Hne Hfns Htf.
    rewrite write_out_run by done.
    assert (∃ self1, track_step backend self = (Return (), self1))
      as [self1 Hstep].
    { unfold track_step. destruct (decide (backend = tensorflow)) as [Hb|].
      - destruct (Htf Hb) as [Hanswers _].
        rewrite filter_and_track_resources_run, Hfns.
        rewrite collector_returns by done. by eexists.
      - by eexists. }
    rewrite Hstep.
    apply track_step_frame in Hstep as (Hnames & Hsigs & Hattrs).
    assert (∀ name, name ∈ _endpoint_names self →
              ∃ c, (_get_concrete_fn name self1).1 = Return c) as Hres1.
    { intros name Hname.
      destruct (endpoint_functions_Return _ _ Hfns name Hname) as [c Hc].
      exists c. rewrite <- Hc.
      apply get_concrete_fn_lookup; [by rewrite Hsigs|].
      apply Hattrs. destruct (decide (backend = tensorflow)) as [Hb|Hb];
        [right|by left].
      by apply (Htf Hb). }
    rewrite Hnames.
    destruct (fill_signatures_returns (_endpoint_names self) [] self1 Hres1)
      as [sigs ->].
    rewrite Hnames. destruct (decide _); [|by eauto].
    destruct (_endpoint_names self) as [|first rest]; [done|].
    destruct (Hres1 first) as [f ->]; [apply elem_of_cons; by left|].
    eauto.
  - intros fns Hb Hne Hfns Hanswers.
    rewrite write_out_run by done. unfold track_step.
    rewrite decide_True by done.
    rewrite filter_and_track_resources_run, Hfns.
    destruct (collector_raises fns Hanswers) as (e & -> & He).
    by exists e.
Qed.

End facts.
End WriteFacts.

Module LayerFacts.
Import Collect CollectFacts CollectorFacts TFSMLayer.
Section facts.
Context {Fn : Type} `{!TF.TFRuntime Fn}.
Context {Inputs Kwargs : Type}.
Variable saved_model_load : string → option (ReloadedObj (Fn:=Fn)).
Variable var_trainable : var → bool.

Notation layer := (TFSMLayer.t (Fn:=Fn)).
Notation init := (__init__ tensorflow saved_model_load var_trainable).

Lemma add_weights_fields vs : ∀ self : layer,
  let self' := add_weights var_trainable vs self in
  _trainable_variables self'
  = _trainable_variables self ++ filter (λ v, var_trainable v = true) vs
  ∧ _non_trainable_variables self'
    = _non_trainable_variables self
      ++ filter (λ v, var_trainable v = false) vs
  ∧ call_endpoint self' = call_endpoint self
  ∧ call_training_endpoint self' = call_training_endpoint self
  ∧ call_endpoint_fn self' = call_endpoint_fn self
  ∧ call_training_endpoint_fn self' = call_training_endpoint_fn self
  ∧ _reloaded_obj self' = _reloaded_obj self.
Proof.
  induction vs as [|v vs IH]; intros self.
  { cbn. by rewrite !app_nil_r. }
  cbn [add_weights foldl]. cbv zeta.
  destruct (IH (_add_existing_weight var_trainable v self))
    as (IH1 & IH2 & IH3 & IH4 & IH5 & IH6 & IH7).
  unfold add_weights in *.
  rewrite IH1, IH2, IH3, IH4, IH5, IH6, IH7.
  cbn [_add_existing_weight _track_variable _trainable_variables
       _non_trainable_variables call_endpoint call_training_endpoint
       call_endpoint_fn call_training_endpoint_fn _reloaded_obj].
  rewrite !filter_cons.
  destruct (var_trainable v); cbn.
  - by rewrite <- (assoc_L (++)).
  - by rewrite <- (assoc_L (++)).
Qed.

(** What a successful [__init__] returns. *)
Lemma init_returns filepath ce cte trainable name dtype (self : layer) :
  init filepath ce cte trainable name dtype = Return self →
  ∃ obj f,
    saved_model_load filepath = Some obj
    ∧ resolve obj ce = Some f
    ∧ _reloaded_obj self = obj
    ∧ call_endpoint self = ce
    ∧ call_training_endpoint self = cte
    ∧ call_endpoint_fn self = f
    ∧ (if truthy_str cte
       then ∃ g, resolve obj (default "" cte) = Some g
                 ∧ call_training_endpoint_fn self = Some g
       else call_training_endpoint_fn self = None)
    ∧ forallb Collector.answers (all_fns self) = true
    ∧ let r := _list_variables_used_by_fns (all_fns self) in
      _trainable_variables self
      = filter (λ v, var_trainable v = true) (r.1 ++ r.2)
      ∧ _non_trainable_variables self
        = filter (λ v, var_trainable v = false) (r.1 ++ r.2).
Proof.
  unfold __init__. rewrite decide_False by (by intros []).
  destruct (saved_model_load filepath) as [obj|]; [|done].
  assert (∀ fns (self0 : layer) f og,
    _trainable_variables self0 = [] →
    _non_trainable_variables self0 = [] →
    call_endpoint self0 = ce → call_training_endpoint self0 = cte →
    call_endpoint_fn self0 = f → call_training_endpoint_fn self0 = og →
    _reloaded_obj self0 = obj →
    fns = all_fns self0 →
    match Collector._list_variables_used_by_fns fns with
    | Raise e => Raise e
    | Return (tvs, ntvs) =>
        Return (set_built true
                  (foldl (λ self v, _add_existing_weight var_trainable v self)
                     (foldl (λ self v,
                               _add_existing_weight var_trainable v self)
                        self0 tvs) ntvs))
    end = Return self →
    _reloaded_obj self = obj
    ∧ call_endpoint self = ce
    ∧ call_training_endpoint self = cte
    ∧ call_endpoint_fn self = f
    ∧ call_training_endpoint_fn self = og
    ∧ forallb Collector.answers (all_fns self) = true
    ∧ let r := _list_variables_used_by_fns (all_fns self) in
      _trainable_variables self
      = filter (λ v, var_trainable v = true) (r.1 ++ r.2)
      ∧ _non_trainable_variables self
        = filter (λ v, var_trainable v = false) (r.1 ++ r.2)) as Hbuild.
  { intros fns self0 f og Ht Hn Hce Hcte Hf Hog Hobj -> Hret.
    destruct (Collector._list_variables_used_by_fns (all_fns self0))
      as [[tvs ntvs]|e] eqn:Hc; [|done].
    apply collector_Return in Hc as [Hans Hr]. symmetry in Hr.
    injection Hret as <-.
    destruct (add_weights_fields tvs self0)
      as (H1 & H2 & H3 & H4 & H5 & H6 & H7).
    destruct (add_weights_fields ntvs (add_weights var_trainable tvs self0))
      as (H1' & H2' & H3' & H4' & H5' & H6' & H7').
    unfold add_weights in *.
    set (self1 := foldl _ (foldl _ self0 tvs) ntvs) in *.
    assert (all_fns (set_built true self1) = all_fns self0) as Hfns.
    { unfold all_fns.
      cbn [set_built call_training_endpoint call_endpoint_fn
           call_training_endpoint_fn].
      by rewrite H4', H5', H6', H4, H5, H6. }
    cbv zeta. rewrite Hfns, Hr.
    cbn [set_built _reloaded_obj call_endpoint call_training_endpoint
         call_endpoint_fn call_training_endpoint_fn _trainable_variables
         _non_trainable_variables fst snd].
    rewrite H1', H2', H3', H4', H5', H6', H7', H1, H2, H3, H4, H5, H6, H7.
    rewrite Ht, Hn, !filter_app. split_and!; done. }
  unfold resolve, signatures_lookup. cbv zeta.
  destruct (attributes obj !! ce) as [f|] eqn:Hf.
  2: destruct (lookup_key (signatures obj) ce) as [f|] eqn:Hf'; [|done].
  all: destruct (truthy_str cte) eqn:Hcte.
  all: try (destruct (attributes obj !! default "" cte) as [g|] eqn:Hg;
            [|destruct (lookup_key (signatures obj) (default "" cte))
                as [g|] eqn:Hg'; [|done]]).
  all: intros Hret; eapply Hbuild in Hret; [|reflexivity..|];
    [|by (unfold all_fns; cbn; rewrite ?Hcte)];
    cbv zeta in Hret; destruct Hret as (? & ? & ? & ? & ? & ? & ? & ?);
    exists obj, f; rewrite ?Hf, ?Hf', ?Hg, ?Hg'; split_and!; eauto.
Qed.

(** *** The two-step rule *)

Lemma lookup_key_found (before after : list (string * Fn)) endpoint fn :
  endpoint ∉ before.*1 →
  lookup_key (before ++ (endpoint, fn) :: after) endpoint = Some fn.
Proof.
  induction before as [|[key g] before IH]; cbn.
  - intros _. by rewrite decide_True.
  - intros [Hne Hin]%not_elem_of_cons.
    rewrite decide_False by done. by apply IH.
Qed.

Lemma lookup_key_None (mapping : list (string * Fn)) endpoint :
  endpoint ∉ mapping.*1 → lookup_key mapping endpoint = None.
Proof.
  induction mapping as [|[key g] mapping IH]; cbn; [done|].
  intros [Hne Hin]%not_elem_of_cons.
  rewrite decide_False by done. by apply IH.
Qed.

(** [__init__] once both endpoints are resolved: it goes on to collect
    the variables of the functions, which raises when the collector has
    no answer for one of them. *)
Lemma init_outcome filepath ce cte trainable name dtype obj f og :
  saved_model_load filepath = Some obj →
  resolve obj ce = Some f →
  (if truthy_str cte
   then og = resolve obj (default "" cte) ∧ is_Some og
   else og = None) →
  let fns := f :: from_option (λ fn, [fn]) [] og in
  if forallb Collector.answers fns then
    ∃ self : layer,
      init filepath ce cte trainable name dtype = Return self
      ∧ call_endpoint_fn self = f
      ∧ call_training_endpoint_fn self = og
  else
    ∃ e, init filepath ce cte trainable name dtype = Raise e
         ∧ Collector.collector_error e.
Proof.
  intros Hload Hce Hcte fns.
  assert (∃ self0 : layer,
    init filepath ce cte trainable name dtype
    = match Collector._list_variables_used_by_fns fns with
      | Raise e => Raise e
      | Return (tvs, ntvs) =>
          Return (set_built true
                    (add_weights var_trainable ntvs
                       (add_weights var_trainable tvs self0)))
      end
    ∧ call_endpoint_fn self0 = f
    ∧ call_training_endpoint_fn self0 = og) as (self0 & -> & Hf & Hog).
  { subst fns. unfold __init__. rewrite decide_False by (by intros []).
    rewrite Hload. cbv zeta.
    unfold resolve in Hce, Hcte. unfold signatures_lookup in *.
    destruct (truthy_str cte) eqn:Htruthy.
    - destruct Hcte as [-> [g Hg]]. rewrite Hg.
      destruct (attributes obj !! ce) as [f'|];
        [injection Hce as ->|rewrite Hce];
        (destruct (attributes obj !! default "" cte) as [g'|];
           [injection Hg as ->|rewrite Hg]);
        eexists; split_and!; reflexivity.
    - subst og.
      destruct (attributes obj !! ce) as [f'|];
        [injection Hce as ->|rewrite Hce];
        eexists; split_and!; reflexivity. }
  destruct (forallb Collector.answers fns) eqn:Hans.
  - rewrite collector_returns by done.
    destruct (_list_variables_used_by_fns fns) as [tvs ntvs].
    eexists. split; [done|].
    destruct (add_weights_fields tvs self0)
      as (_ & _ & _ & _ & H5 & H6 & _).
    destruct (add_weights_fields ntvs (add_weights var_trainable tvs self0))
      as (_ & _ & _ & _ & H5' & H6' & _).
    cbn [set_built call_endpoint_fn call_training_endpoint_fn].
    by rewrite H5', H6', H5, H6.
  - destruct (collector_raises fns Hans) as (e & -> & He). by exists e.
Qed.

(** C7.  [__init__] resolves an endpoint name among the attributes of
    the loaded artifact first, whatever the signature map holds, and in
    the signature map second: a name that is no attribute resolves to
    the first entry of that name in the map, and a name that is neither
    an attribute nor a key of the map does not resolve.  [__init__]
    raises endpoint-not-found with the keys of the signature map, in
    their order, when the call endpoint does not resolve; the training
    endpoint, when one is given, is resolved by the same rule with the
    same exception.  When the names resolve, the layer is built around
    the resolved objects, provided that the collector, which [__init__]
    calls on them next, has an answer for each; when it has none for one
    of them (a trace that fails, or an attribute that is no function and
    has no variables to list), [__init__] raises the exception of the
    collector. *)
Theorem init_resolution filepath ce cte trainable name dtype obj :
  saved_model_load filepath = Some obj →
  let available := (signatures obj).*1 in
  (∀ endpoint fn,
     attributes obj !! endpoint = Some fn → resolve obj endpoint = Some fn)
  ∧ (∀ endpoint fn before after,
       attributes obj !! endpoint = None →
       signatures obj = before ++ (endpoint, fn) :: after →
       endpoint ∉ before.*1 →
       resolve obj endpoint = Some fn)
  ∧ (∀ endpoint,
       attributes obj !! endpoint = None → endpoint ∉ available →
       resolve obj endpoint = None)
  ∧ match resolve obj ce with
    | None =>
        init filepath ce cte trainable name dtype
        = Raise (EndpointNotFound ce available)
    | Some fn =>
        if truthy_str cte then
          match resolve obj (default "" cte) with
          | None =>
              init filepath ce cte trainable name dtype
              = Raise (EndpointNotFound (default "" cte) available)
          | Some training_fn =>
              if forallb Collector.answers [fn; training_fn] then
                ∃ self : layer,
                  init filepath ce cte trainable name dtype = Return self
                  ∧ call_endpoint_fn self = fn
                  ∧ call_training_endpoint_fn self = Some training_fn
              else
                ∃ e, init filepath ce cte trainable name dtype = Raise e
                     ∧ Collector.collector_error e
          end
        else
          if forallb Collector.answers [fn] then
            ∃ self : layer,
              init filepath ce cte trainable name dtype = Return self
              ∧ call_endpoint_fn self = fn
              ∧ call_training_endpoint_fn self = None
          else
            ∃ e, init filepath ce cte trainable name dtype = Raise e
                 ∧ Collector.collector_error e
    end.
Proof.
  intros Hload available. split_and!.
  - intros endpoint fn Hattr. unfold resolve. by rewrite Hattr.
  - intros endpoint fn before after Hattr Hsig Hin.
    unfold resolve, signatures_lookup. rewrite Hattr, Hsig.
    by apply lookup_key_found.
  - intros endpoint Hattr Hin. unfold resolve, signatures_lookup.
    rewrite Hattr. by apply lookup_key_None.
  - destruct (resolve obj ce) as [fn|] eqn:Hce.
    2:{ unfold __init__. rewrite decide_False by (by intros []).
        rewrite Hload. cbv zeta. unfold resolve in Hce.
        destruct (attributes obj !! ce); [done|]. by rewrite Hce. }
    destruct (truthy_str cte) eqn:Hcte.
    + destruct (resolve obj (default "" cte)) as [training_fn|] eqn:Htr.
      * apply (init_outcome _ _ _ _ _ _ obj fn (Some training_fn));
          [done..|]. rewrite Hcte, Htr. by split; [|eexists].
      * unfold __init__. rewrite decide_False by (by intros []).
        rewrite Hload. cbv zeta. rewrite Hcte.
        unfold resolve in Hce, Htr.
        destruct (attributes obj !! default "" cte); [done|].
        rewrite Htr.
        destruct (attributes obj !! ce); [done|]. by rewrite Hce.
    + apply (init_outcome _ _ _ _ _ _ obj fn None); [done..|].
      by rewrite Hcte.
Qed.

(** C8.  On a layer that [__init__] has built, [call] invokes the
    training endpoint function when [training] is true and a training
    endpoint was given, and the call endpoint function in every other
    case; the functions are the ones resolved from the artifact. *)
Theorem call_dispatch filepath ce cte trainable name dtype (self : layer)
    (inputs : Inputs) (training : bool) (kwargs : Kwargs) :
  init filepath ce cte trainable name dtype = Return self →
  if training && truthy_str cte then
    ∃ training_fn,
      call_training_endpoint_fn self = Some training_fn
      ∧ resolve (_reloaded_obj self) (default "" cte) = Some training_fn
      ∧ call self inputs training kwargs
        = Return (Invoke training_fn inputs kwargs)
  else
    resolve (_reloaded_obj self) ce = Some (call_endpoint_fn self)
    ∧ call self inputs training kwargs
      = Return (Invoke (call_endpoint_fn self) inputs kwargs).
Proof.
  intros (obj & f & _ & Hres & <- & _ & Hcte & <- & Htr & _)%init_returns.
  unfold call. rewrite Hcte.
  destruct training, (truthy_str cte); cbn [andb]; try done.
  destruct Htr as (g & Hg & Hfn). exists g. by rewrite Hfn.
Qed.

(** *** Traces that agree with the trainable flags *)









End facts.
End LayerFacts.

(** ** The properties on the scenarios *)
Module Examples.
Import Collect Sample ExportArchive Scenario.

Example overlapping_result :
  _list_variables_used_by_fns overlapping = ([a; b; d], [c; e]).
Proof. vm_compute. reflexivity. Qed.

(** C1 fails as stated: [a] is first sighted as non-trainable, yet it is
    also put in the trainable sequence, and so appears twice across the
    two sequences. *)
Lemma list_variables_used_by_fns_duplicates :
  let r := _list_variables_used_by_fns disagreeing in
  r = ([a], [a])
  ∧ first_class (sightings disagreeing) a = Some false
  ∧ a ∈ r.1
  ∧ ¬ NoDup (r.1 ++ r.2).
Proof.
  assert (_list_variables_used_by_fns disagreeing = ([a], [a])) as ->.
  { vm_compute. reflexivity. }
  cbn. split_and!; [done|done|by apply list_elem_of_singleton|].
  intros Hnd. apply NoDup_cons in Hnd as [Hnd _].
  apply Hnd, list_elem_of_singleton. done.
Qed.

Lemma list_variables_used_by_fns_spec_witness :
  consistent (sightings overlapping)
  ∧ _list_variables_used_by_fns overlapping
    = collect ∅ (sightings overlapping)
  ∧ NoDup ((_list_variables_used_by_fns overlapping).1
           ++ (_list_variables_used_by_fns overlapping).2).
Proof.
  assert (consistent (sightings overlapping)) as Hc.
  { apply (bool_decide_unpack _). vm_compute. reflexivity. }
  split; [exact Hc|].
  destruct (CollectFacts.list_variables_used_by_fns_spec overlapping)
    as (_ & _ & _ & _ & _ & _ & _ & Hspec).
  destruct (Hspec Hc) as (Hr & Hnd & _). split; [exact Hr|exact Hnd].
Defined.

Example fresh_init : __init__ tensorflow = Return fresh.
Proof. reflexivity. Qed.

Example torch_unsupported :
  __init__ (Fn:=SampleFn) torch = Raise UnsupportedRuntime.
Proof. reflexivity. Qed.

Lemma fresh_holds_lists : holds_lists fresh [] [] [].
Proof. by split_and!. Qed.

Example served_names : _endpoint_names served = ["serve"; "call_training"].
Proof. vm_compute. reflexivity. Qed.

(** *** [track] *)

(** C2 fails as stated: after two calls of [track] on the same built
    layer, every parameter of the layer is listed twice. *)
Lemma track_twice_duplicates :
  ∃ self',
    (track tensorflow dense;; track tensorflow dense) fresh
    = (Return (), self')
    ∧ variables self' = (Return (AVariables [a; b; c; a; b; c]), self')
    ∧ trainable_variables self' = (Return (AVariables [a; b; a; b]), self')
    ∧ non_trainable_variables self' = (Return (AVariables [c; c]), self')
    ∧ ¬ NoDup [a; b; c; a; b; c].
Proof.
  exists ((track tensorflow dense;; track tensorflow dense) fresh).2.
  split_and!; [vm_compute; reflexivity..|].
  intros Hnd. apply NoDup_cons in Hnd as [Hnd _].
  apply Hnd. set_solver.
Qed.

Lemma track_twice_appends_twice_witness :
  Resource.is_layer dense = true
  ∧ Resource.built dense = true
  ∧ holds_lists fresh [] [] []
  ∧ (∃ self',
       (track tensorflow dense;; track tensorflow dense) fresh
       = (Return (), self')
       ∧ variables self'
         = (Return (AVariables ([] ++ [a; b; c] ++ [a; b; c])), self'))
  ∧ (∃ self',
       (track jax dense;; track jax dense) fresh = (Return (), self')
       ∧ trainable_variables self'
         = (Return (AVariables [TfMirror 1; TfMirror 2;
                                TfMirror 4; TfMirror 5]), self')
       ∧ non_trainable_variables self'
         = (Return (AVariables [TfMirror 3; TfMirror 6]), self')
       ∧ _backend_trainable_variables self' = [a; b; a; b]).
Proof.
  split_and!; [reflexivity|reflexivity|exact fresh_holds_lists|..].
  - destruct (ArchiveFacts.track_twice_appends_twice dense fresh [] [] []
                eq_refl eq_refl fresh_holds_lists) as [Htf _].
    destruct (Htf eq_refl) as (self' & Hrun & Hv & _).
    exists self'. split; [exact Hrun|exact Hv].
  - destruct (ArchiveFacts.track_twice_appends_twice dense fresh [] [] []
                eq_refl eq_refl fresh_holds_lists) as [_ Hjax].
    destruct (Hjax eq_refl) as (self' & Hrun & _ & Htv & Hntv & _ & Hb & _).
    exists self'. split; [exact Hrun|].
    split; [exact Htv|]. split; [exact Hntv|exact Hb].
Defined.

Lemma track_rejections_witness :
  track tensorflow not_trackable fresh = (Raise InvalidResourceType, fresh)
  ∧ track tensorflow unbuilt fresh = (Raise NotBuilt, fresh)
  ∧ (track tensorflow dense fresh).1 = Return ().
Proof.
  split_and!.
  - apply (ArchiveFacts.track_rejections tensorflow not_trackable fresh).
    reflexivity.
  - apply (ArchiveFacts.track_rejections tensorflow unbuilt fresh);
      reflexivity.
  - destruct (ArchiveFacts.track_rejections tensorflow dense fresh)
      as (_ & _ & Hbuilt).
    destruct (Hbuilt eq_refl eq_refl eq_refl) as (_ & _ & Hret).
    exact (Hret [] [] [] fresh_holds_lists).
Defined.

(** *** [add_endpoint] *)

Lemma serve_not_in_fresh : "serve" ∉ _endpoint_names fresh.
Proof. apply not_elem_of_nil. Qed.

Lemma serve_in_served : "serve" ∈ _endpoint_names served.
Proof. rewrite served_names. apply elem_of_cons. by left. Qed.

Lemma refused_not_in_fresh : "_object_identifier" ∉ _endpoint_names fresh.
Proof. apply not_elem_of_nil. Qed.

(** C4 fails as stated: a name that is not registered and a valid
    signature do not make [add_endpoint] succeed.  The trackable object
    refuses the name [_object_identifier], a property without a setter:
    the call raises the exception of [setattr], the name is not
    registered, and its signature is recorded all the same. *)
Lemma add_endpoint_refused_name :
  let r := add_endpoint tensorflow "_object_identifier" model_call
             (Some spec) fresh in
  "_object_identifier" ∉ _endpoint_names fresh
  ∧ truthy (Some spec) = true
  ∧ decorate tensorflow fresh model_call spec
    = Some (TfFunction ([a; b], [a; b; c]) (Some spec) 0)
  ∧ r.1 = Raise (PyAttributeError "_object_identifier")
  ∧ r.1 ≠ Return ()
  ∧ _endpoint_names r.2 = []
  ∧ _endpoint_signatures r.2 !! "_object_identifier" = Some spec
  ∧ _tf_trackable r.2 !! "_object_identifier" = None.
Proof.
  cbv zeta.
  assert (add_endpoint tensorflow "_object_identifier" model_call
            (Some spec) fresh
          = (Raise (PyAttributeError "_object_identifier"),
             set_endpoint_signatures (<["_object_identifier" := spec]>)
               fresh)) as ->.
  { reflexivity. }
  split_and!; [exact refused_not_in_fresh|reflexivity..|discriminate| | |];
    reflexivity.
Qed.

Lemma add_endpoint_outcomes_witness :
  add_endpoint tensorflow "serve" model_call (Some spec) served
  = (Raise (DuplicateEndpointName "serve"), served)
  ∧ add_endpoint tensorflow "serve" untraced None fresh
    = (Raise UnspecializedFunction, fresh)
  ∧ add_endpoint tensorflow "serve" model_call None fresh
    = (Raise MissingSignature, fresh)
  ∧ TF.setattr_refusal "serve" = None
  ∧ (add_endpoint tensorflow "serve" traced None fresh).1 = Return ()
  ∧ (add_endpoint tensorflow "serve" model_call (Some spec) fresh).1
    = Return ()
  ∧ TF.setattr_refusal "__class__" = Some TF.WrongType
  ∧ add_endpoint tensorflow "__class__" traced None fresh
    = (Raise PyTypeError, fresh)
  ∧ TF.setattr_refusal "_object_identifier" = Some TF.ReadOnly
  ∧ add_endpoint tensorflow "_object_identifier" model_call (Some spec)
      fresh
    = (Raise (PyAttributeError "_object_identifier"),
       set_endpoint_signatures (<["_object_identifier" := spec]>) fresh).
Proof.
  split_and!.
  - apply (ArchiveFacts.add_endpoint_outcomes tensorflow "serve"
             model_call served).
    exact serve_in_served.
  - apply (ArchiveFacts.add_endpoint_outcomes tensorflow "serve"
             untraced fresh); [exact serve_not_in_fresh|reflexivity..].
  - apply (ArchiveFacts.add_endpoint_outcomes tensorflow "serve"
             model_call fresh); [exact serve_not_in_fresh|reflexivity..].
  - reflexivity.
  - destruct (ArchiveFacts.add_endpoint_outcomes tensorflow "serve"
                traced fresh) as (_ & _ & _ & Htraced & _).
    rewrite (Htraced None);
      [reflexivity|exact serve_not_in_fresh|reflexivity|reflexivity|
       discriminate|reflexivity].
  - destruct (ArchiveFacts.add_endpoint_outcomes tensorflow "serve"
                model_call fresh) as (_ & _ & _ & _ & Hsig & _).
    pose proof (Hsig spec (TfFunction ([a; b], [a; b; c]) (Some spec) 0)
                  serve_not_in_fresh) as Hrun.
    rewrite Hrun; reflexivity.
  - reflexivity.
  - destruct (ArchiveFacts.add_endpoint_outcomes tensorflow "__class__"
                traced fresh) as (_ & _ & _ & _ & _ & Hrefused & _).
    apply (Hrefused None TF.WrongType);
      [apply not_elem_of_nil|reflexivity|reflexivity|discriminate|
       reflexivity].
  - reflexivity.
  - destruct (ArchiveFacts.add_endpoint_outcomes tensorflow
                "_object_identifier" model_call fresh)
      as (_ & _ & _ & _ & _ & _ & Hrefused).
    apply (Hrefused spec (TfFunction ([a; b], [a; b; c]) (Some spec) 0)
             TF.ReadOnly);
      [exact refused_not_in_fresh|reflexivity..].
Defined.

Lemma add_endpoint_atomic_witness :
  add_endpoint tensorflow "serve" model_call None fresh
  = (Raise MissingSignature, fresh)
  ∧ _endpoint_names fresh = _endpoint_names fresh
  ∧ _endpoint_signatures fresh = _endpoint_signatures fresh
  ∧ ∃ self',
      add_endpoint tensorflow "_object_identifier" model_call (Some spec)
        fresh
      = (Raise (PyAttributeError "_object_identifier"), self')
      ∧ _endpoint_names self' = _endpoint_names fresh
      ∧ _endpoint_signatures self'
        = <["_object_identifier" := spec]> (_endpoint_signatures fresh).
Proof.
  assert (add_endpoint tensorflow "serve" model_call None fresh
          = (Raise MissingSignature, fresh)) as Hrun by reflexivity.
  split; [exact Hrun|].
  destruct (ArchiveFacts.add_endpoint_atomic _ _ _ _ _ _ _ Hrun)
    as [Hbefore _].
  destruct Hbefore as (_ & Hnames & Hsigs); [right; right; by left|].
  split; [exact Hnames|]. split; [exact Hsigs|].
  assert (add_endpoint tensorflow "_object_identifier" model_call
            (Some spec) fresh
          = (Raise (PyAttributeError "_object_identifier"),
             set_endpoint_signatures (<["_object_identifier" := spec]>)
               fresh)) as Hrun' by reflexivity.
  eexists. split; [exact Hrun'|].
  destruct (ArchiveFacts.add_endpoint_atomic _ _ _ _ _ _ _ Hrun')
    as [_ Hafter].
  destruct Hafter as (why & _ & _ & Hnames' & Hsigs'); [discriminate..|].
  split; [exact Hnames'|exact Hsigs'].
Defined.

(** C10 fails as stated: with an empty signature and a [tf.function]
    that was never called, the exception is unspecialized-function, not
    missing-signature. *)
Lemma add_endpoint_empty_signature_untraced :
  TF.is_generic_function untraced = true
  ∧ TF._list_all_concrete_functions untraced = []
  ∧ add_endpoint tensorflow "serve" untraced (Some []) fresh
    = (Raise UnspecializedFunction, fresh)
  ∧ (add_endpoint tensorflow "serve" untraced (Some []) fresh).1
    ≠ Raise MissingSignature.
Proof. split_and!; [reflexivity..|discriminate]. Qed.

(** *** [write_out] *)

Lemma served_functions :
  Session.endpoint_functions served
  = Return [TfFunction ([a; b], [a; b; c]) (Some spec) 0;
            ConcreteFunction ([a; b], [a; b; c])].
Proof. vm_compute. reflexivity. Qed.

Lemma served_names_NoDup : NoDup (_endpoint_names served).
Proof.
  rewrite served_names. apply (bool_decide_unpack _). vm_compute. reflexivity.
Qed.

Lemma serving_default_not_in_served :
  "serving_default" ∉ _endpoint_names served.
Proof.
  rewrite served_names. apply (bool_decide_unpack _). vm_compute. reflexivity.
Qed.

Lemma served_not_reserved name :
  name ∈ _endpoint_names served → ¬ reserved name.
Proof.
  rewrite served_names.
  intros [->|[->|[]%elem_of_nil]%elem_of_cons]%elem_of_cons [?|?];
    discriminate.
Qed.

Example aliased_names :
  _endpoint_names aliased = ["serve"; "serving_default"].
Proof. vm_compute. reflexivity. Qed.

Lemma aliased_functions :
  Session.endpoint_functions aliased
  = Return [TfFunction ([a; b], [a; b; c]) (Some spec) 0;
            ConcreteFunction ([a; b], [a; b; c])].
Proof. vm_compute. reflexivity. Qed.

Lemma aliased_not_reserved name :
  name ∈ _endpoint_names aliased → ¬ reserved name.
Proof.
  rewrite aliased_names.
  intros [->|[->|[]%elem_of_nil]%elem_of_cons]%elem_of_cons [?|?];
    discriminate.
Qed.

Lemma write_out_signatures_witness :
  (_endpoint_names served ≠ []
   ∧ Session.endpoint_functions served
     = Return [TfFunction ([a; b], [a; b; c]) (Some spec) 0;
               ConcreteFunction ([a; b], [a; b; c])]
   ∧ ∃ artifact self',
       write_out tensorflow "path/to/location" None served
       = (Return artifact, self')
       ∧ (saved_signatures artifact).*1
         = ["serve"; "call_training"; "serving_default"]
       ∧ Dict.getitem (saved_signatures artifact) "serving_default"
         = Dict.getitem (saved_signatures artifact) "serve")
  ∧ (_endpoint_names aliased = ["serve"; "serving_default"]
     ∧ ∃ artifact self',
         write_out tensorflow "path/to/location" None aliased
         = (Return artifact, self')
         ∧ (saved_signatures artifact).*1 = ["serve"; "serving_default"]
         ∧ Dict.getitem (saved_signatures artifact) "serve"
           = Some (AFunction (TfFunction ([a; b], [a; b; c]) (Some spec) 0))
         ∧ Dict.getitem (saved_signatures artifact) "serving_default"
           = Some (AFunction (ConcreteFunction ([a; b], [a; b; c])))).
Proof.
  split.
  - assert (_endpoint_names served ≠ []) as Hne.
    { rewrite served_names. discriminate. }
    split; [exact Hne|]. split; [exact served_functions|].
    destruct (WriteFacts.write_out_signatures tensorflow
                "path/to/location" None served) as (_ & Hmap & Hret & _).
    destruct (Hret _ Hne served_functions
                (λ _, conj eq_refl served_not_reserved))
      as (artifact & self' & Hrun).
    destruct (Hmap artifact self' Hrun)
      as (_ & _ & _ & _ & Hsd & _ & _ & Hkeys).
    exists artifact, self'. split; [exact Hrun|]. split.
    + rewrite (Hkeys served_names_NoDup).
      rewrite decide_False by exact serving_default_not_in_served.
      by rewrite served_names.
    + destruct (Hsd serving_default_not_in_served)
        as (first & rest & Hnames & Hitem).
      rewrite served_names in Hnames. injection Hnames as <- _.
      exact Hitem.
  - split; [exact aliased_names|].
    assert (_endpoint_names aliased ≠ []) as Hne.
    { rewrite aliased_names. discriminate. }
    destruct (WriteFacts.write_out_signatures tensorflow
                "path/to/location" None aliased) as (_ & Hmap & Hret & _).
    destruct (Hret _ Hne aliased_functions
                (λ _, conj eq_refl aliased_not_reserved))
      as (artifact & self' & Hrun).
    destruct (Hmap artifact self' Hrun)
      as (_ & _ & _ & Hpin & _ & _ & _ & Hkeys).
    exists artifact, self'. split; [exact Hrun|]. split_and!.
    + rewrite Hkeys.
      * rewrite decide_True; [by rewrite aliased_names, app_nil_r|].
        rewrite aliased_names. apply list_elem_of_further, list_elem_of_here.
      * rewrite aliased_names. apply (bool_decide_unpack _).
        vm_compute. reflexivity.
    + destruct (Hpin "serve") as (attr & trace & _ & Hitem & Hattr & Hsig & _).
      { rewrite aliased_names. apply list_elem_of_here. }
      rewrite Hitem. f_equal.
      assert (_tf_trackable aliased !! "serve"
              = Some (AFunction
                        (TfFunction ([a; b], [a; b; c]) (Some spec) 0)))
        as Hserve by (vm_compute; reflexivity).
      rewrite Hattr in Hserve by (right; by apply aliased_not_reserved;
        rewrite aliased_names; apply list_elem_of_here).
      injection Hserve as ->. apply Hsig. vm_compute. by eexists.
    + destruct (Hpin "serving_default")
        as (attr & trace & _ & Hitem & Hattr & _ & Hnosig).
      { rewrite aliased_names.
        apply list_elem_of_further, list_elem_of_here. }
      rewrite Hitem. f_equal.
      assert (_tf_trackable aliased !! "serving_default"
              = Some (AFunction traced))
        as Hown by (vm_compute; reflexivity).
      rewrite Hattr in Hown by (right; by intros [?|?]).
      injection Hown as ->.
      destruct Hnosig as (key & first & rest & Hchildren & ->);
        [vm_compute; reflexivity|].
      by injection Hchildren as _ <- _.
Defined.

(** An endpoint whose function fails when it is traced: [add_endpoint]
    takes it, and [write_out] raises when the collector asks for its
    trace. *)
Example write_out_raising :
  ∃ self,
    (track tensorflow dense;;
     add_endpoint tensorflow "serve" PyRaising (Some spec)) fresh
    = (Return (), self)
    ∧ write_out tensorflow "path/to/location" None self
      = (Raise RuntimeFailure, self).
Proof. eexists. split; vm_compute; reflexivity. Qed.

Example write_out_empty :
  write_out tensorflow "path/to/location" None fresh
  = (Raise NoEndpoints, fresh).
Proof. reflexivity. Qed.

(** *** [TFSMLayer] *)

Lemma load_path : load "path/to/location" = Some reloaded.
Proof. vm_compute. reflexivity. Qed.

Lemma init_resolution_witness :
  load "path/to/location" = Some reloaded
  ∧ (TFSMLayer.signatures reloaded).*1
    = ["serve"; "call_training"; "serving_default"]
  ∧ init "nope" None true None None
    = Raise (EndpointNotFound "nope"
               ["serve"; "call_training"; "serving_default"])
  ∧ TFSMLayer.attributes reloaded !! "serving_default" = None
  ∧ (∃ self,
       init "serving_default" None true None None = Return self
       ∧ TFSMLayer.call_endpoint_fn self
         = RestoredFunction [([a; b], [a; b; c])])
  ∧ TFSMLayer.attributes reloaded !! "variables" = Some RestoredList
  ∧ init "variables" None true None None
    = Raise (PyAttributeError "trainable_variables").
Proof.
  assert ((TFSMLayer.signatures reloaded).*1
          = ["serve"; "call_training"; "serving_default"]) as Hkeys.
  { vm_compute. reflexivity. }
  split; [exact load_path|]. split; [exact Hkeys|]. split_and!.
  - destruct (LayerFacts.init_resolution load flag "path/to/location"
                "nope" None true None None reloaded load_path)
      as (_ & _ & Hnone & Hres).
    rewrite Hnone in Hres.
    + rewrite Hkeys in Hres. exact Hres.
    + vm_compute. reflexivity.
    + rewrite Hkeys. apply (bool_decide_unpack _). vm_compute. reflexivity.
  - vm_compute. reflexivity.
  - destruct (LayerFacts.init_resolution load flag "path/to/location"
                "serving_default" None true None None reloaded load_path)
      as (_ & Hsig & _ & Hres).
    rewrite (Hsig "serving_default" (RestoredFunction [([a; b], [a; b; c])])
               [("serve", RestoredFunction [([a; b], [a; b; c])]);
                ("call_training", ConcreteFunction ([a; b], [a; b; c]))]
               []) in Hres.
    + cbn [truthy_str] in Hres.
      change (forallb Collector.answers
                [RestoredFunction [([a; b], [a; b; c])]])
        with true in Hres.
      destruct Hres as (self & Hinit & Hfn & _).
      exists self. split; [exact Hinit|exact Hfn].
    + vm_compute. reflexivity.
    + vm_compute. reflexivity.
    + apply (bool_decide_unpack _). vm_compute. reflexivity.
  - vm_compute. reflexivity.
  - destruct (LayerFacts.init_resolution load flag "path/to/location"
                "variables" None true None None reloaded load_path)
      as (Hattr & _ & _ & Hres).
    rewrite (Hattr "variables" RestoredList) in Hres
      by (vm_compute; reflexivity).
    cbn [truthy_str] in Hres.
    change (forallb Collector.answers [RestoredList]) with false in Hres.
    destruct Hres as (e & Hinit & [He|[He|He]]); subst e.
    + exfalso. revert Hinit. vm_compute. discriminate.
    + exact Hinit.
    + exfalso. revert Hinit. vm_compute. discriminate.
Defined.

Lemma init_reloaded_layer :
  init "serve" (Some "call_training") true None None
  = Return reloaded_layer.
Proof. vm_compute. reflexivity. Qed.

Lemma call_dispatch_witness :
  init "serve" (Some "call_training") true None None
  = Return reloaded_layer
  ∧ ∃ training_fn,
      TFSMLayer.call_training_endpoint_fn reloaded_layer
      = Some training_fn
      ∧ TFSMLayer.call reloaded_layer 7%nat true ()
        = Return (TFSMLayer.Invoke training_fn 7%nat ()).
Proof.
  split; [exact init_reloaded_layer|].
  destruct (LayerFacts.call_dispatch load flag "path/to/location" "serve"
              (Some "call_training") true None None reloaded_layer
              7%nat true () init_reloaded_layer)
    as (training_fn & Hfn & _ & Hcall).
  exists training_fn. split; [exact Hfn|exact Hcall].
Defined.



(** The scenario of the specification: a layer with two trainable
    parameters and one that is not, one endpoint that references all
    three, written and reloaded. *)
Example reload_scenario :
  ∃ self,
    init "serve" None true None None = Return self
    ∧ TFSMLayer.trainable_variables self = [a; b]
    ∧ TFSMLayer.non_trainable_variables self = [c].
Proof. eexists. split_and!; vm_compute; reflexivity. Qed.

End Examples.

(** * Further properties *)

(** ** The collector, one list of functions after another *)

Module CollectMore.
Import TF Collect CollectFacts.
Section facts.
Context {Fn : Type} `{!TFRuntime Fn}.

(** The identities of a list of variables. *)
Local Notation ids l := (list_to_set (py_id <$> l) : gset positive).

Lemma visit_sighting_ids (s : Locals) e :
  trainable_variables_ids s = ids (trainable_variables_ s) →
  non_trainable_variables_ids s = ids (non_trainable_variables_ s) →
  let s' := visit_sighting s e in
  trainable_variables_ids s' = ids (trainable_variables_ s')
  ∧ non_trainable_variables_ids s' = ids (non_trainable_variables_ s').
Proof.
  intros Ht Hn. destruct e as [v c]. unfold visit_sighting.
  destruct c; cbn [snd fst].
  - unfold visit_trainable. case_decide; cbn; [|done].
    split; [|done]. rewrite fmap_app, list_to_set_app_L, Ht. cbn. set_solver.
  - unfold visit_variable. case_decide; cbn; [|done].
    split; [done|]. rewrite fmap_app, list_to_set_app_L, Hn. cbn. set_solver.
Qed.

Lemma run_ids ev : ∀ s : Locals,
  trainable_variables_ids s = ids (trainable_variables_ s) →
  non_trainable_variables_ids s = ids (non_trainable_variables_ s) →
  let s' := foldl visit_sighting s ev in
  trainable_variables_ids s' = ids (trainable_variables_ s')
  ∧ non_trainable_variables_ids s' = ids (non_trainable_variables_ s').
Proof.
  induction ev as [|e ev IH]; intros s Ht Hn; [done|].
  cbn [foldl]. destruct (visit_sighting_ids s e Ht Hn) as [Ht' Hn'].
  exact (IH _ Ht' Hn').
Qed.

(** The result on [fns ++ gns], from the result on [fns]. *)
Lemma list_variables_used_by_fns_extend (fns gns : list Fn) :
  let r := _list_variables_used_by_fns fns in
  let r' := _list_variables_used_by_fns (fns ++ gns) in
  r'.1 = r.1 ++ first_occurrences (ids r.1)
                  (listed_trainable (sightings gns))
  ∧ r'.2 = r.2 ++ (collect (ids r.1 ∪ ids r.2) (sightings gns)).2.
Proof.
  unfold _list_variables_used_by_fns. cbn [fst snd].
  rewrite foldl_app.
  rewrite (visit_fns_sightings (foldl visit_fn init fns) gns).
  pose proof (run_sightings (sightings gns) (foldl visit_fn init fns))
    as [H1 H2].
  rewrite (visit_fns_sightings init fns) in *.
  destruct (run_ids (sightings fns) init) as [Ht Hn]; [done..|].
  cbn zeta in Ht, Hn. rewrite Ht, Hn in *. split; assumption.
Qed.

Lemma first_occurrences_seen (seen : gset positive) l :
  (∀ v, v ∈ l → py_id v ∈ seen) → first_occurrences seen l = [].
Proof.
  induction l as [|v l IH]; intros Hl; [done|].
  cbn. rewrite decide_True by (apply Hl; left).
  apply IH. intros w Hw. apply Hl. by right.
Qed.

Lemma collect_seen (seen : gset positive) (ev : list (var * bool)) :
  (∀ v, v ∈ ev.*1 → py_id v ∈ seen) → collect seen ev = ([], []).
Proof.
  induction ev as [|[v c] ev IH]; intros Hl; [done|].
  cbn. rewrite decide_True by (apply Hl; left).
  apply IH. intros w Hw. apply Hl. by right.
Qed.

(** Every variable met in the traces is in one of the two sequences. *)
Lemma list_variables_used_by_fns_covers (fns : list Fn) v :
  let r := _list_variables_used_by_fns fns in
  ((v, true) ∈ sightings fns → v ∈ r.1)
  ∧ (v ∈ (sightings fns).*1 → v ∈ r.1 ∨ v ∈ r.2).
Proof.
  intros r. destruct (list_variables_used_by_fns_run fns) as [H1 H2].
  fold r in H1, H2.
  assert ((v, true) ∈ sightings fns → v ∈ r.1) as Htrue.
  { intros Hv. rewrite H1. apply elem_of_first_occurrences.
    split; [by apply elem_of_listed_trainable|set_solver]. }
  split; [exact Htrue|]. intros Hv.
  destruct (first_class (sightings fns) v) as [[]|] eqn:Hfc.
  - left. by apply Htrue, first_class_Some.
  - right. rewrite H2.
    apply (elem_of_collect ∅ (sightings fns) v false).
    split; [set_solver|done].
  - by apply first_class_None in Hfc.
Qed.

Lemma sightings_subseteq (fns gns : list Fn) :
  traces gns ⊆ traces fns → sightings gns ⊆ sightings fns.
Proof.
  intros Hsub e. unfold sightings. rewrite !list_elem_of_bind.
  intros (cf & He & Hcf). exists cf. split; [done|by apply Hsub].
Qed.

Lemma list_variables_used_by_fns_absorb (fns gns : list Fn) :
  traces gns ⊆ traces fns →
  _list_variables_used_by_fns (fns ++ gns) = _list_variables_used_by_fns fns.
Proof.
  intros Hsub%sightings_subseteq.
  destruct (list_variables_used_by_fns_extend fns gns) as [H1 H2].
  cbn zeta in H1, H2.
  rewrite first_occurrences_seen in H1; last first.
  { intros v Hv%elem_of_listed_trainable. apply Hsub in Hv.
    apply (list_variables_used_by_fns_covers fns v) in Hv.
    apply elem_of_list_to_set, list_elem_of_fmap. by exists v. }
  rewrite collect_seen in H2; last first.
  { intros v (e & -> & He)%list_elem_of_fmap. apply Hsub in He.
    assert (e.1 ∈ (sightings fns).*1) as Hv.
    { apply list_elem_of_fmap. by exists e. }
    apply (list_variables_used_by_fns_covers fns) in Hv.
    apply elem_of_union. rewrite !elem_of_list_to_set, !list_elem_of_fmap.
    destruct Hv; [left|right]; by exists e.1. }
  rewrite !app_nil_r in *.
  destruct (_list_variables_used_by_fns (fns ++ gns)),
    (_list_variables_used_by_fns fns). cbn in *. congruence.
Qed.

(** X1.  [_list_variables_used_by_fns] works incrementally: the two
    sequences it returns for [fns ++ gns] are those it returns for [fns],
    each followed by the variables of [gns] that it adds when it starts
    from the identities already listed.  Functions registered later never
    reorder or remove what earlier ones contributed. *)
Theorem list_variables_used_by_fns_incremental (fns gns : list Fn) :
  let r := _list_variables_used_by_fns fns in
  let r' := _list_variables_used_by_fns (fns ++ gns) in
  r'.1 = r.1 ++ first_occurrences (ids r.1)
                  (listed_trainable (sightings gns))
  ∧ r'.2 = r.2 ++ (collect (ids r.1 ∪ ids r.2) (sightings gns)).2
  ∧ r.1 `prefix_of` r'.1
  ∧ r.2 `prefix_of` r'.2.
Proof.
  intros r r'.
  destruct (list_variables_used_by_fns_extend fns gns) as [H1 H2].
  fold r r' in H1, H2. split_and!; [exact H1|exact H2|..].
  - rewrite H1. by apply prefix_app_r.
  - rewrite H2. by apply prefix_app_r.
Qed.


End facts.
End CollectMore.

(** ** What a method leaves unchanged *)

Section preserves_facts.
Context {S : Type} (R : relation S) `{!PreOrder R}.

Lemma preserves_ret {A} (a : A) : preserves R (mret a).
Proof. intros s o s' [= _ <-]. reflexivity. Qed.

Lemma preserves_raise {A} e : preserves R (raise (A:=A) e).
Proof. intros s o s' [= _ <-]. reflexivity. Qed.

Lemma preserves_gets {A} (f : S → A) : preserves R (gets f).
Proof. intros s o s' [= _ <-]. reflexivity. Qed.

Lemma preserves_raise_if c e : preserves R (raise_if c e).
Proof. destruct c; [apply preserves_raise|apply preserves_ret]. Qed.

Lemma preserves_external {A} (r : option A) : preserves R (external r).
Proof. destruct r; [apply preserves_ret|apply preserves_raise]. Qed.

Lemma preserves_modify (f : S → S) :
  (∀ s, R s (f s)) → preserves R (modify f).
Proof. intros Hf s o s' [= _ <-]. apply Hf. Qed.

Lemma preserves_bind {A B} (m : M S A) (f : A → M S B) :
  preserves R m → (∀ a, preserves R (f a)) → preserves R (m ≫= f).
Proof.
  intros Hm Hf s o s'. rewrite run_bind.
  destruct (m s) as [[a|e] s1] eqn:Hrun.
  - intros Hrun'. transitivity s1; [by eapply Hm|by eapply Hf].
  - intros [= _ <-]. by eapply Hm.
Qed.

Lemma preserves_for_each {A} (l : list A) (f : A → M S unit) :
  (∀ x, preserves R (f x)) → preserves R (for_each l f).
Proof.
  intros Hf. induction l as [|x l IH]; cbn [for_each].
  - apply preserves_ret.
  - apply preserves_bind; [apply Hf|intros _; exact IH].
Qed.

Lemma preserves_comprehension {A B} (l : list A) (f : A → M S B) :
  (∀ x, preserves R (f x)) → preserves R (comprehension l f).
Proof.
  intros Hf. induction l as [|x l IH]; cbn [comprehension].
  - apply preserves_ret.
  - apply preserves_bind; [apply Hf|intros y].
    apply preserves_bind; [exact IH|intros ys; apply preserves_ret].
Qed.

End preserves_facts.

(** One step through the structure of a method. *)
Ltac preorder_goal :=
  lazymatch goal with
  | |- PreOrder _ => apply _
  | |- _ => idtac
  end.

Ltac preserves_step :=
  first
    [ apply preserves_ret; preorder_goal
    | apply preserves_raise; preorder_goal
    | apply preserves_gets; preorder_goal
    | apply preserves_raise_if; preorder_goal
    | apply preserves_external; preorder_goal
    | apply preserves_for_each; preorder_goal; intros ?
    | apply preserves_comprehension; preorder_goal; intros ?
    | apply preserves_bind; preorder_goal; [|intros ?]
    | match goal with
      | |- preserves _ (if ?c then _ else _) => destruct c
      | |- preserves _ (match ?x with _ => _ end) => destruct x
      end ].

(** ** Sequences of calls *)

Module SessionFacts.
Import ExportArchive VariableCollection Session ArchiveFacts WriteFacts.
Section facts.
Context {Fn : Type} `{!TF.TFRuntime Fn}.
Notation archive := (ExportArchive.t (Fn:=Fn)).

Global Instance registry_le_preorder : PreOrder (registry_le (Fn:=Fn)).
Proof.
  split.
  - by intros s.
  - intros s1 s2 s3 (Hn & Hs & Ha) (Hn' & Hs' & Ha').
    split_and!; [congruence..|]. intros name Hname. by apply Ha', Ha.
Qed.

Global Instance reserved_only_preorder : PreOrder (reserved_only (Fn:=Fn)).
Proof.
  split.
  - intros s. split; [|done]. by rewrite set_tf_trackable_id.
  - intros s1 s2 s3 [H12 Ha] [H23 Ha']. split.
    + rewrite H23, H12. reflexivity.
    + intros name Hname. by rewrite Ha', Ha.
Qed.

Lemma registry_le_assign name (a : Attr (Fn:=Fn)) :
  preserves registry_le (assign name a).
Proof.
  apply preserves_modify; preorder_goal. intros s. split_and!; [done..|].
  intros k Hk. cbn. destruct (decide (k = name)) as [->|Hne].
  - rewrite lookup_insert_eq. by eexists.
  - by rewrite lookup_insert_ne.
Qed.

Lemma registry_le_getattr name :
  preserves (registry_le (Fn:=Fn)) (getattr name).
Proof.
  intros s o s'. unfold getattr.
  destruct (_tf_trackable s !! name); intros [= _ <-]; reflexivity.
Qed.

Lemma registry_le_iadd name (rhs : M archive (list var)) :
  preserves registry_le rhs → preserves registry_le (iadd name rhs).
Proof.
  intros Hrhs. unfold iadd.
  apply preserves_bind; preorder_goal; [apply registry_le_getattr|intros cur].
  apply preserves_bind; preorder_goal; [exact Hrhs|intros vs].
  destruct cur;
    [apply registry_le_assign|(apply preserves_raise; preorder_goal)..].
Qed.

Lemma registry_le_tf_Variable v :
  preserves (registry_le (Fn:=Fn)) (tf_Variable v).
Proof. intros s o s' [= _ <-]. by split_and!. Qed.

Lemma registry_le_track_variables backend r :
  preserves (registry_le (Fn:=Fn)) (track_variables backend r).
Proof.
  unfold track_variables. case_decide.
  - apply preserves_bind; preorder_goal; [ |intros _].
    { apply preserves_modify; preorder_goal. intros s. by split_and!. }
    apply preserves_bind; preorder_goal; [ |intros _].
    { apply registry_le_iadd, preserves_comprehension; preorder_goal.
      apply registry_le_tf_Variable. }
    apply preserves_bind; preorder_goal; [ |intros _].
    { apply registry_le_iadd, preserves_comprehension; preorder_goal.
      apply registry_le_tf_Variable. }
    apply preserves_bind; preorder_goal; [apply registry_le_getattr|intros tvs].
    apply preserves_bind; preorder_goal; [apply registry_le_getattr|intros ntvs].
    apply preserves_bind; preorder_goal; [ |intros vs; apply registry_le_assign].
    unfold add. destruct tvs, ntvs; preserves_step.
  - repeat (apply preserves_bind; preorder_goal; [ |intros _]);
      apply registry_le_iadd, preserves_ret; preorder_goal.
Qed.

Lemma registry_le_track backend r :
  preserves (registry_le (Fn:=Fn)) (track backend r).
Proof.
  unfold track.
  apply preserves_bind; preorder_goal;
    [apply preserves_raise_if; preorder_goal|intros _].
  apply preserves_bind; preorder_goal;
    [apply preserves_raise_if; preorder_goal|intros _].
  apply preserves_bind; preorder_goal; [ |intros _].
  { destruct (Resource.is_layer r); preserves_step. }
  apply preserves_bind; preorder_goal; [ |intros _].
  { apply preserves_modify; preorder_goal. intros s. by split_and!. }
  destruct (Resource.is_layer r);
    [apply registry_le_track_variables|apply preserves_ret; preorder_goal].
Qed.

Lemma preserves_pure {A} (R : relation archive) `{!PreOrder R}
    (m : M archive A) :
  (∀ s, (m s).2 = s) → preserves R m.
Proof.
  intros Hm s o s' Hrun. specialize (Hm s). rewrite Hrun in Hm.
  cbn in Hm. by subst.
Qed.

(** [write_out] and its parts change the archive by assignments to the
    two reserved attributes only. *)
Section write_frame.
Variable R : relation archive.
Context `{!PreOrder R}.
Hypothesis R_all_variables : ∀ a, preserves R (assign "_all_variables" a).
Hypothesis R_misc_assets : ∀ a, preserves R (assign "_misc_assets" a).

Lemma frame_append_misc_asset d : preserves R (append_misc_asset d).
Proof.
  unfold append_misc_asset.
  apply preserves_bind; preorder_goal;
    [apply preserves_pure; [done|apply getattr_pure]|intros cur].
  destruct cur; first [apply R_misc_assets|apply preserves_raise; done].
Qed.

Lemma frame_filter_and_track_resources :
  preserves R _filter_and_track_resources.
Proof.
  unfold _filter_and_track_resources.
  apply preserves_bind; preorder_goal; [by apply preserves_gets|intros names].
  apply preserves_bind; preorder_goal; [|intros fns].
  { apply preserves_comprehension; preorder_goal. intros name.
    apply preserves_pure; [done|]. intros s. apply get_concrete_fn_pure. }
  apply preserves_bind; preorder_goal; [|intros [tvs ntvs]].
  { by apply preserves_pure. }
  apply preserves_bind; preorder_goal; [apply R_all_variables|intros _].
  apply preserves_bind; preorder_goal; [apply R_misc_assets|intros _].
  apply preserves_bind; preorder_goal; [by apply preserves_gets|intros tracked].
  destruct tracked as [roots|]; [|by apply preserves_ret].
  apply preserves_for_each; preorder_goal. intros root.
  apply preserves_for_each; preorder_goal. intros d.
  destruct (Resource.is_lookup d);
    [apply frame_append_misc_asset|by apply preserves_ret].
Qed.

Lemma frame_write_out backend filepath options :
  preserves R (write_out backend filepath options).
Proof.
  unfold write_out.
  apply preserves_bind; preorder_goal; [by apply preserves_gets|intros names].
  apply preserves_bind; preorder_goal;
    [by apply preserves_raise_if|intros _].
  apply preserves_bind; preorder_goal; [|intros _].
  { case_decide;
      [apply frame_filter_and_track_resources|by apply preserves_ret]. }
  apply preserves_pure; [done|]. intros s.
  rewrite run_gets, run_bind.
  pose proof (fill_signatures_pure (_endpoint_names s) [] s) as Hfill.
  destruct (fill_signatures (_endpoint_names s) [] s) as [[sigs|e] s1];
    cbn in Hfill; subst s1; [|done].
  rewrite run_gets, run_bind. case_decide.
  - rewrite run_gets. destruct (_endpoint_names s) as [|first rest]; [done|].
    rewrite run_bind, get_concrete_fn_run.
    by destruct (_get_concrete_fn first s).1.
  - reflexivity.
Qed.

End write_frame.

Lemma registry_le_write_out backend filepath options :
  preserves (registry_le (Fn:=Fn)) (write_out backend filepath options).
Proof.
  apply frame_write_out; [apply _|intros a; apply registry_le_assign..].
Qed.

Lemma reserved_only_assign name (a : Attr (Fn:=Fn)) :
  reserved name → preserves reserved_only (assign name a).
Proof.
  intros Hname. apply preserves_modify. intros s. split; [done|].
  intros k Hk. cbn. rewrite lookup_insert_ne; [done|]. by intros ->.
Qed.

Lemma reserved_only_write_out backend filepath options :
  preserves (reserved_only (Fn:=Fn)) (write_out backend filepath options).
Proof.
  apply frame_write_out; [apply _|intros a; apply reserved_only_assign..].
  - by left.
  - by right.
Qed.

(** *** [add_endpoint] *)

Lemma add_endpoint_returns backend name fn sig (self self' : archive) :
  add_endpoint backend name fn sig self = (Return (), self') →
  name ∉ _endpoint_names self
  ∧ TF.setattr_refusal name = None
  ∧ ∃ f,
      self' = set_endpoint_names (λ names, names ++ [name])
                (set_tf_trackable (<[name := AFunction f]>)
                   (if truthy sig
                    then set_endpoint_signatures
                           (<[name := default [] sig]>) self
                    else self))
      ∧ if truthy sig
        then decorate backend self fn (default [] sig) = Some f
        else f = fn
             ∧ TF.is_generic_function fn = true
             ∧ TF._list_all_concrete_functions fn ≠ [].
Proof.
  intros Hrun. destruct (decide (name ∈ _endpoint_names self)) as [Hin|Hnin].
  { by rewrite add_endpoint_duplicate in Hrun. }
  split; [exact Hnin|]. destruct (truthy sig) eqn:Hsig.
  - destruct sig as [[|x sig]|]; try discriminate.
    rewrite add_endpoint_truthy in Hrun by done.
    destruct (decorate backend self fn (x :: sig)) as [f|] eqn:Hdec;
      [|discriminate].
    destruct (TF.setattr_refusal name); [discriminate|]. split; [done|].
    exists f. split; [by injection Hrun as <-|exact Hdec].
  - rewrite add_endpoint_falsy in Hrun by done.
    destruct (TF.is_generic_function fn); [|discriminate].
    destruct (TF._list_all_concrete_functions fn) eqn:Hcf; [discriminate|].
    destruct (TF.setattr_refusal name); [discriminate|]. split; [done|].
    exists fn. split; [by injection Hrun as <-|done].
Qed.

(** The archive after a call of [add_endpoint]: as it was; or with the
    signature recorded for a name that [setattr] refuses; or with the
    endpoint registered. *)
Lemma add_endpoint_state backend name fn sig (self : archive) :
  let self' := (add_endpoint backend name fn sig self).2 in
  self' = self
  ∨ (name ∉ _endpoint_names self
     ∧ is_Some (TF.setattr_refusal name)
     ∧ self' = set_endpoint_signatures (<[name := default [] sig]>) self)
  ∨ (name ∉ _endpoint_names self
     ∧ TF.setattr_refusal name = None
     ∧ _endpoint_names self' = _endpoint_names self ++ [name]
     ∧ (_endpoint_signatures self' = _endpoint_signatures self
        ∨ ∃ s, _endpoint_signatures self'
               = <[name := s]> (_endpoint_signatures self))
     ∧ ∃ f, _tf_trackable self'
            = <[name := AFunction f]> (_tf_trackable self)).
Proof.
  intros self'. subst self'.
  destruct (add_endpoint backend name fn sig self) as [[[]|e] self'] eqn:Hrun.
  - right. right. destruct (add_endpoint_returns _ _ _ _ _ _ Hrun)
      as (Hnin & Hset & f & -> & _).
    split; [exact Hnin|]. split; [exact Hset|]. cbn [snd].
    destruct (truthy sig); cbn; (split; [done|]);
      (split; [|by exists f]); [right|left]; [by eexists|done].
  - cbn [snd].
    destruct (add_endpoint_raise _ _ _ _ _ _ _ Hrun)
      as [[-> _]|(why & Hset & _ & Hnin & ->)]; [by left|].
    destruct (truthy sig); [|by left].
    right. left. split_and!; [done| |done]. by rewrite Hset.
Qed.

(** *** [add_variable_collection] *)

Lemma add_variable_collection_state backend name variables (self : archive) :
  let self' := (add_variable_collection backend name variables self).2 in
  _endpoint_names self' = _endpoint_names self
  ∧ _endpoint_signatures self' = _endpoint_signatures self
  ∧ (_tf_trackable self' = _tf_trackable self
     ∨ ∃ vs, _tf_trackable self'
             = <[name := AVariables vs]> (_tf_trackable self)).
Proof.
  assert (∀ vs (s : archive),
    _endpoint_names s = _endpoint_names self →
    _endpoint_signatures s = _endpoint_signatures self →
    _tf_trackable s = _tf_trackable self →
    let self' := (set_collection name vs self s).2 in
    _endpoint_names self' = _endpoint_names self
    ∧ _endpoint_signatures self' = _endpoint_signatures self
    ∧ (_tf_trackable self' = _tf_trackable self
       ∨ ∃ vs, _tf_trackable self'
               = <[name := AVariables vs]> (_tf_trackable self))) as Hset.
  { intros vs s Hn Hs Ha. unfold set_collection, setattr.
    destruct (TF.setattr_refusal name); cbn; [by split_and!; [..|left]|].
    rewrite Ha. split_and!; [done..|]. right. by eexists. }
  unfold add_variable_collection.
  destruct (negb (is_list_tuple_set (container variables)));
    [by split_and!; [..|left]|].
  destruct (negb (forallb is_variable (elements variables)));
    [by split_and!; [..|left]|].
  case_decide; [|by apply Hset].
  rewrite comprehension_tf_Variable.
  destruct (container variables); first [by apply Hset|by split_and!; [..|left]].
Qed.

Lemma registry_le_add_variable_collection backend name variables
    (self : archive) :
  registry_le self (add_variable_collection backend name variables self).2.
Proof.
  destruct (add_variable_collection_state backend name variables self)
    as (Hn & Hs & Ha).
  split_and!; [done..|]. intros k Hk. destruct Ha as [->|[vs ->]]; [done|].
  destruct (decide (k = name)) as [->|Hne].
  - rewrite lookup_insert_eq. by eexists.
  - by rewrite lookup_insert_ne.
Qed.

(** *** One call, and many *)

Lemma registry_le_ok (self self' : archive) :
  registry_le self self' → registry_ok self → registry_ok self'.
Proof.
  intros (Hn & Hs & Ha) (Hnd & Hsig & Hattr).
  unfold registry_ok. rewrite Hn, Hs. split_and!; [done..|].
  intros name Hname. destruct (Hattr name Hname) as [Hsome Hset].
  split; [by apply Ha|done].
Qed.

Lemma step_names backend (self : archive) c :
  _endpoint_names self `prefix_of` _endpoint_names (step backend self c).
Proof.
  destruct c as [r|name fn sig|name variables|filepath options]; cbn.
  - destruct (track backend r self) as [o s'] eqn:Hrun. cbn [snd].
    apply registry_le_track in Hrun as [-> _]. done.
  - destruct (add_endpoint_state backend name fn sig self)
      as [->|[(_ & _ & ->)|(_ & _ & -> & _)]]; [done|done|].
    by apply prefix_app_r.
  - by destruct (add_variable_collection_state backend name variables self)
      as [-> _].
  - destruct (write_out backend filepath options self) as [o s'] eqn:Hrun.
    cbn [snd].
    apply registry_le_write_out in Hrun as [-> _]. done.
Qed.

Lemma run_names backend calls : ∀ self : archive,
  _endpoint_names self `prefix_of` _endpoint_names (run backend calls self).
Proof.
  induction calls as [|c calls IH]; intros self; [done|].
  cbn. etransitivity; [apply (step_names backend self c)|apply IH].
Qed.

Lemma step_registry_ok backend (self : archive) c :
  registry_ok self → registry_ok (step backend self c).
Proof.
  intros Hok.
  destruct c as [r|name fn sig|name variables|filepath options]; cbn.
  - destruct (track backend r self) as [o s'] eqn:Hrun. cbn [snd].
    apply registry_le_track in Hrun. by eapply registry_le_ok.
  - destruct (add_endpoint_state backend name fn sig self)
      as [->|[(Hnin & Hset & ->)|(Hnin & Hset & Hn & Hs & f & Ha)]];
      [done| |].
    { destruct Hok as (Hnd & Hsig & Hattr).
      unfold registry_ok. cbn. split_and!; [done| |done].
      intros k Hk. destruct (decide (k = name)) as [->|Hne]; [by right|].
      apply Hsig. by rewrite lookup_insert_ne in Hk. }
    destruct Hok as (Hnd & Hsig & Hattr).
    unfold registry_ok. rewrite Hn, Ha. split_and!.
    + apply NoDup_app. split_and!; [done| |apply NoDup_singleton].
      intros x Hx ->%list_elem_of_singleton. done.
    + intros k Hk. rewrite elem_of_app, list_elem_of_singleton.
      destruct (decide (k = name)) as [->|Hne]; [left; by right|].
      assert (is_Some (_endpoint_signatures self !! k)) as Hk'.
      { destruct Hs as [Hs|[s Hs]]; rewrite Hs in Hk; [done|].
        by rewrite lookup_insert_ne in Hk. }
      destruct (Hsig k Hk'); [left; by left|by right].
    + intros k [Hk| ->%list_elem_of_singleton]%elem_of_app.
      * destruct (Hattr k Hk) as [Hsome Hset']. split; [|done].
        destruct (decide (k = name)) as [->|Hne]; [done|].
        by rewrite lookup_insert_ne.
      * split; [|done]. rewrite lookup_insert_eq. by eexists.
  - eapply registry_le_ok; [|done].
    apply registry_le_add_variable_collection.
  - destruct (write_out backend filepath options self) as [o s'] eqn:Hrun.
    cbn [snd].
    apply registry_le_write_out in Hrun. by eapply registry_le_ok.
Qed.

Lemma run_registry_ok backend calls : ∀ self : archive,
  registry_ok self → registry_ok (run backend calls self).
Proof.
  induction calls as [|c calls IH]; intros self Hok; [done|].
  cbn. by apply IH, step_registry_ok.
Qed.

Lemma init_registry_ok backend (self : archive) :
  __init__ backend = Return self → registry_ok self.
Proof.
  unfold __init__. case_decide; [done|]. intros [= <-].
  unfold registry_ok. cbn [_endpoint_names _endpoint_signatures].
  split_and!.
  - apply NoDup_nil_2.
  - intros name [? Hname]. by rewrite lookup_empty in Hname.
  - by intros name ?%elem_of_nil.
Qed.

(** X3.  In every archive that a sequence of calls of [track],
    [add_endpoint], [add_variable_collection] and [write_out] makes of a
    new archive, whatever their arguments and whether they return or
    raise: no endpoint name is registered twice; a name with a recorded
    signature is registered, unless it is a name that the trackable
    object refuses as an attribute, for which [add_endpoint] records the
    signature and then raises; and every registered name is an attribute
    of the object that is saved, and none that the object refuses. *)
Theorem registry_invariant backend calls (self : archive) :
  __init__ backend = Return self →
  let self' := run backend calls self in
  NoDup (_endpoint_names self')
  ∧ (∀ name, is_Some (_endpoint_signatures self' !! name) →
             name ∈ _endpoint_names self'
             ∨ is_Some (TF.setattr_refusal name))
  ∧ (∀ name, name ∈ _endpoint_names self' →
             is_Some (_tf_trackable self' !! name)
             ∧ TF.setattr_refusal name = None).
Proof.
  intros Hinit. apply run_registry_ok. by apply (init_registry_ok backend).
Qed.

(** X4.  An endpoint name stays taken: no call removes or reorders the
    registered names, so that after any further calls [add_endpoint]
    with a registered name raises duplicate-endpoint-name and leaves the
    archive as it is. *)
Theorem endpoint_name_stays_taken backend name calls fn sig
    (self : archive) :
  name ∈ _endpoint_names self →
  let self' := run backend calls self in
  _endpoint_names self `prefix_of` _endpoint_names self'
  ∧ add_endpoint backend name fn sig self'
    = (Raise (DuplicateEndpointName name), self').
Proof.
  intros Hname self'. pose proof (run_names backend calls self) as Hpre.
  split; [exact Hpre|]. apply add_endpoint_duplicate.
  destruct Hpre as [k Hk]. fold self' in Hk. rewrite Hk.
  apply elem_of_app. by left.
Qed.

(** X5.  Registration and lookup: after a successful [add_endpoint] the
    name is the last registered one; with a signature, [_get_concrete_fn]
    of the name is the function object that [tf.function] (or the JAX
    path) made, and without one it is the first trackable child of the
    function handed in, or an [IndexError] when it has none.  The
    concrete functions and signatures of the other names are as they
    were. *)
Theorem add_endpoint_then_get_concrete_fn backend name fn sig
    (self self' : archive) :
  (∀ other, is_Some (_endpoint_signatures self !! other) →
            other ∈ _endpoint_names self) →
  add_endpoint backend name fn sig self = (Return (), self') →
  _endpoint_names self' = _endpoint_names self ++ [name]
  ∧ (if truthy sig then
       ∃ decorated_fn,
         decorate backend self fn (default [] sig) = Some decorated_fn
         ∧ _endpoint_signatures self' !! name = Some (default [] sig)
         ∧ _get_concrete_fn name self'
           = (Return (AFunction decorated_fn), self')
     else
       _endpoint_signatures self' !! name = None
       ∧ _get_concrete_fn name self'
         = match (TF._trackable_children fn).*2 with
           | trace :: _ => (Return (AFunction trace), self')
           | [] => (Raise PyIndexError, self')
           end)
  ∧ (∀ other, other ≠ name →
       _endpoint_signatures self' !! other
       = _endpoint_signatures self !! other
       ∧ (_get_concrete_fn other self').1 = (_get_concrete_fn other self).1).
Proof.
  intros Hsigs Hrun.
  destruct (add_endpoint_returns _ _ _ _ _ _ Hrun)
    as (Hnin & _ & f & -> & Hf).
  destruct (truthy sig).
  - split; [done|]. split.
    + exists f. split; [exact Hf|].
      split; [by cbn; rewrite lookup_insert_eq|].
      unfold _get_concrete_fn. rewrite run_gets. cbn.
      rewrite decide_True by (rewrite lookup_insert_eq; by eexists).
      unfold getattr. cbn. by rewrite lookup_insert_eq.
    + intros other Hne.
      assert (∀ A (m : gmap string A) x, <[name := x]> m !! other = m !! other)
        as Hother by (intros; by rewrite lookup_insert_ne).
      split; [apply Hother|]. apply get_concrete_fn_lookup; apply Hother.
  - destruct Hf as (-> & _ & _). split; [done|]. split.
    + assert (_endpoint_signatures self !! name = None) as Hnone.
      { destruct (_endpoint_signatures self !! name) eqn:Hs; [|done].
        destruct Hnin. apply Hsigs. by eexists. }
      split; [exact Hnone|].
      unfold _get_concrete_fn. rewrite run_gets. cbn.
      rewrite decide_False by (rewrite Hnone; by intros [? ?]).
      rewrite run_bind. unfold getattr. cbn. rewrite lookup_insert_eq.
      cbn [as_object]. by destruct (TF._trackable_children fn).*2.
    + intros other Hne. split; [done|].
      apply get_concrete_fn_lookup; [done|]. cbn. by rewrite lookup_insert_ne.
Qed.

(** *** Sequences of [track] *)

Lemma track_native_state r (self : archive) vs tvs ntvs :
  holds_lists self vs tvs ntvs →
  let self' := (track tensorflow r self).2 in
  if decide (capable tensorflow r = true
             ∧ (Resource.is_layer r = true → Resource.built r = true))
  then
    _tracked self' = Some (default [] (_tracked self) ++ [r])
    ∧ _endpoint_names self' = _endpoint_names self
    ∧ _endpoint_signatures self' = _endpoint_signatures self
    ∧ if Resource.is_layer r
      then holds_lists self'
             (vs ++ Resource.variables r)
             (tvs ++ Resource.trainable_variables r)
             (ntvs ++ Resource.non_trainable_variables r)
      else holds_lists self' vs tvs ntvs
  else self' = self.
Proof.
  intros Hl. cbn zeta. rewrite track_unfold.
  destruct (capable tensorflow r) eqn:Hcap; cbn [negb].
  2:{ rewrite decide_False by (by intros [? _]). done. }
  destruct (Resource.is_layer r) eqn:Hlayer.
  - destruct (Resource.built r) eqn:Hbuilt; cbn [negb].
    2:{ rewrite decide_False; [done|]. intros [_ Hb].
        by specialize (Hb eq_refl). }
    rewrite decide_True by done.
    rewrite (track_variables_native tensorflow r _ vs tvs ntvs);
      [|done|by apply holds_lists_tracked_with].
    cbn. split_and!; [done..|].
    unfold holds_lists. cbn. split_and!; by simplify_map_eq.
  - rewrite decide_True by done. cbn [snd].
    split_and!; [done..|]. by apply holds_lists_tracked_with.
Qed.

(** X6.  On the TensorFlow backend the archive accumulates: after any
    sequence of calls of [track], its three sequences are what they were,
    followed by the corresponding sequences of the layers that were not
    rejected, in the order of the calls (a layer tracked twice counts
    twice), and [_tracked] has gained the resources that were not
    rejected.  Rejected resources leave no trace, and the endpoints are
    untouched. *)
Theorem track_all_native rs (self : archive) vs tvs ntvs :
  holds_lists self vs tvs ntvs →
  let self' := run tensorflow (Track <$> rs) self in
  let layers := accepted_layers tensorflow rs in
  holds_lists self'
    (vs ++ layers ≫= Resource.variables)
    (tvs ++ layers ≫= Resource.trainable_variables)
    (ntvs ++ layers ≫= Resource.non_trainable_variables)
  ∧ default [] (_tracked self')
    = default [] (_tracked self) ++ accepted tensorflow rs
  ∧ _endpoint_names self' = _endpoint_names self
  ∧ _endpoint_signatures self' = _endpoint_signatures self.
Proof.
  revert self vs tvs ntvs.
  induction rs as [|r rs IH]; intros self vs tvs ntvs Hl; cbn zeta.
  { cbn. by rewrite !app_nil_r. }
  unfold accepted_layers, accepted, run in IH |- *.
  rewrite fmap_cons. cbn [foldl step].
  pose proof (track_native_state r self vs tvs ntvs Hl) as Hstep.
  cbn zeta in Hstep. rewrite filter_cons.
  destruct (decide (capable tensorflow r = true
                    ∧ (Resource.is_layer r = true
                       → Resource.built r = true))) as [Hacc|Hrej].
  - destruct Hstep as (Htr & Hn & Hs & Hl').
    rewrite filter_cons. destruct (Resource.is_layer r) eqn:Hlayer.
    + rewrite decide_True by done.
      destruct (IH _ _ _ _ Hl') as (IHl & IHt & IHn & IHs).
      cbn [mbind list_bind]. rewrite !(assoc_L (++)).
      split_and!; [exact IHl| |congruence..].
      rewrite IHt, Htr. cbn. by rewrite <-(assoc_L (++)).
    + rewrite decide_False by done.
      destruct (IH _ _ _ _ Hl') as (IHl & IHt & IHn & IHs).
      split_and!; [exact IHl| |congruence..].
      rewrite IHt, Htr. cbn. by rewrite <-(assoc_L (++)).
  - rewrite Hstep. apply (IH self vs tvs ntvs Hl).
Qed.

Lemma length_mirrors n l : length (mirrors n l) = length l.
Proof.
  revert n. induction l as [|v l IH]; intros n; cbn; [done|by rewrite IH].
Qed.

Lemma aligned_tracked_with r (self : archive) :
  aligned self → aligned (tracked_with r self).
Proof.
  intros (tvs & ntvs & Hl & Ht & Hn & Hb). exists tvs, ntvs.
  split; [by apply holds_lists_tracked_with|done].
Qed.

Lemma track_jax_state r (self : archive) :
  aligned self →
  let self' := (track jax r self).2 in
  if decide (capable jax r = true
             ∧ (Resource.is_layer r = true → Resource.built r = true))
  then
    aligned self'
    ∧ _backend_trainable_variables self'
      = _backend_trainable_variables self
        ++ (if Resource.is_layer r
            then Resource.trainable_variables r else [])
    ∧ _backend_non_trainable_variables self'
      = _backend_non_trainable_variables self
        ++ (if Resource.is_layer r
            then Resource.non_trainable_variables r else [])
  else self' = self.
Proof.
  intros Hal. cbn zeta. rewrite track_unfold.
  destruct (capable jax r) eqn:Hcap; cbn [negb].
  2:{ rewrite decide_False by (by intros [? _]). done. }
  destruct (Resource.is_layer r) eqn:Hlayer.
  - destruct (Resource.built r) eqn:Hbuilt; cbn [negb].
    2:{ rewrite decide_False; [done|]. intros [_ Hb].
        by specialize (Hb eq_refl). }
    rewrite decide_True by done.
    apply (aligned_tracked_with r) in Hal
      as (tvs & ntvs & Hl & Ht & Hn & Hb).
    destruct (track_variables_jax r _ _ _ _ Hl)
      as (self' & -> & Hl' & _ & Hbt & Hbn & Hbv & _).
    cbn [snd]. split; [|by rewrite Hbt, Hbn].
    eexists _, _. split; [exact Hl'|].
    rewrite Hbt, Hbn, !length_app, !length_mirrors, Ht, Hn.
    split_and!; [done..|]. by rewrite Hbv, Hbt, Hbn.
  - rewrite decide_True by done. cbn [snd].
    split; [by apply aligned_tracked_with|]. by rewrite !app_nil_r.
Qed.

(** X7.  On the JAX backend the mirrors stand one to one for the backend
    variables.  After any sequence of calls of [track] on an archive in
    which they do (a new archive is one), [variables] is
    [trainable_variables] followed by [non_trainable_variables], each of
    the two has as many entries as the list of backend variables of its
    kind, [_backend_variables] is the trainable backend variables
    followed by the others, and these two lists have gained the
    parameters of the layers that were not rejected, in the order of the
    calls.  So the pairing of [_backend_variables] with [variables] that
    an endpoint function relies on never leaves a variable out. *)
Theorem track_all_jax rs (self : archive) :
  aligned self →
  let self' := run jax (Track <$> rs) self in
  let layers := accepted_layers jax rs in
  aligned self'
  ∧ _backend_trainable_variables self'
    = _backend_trainable_variables self
      ++ layers ≫= Resource.trainable_variables
  ∧ _backend_non_trainable_variables self'
    = _backend_non_trainable_variables self
      ++ layers ≫= Resource.non_trainable_variables
  ∧ ∃ vs, _tf_trackable self' !! "variables" = Some (AVariables vs)
          ∧ length vs = length (_backend_variables self').
Proof.
  intros Hal self' layers.
  assert (aligned self'
          ∧ _backend_trainable_variables self'
            = _backend_trainable_variables self
              ++ layers ≫= Resource.trainable_variables
          ∧ _backend_non_trainable_variables self'
            = _backend_non_trainable_variables self
              ++ layers ≫= Resource.non_trainable_variables)
    as (Hal' & Ht & Hn).
  { subst self' layers. revert self Hal.
    induction rs as [|r rs IH]; intros self Hal.
    { cbn. by rewrite !app_nil_r. }
    unfold accepted_layers, accepted, run in IH |- *.
    rewrite fmap_cons. cbn [foldl step].
    pose proof (track_jax_state r self Hal) as Hstep.
    cbn zeta in Hstep. rewrite filter_cons.
    destruct (decide (capable jax r = true
                      ∧ (Resource.is_layer r = true
                         → Resource.built r = true))) as [Hacc|Hrej].
    - destruct Hstep as (Hal' & Hbt & Hbn).
      destruct (IH _ Hal') as (IHa & IHt & IHn).
      rewrite filter_cons, IHt, IHn, Hbt, Hbn.
      destruct (Resource.is_layer r) eqn:Hlayer.
      + rewrite decide_True by done. cbn [mbind list_bind].
        by rewrite <-!(assoc_L (++)).
      + rewrite decide_False by done. by rewrite !app_nil_r.
    - rewrite Hstep. apply (IH self Hal). }
  split_and!; [done..|].
  destruct Hal' as (tvs & ntvs & (Hv & _) & Hlt & Hln & Hb).
  exists (tvs ++ ntvs). split; [exact Hv|].
  by rewrite Hb, !length_app, Hlt, Hln.
Qed.

Lemma init_aligned backend (self : archive) :
  __init__ backend = Return self → aligned self.
Proof.
  unfold __init__. case_decide; [done|]. intros [= <-].
  exists [], []. by split_and!.
Qed.

End facts.
End SessionFacts.

(** ** What [write_out] does to the archive *)

Module WriteMore.
Import ExportArchive Session ArchiveFacts CollectorFacts WriteFacts
  SessionFacts.
Section facts.
Context {Fn : Type} `{!TF.TFRuntime Fn}.
Notation archive := (ExportArchive.t (Fn:=Fn)).

(** X8.  What [_filter_and_track_resources] assigns.  The objects it
    hands to the collector are the concrete functions of the endpoints,
    whatever they are: a function, or the wrapper of a list that an
    attribute of the name of an endpoint holds.  When they can be
    obtained and the collector has an answer for each of them,
    [_all_variables] becomes the trainable variables that
    [_get_variables_used_by_endpoints] returns followed by the
    non-trainable ones, and [_misc_assets] the lookup layers
    ([IntegerLookup], [StringLookup], [TextVectorization]) among the
    descendants of the tracked roots, root after root in the order of
    tracking; all other attributes and the rest of the archive are as
    they were.  When the collector has no answer for one of them (its
    trace fails, or it has no variables to list), or when one of them
    cannot be obtained, the exception is raised before anything is
    assigned. *)
Theorem filter_and_track_resources_assigns (self : archive) :
  match endpoint_functions self with
  | Return fns =>
      if forallb Collector.answers fns then
        let r := Collect._list_variables_used_by_fns fns in
        _get_variables_used_by_endpoints self = (Return r, self)
        ∧ ∃ self',
            _filter_and_track_resources self = (Return (), self')
            ∧ _tf_trackable self' !! "_all_variables"
              = Some (AVariables (r.1 ++ r.2))
            ∧ _tf_trackable self' !! "_misc_assets"
              = Some (AAssets (lookup_assets self))
            ∧ reserved_only self self'
      else
        ∃ e, Collector.collector_error e
             ∧ _get_variables_used_by_endpoints self = (Raise e, self)
             ∧ _filter_and_track_resources self = (Raise e, self)
  | Raise e =>
      host_error e
      ∧ _get_variables_used_by_endpoints self = (Raise e, self)
      ∧ _filter_and_track_resources self = (Raise e, self)
  end.
Proof.
  rewrite filter_and_track_resources_run, get_variables_used_by_endpoints_run.
  destruct (endpoint_functions self) as [fns|e] eqn:Hfns.
  2:{ split; [|done]. by eapply endpoint_functions_Raise. }
  destruct (forallb Collector.answers fns) eqn:Hans.
  - rewrite collector_returns by done.
    cbn zeta. split; [done|]. eexists. split; [done|].
    cbn [_tf_trackable set_tf_trackable]. split_and!.
    + by rewrite lookup_insert_ne, lookup_insert_eq.
    + by rewrite lookup_insert_eq.
    + split; [by destruct self|].
      intros name Hname. cbn. rewrite !lookup_insert_ne; [done|..].
      * intros <-. apply Hname. by left.
      * intros <-. apply Hname. by right.
  - destruct (collector_raises fns Hans) as (e & -> & He). by exists e.
Qed.

(** *** Writing twice *)

Lemma write_out_state backend filepath options (self : archive) :
  (write_out backend filepath options self).2
  = if decide (_endpoint_names self = []) then self
    else (track_step backend self).2.
Proof.
  case_decide as Hnames.
  - unfold write_out. rewrite run_gets, Hnames. done.
  - rewrite write_out_run by done.
    destruct (track_step backend self) as [[[]|e] s1]; [|done].
    pose proof (fill_signatures_pure (_endpoint_names s1) [] s1) as Hfill.
    destruct (fill_signatures (_endpoint_names s1) [] s1) as [[sigs|e] s2];
      cbn in Hfill; subst s2; [|done].
    case_decide; [|done].
    destruct (_endpoint_names s1); [done|].
    by destruct (_get_concrete_fn s s1).1.
Qed.

Lemma track_step_twice backend (self self' : archive) :
  (backend = tensorflow →
   ∀ name, name ∈ _endpoint_names self → ¬ reserved name) →
  track_step backend self = (Return (), self') →
  track_step backend self' = (Return (), self').
Proof.
  unfold track_step. case_decide as Hb; [|by intros _ [= <-]].
  intros Hres. specialize (Hres Hb).
  rewrite filter_and_track_resources_run.
  destruct (endpoint_functions self) as [fns|e] eqn:Hfns; [|done].
  destruct (Collector._list_variables_used_by_fns fns) as [r|e] eqn:Hr;
    [|done].
  intros [= <-]. rewrite filter_and_track_resources_run.
  rewrite endpoint_functions_frame with (self := self); [|done|].
  - rewrite Hfns, Hr. f_equal.
    destruct self. unfold set_tf_trackable, lookup_assets. cbn. f_equal.
    apply map_eq. intros k.
    destruct (decide (k = "_misc_assets")) as [->|Hm];
      [by rewrite !lookup_insert_eq|].
    rewrite !(lookup_insert_ne _ "_misc_assets") by done.
    destruct (decide (k = "_all_variables")) as [->|Ha];
      [by rewrite !lookup_insert_eq|].
    by repeat (rewrite lookup_insert_ne by done).
  - intros name Hname. apply get_concrete_fn_lookup; [done|]. cbn.
    rewrite !lookup_insert_ne; [done|..].
    + intros <-. apply (Hres _ Hname). by left.
    + intros <-. apply (Hres _ Hname). by right.
Qed.

(** X9.  [write_out] can be repeated.  When it has returned, and on the
    TensorFlow backend no endpoint bears one of the two names that
    tracking assigns, a second call returns too, hands the same object and
    the same signature map to [tf.saved_model.save] (with the file path
    and options of the second call), and leaves the archive as the first
    call left it.  (Function objects are handles here: what the runtime
    reports of them does not change between the two calls.) *)
Theorem write_out_twice backend filepath options filepath' options'
    (self self' : archive) artifact :
  (backend = tensorflow →
   ∀ name, name ∈ _endpoint_names self → ¬ reserved name) →
  write_out backend filepath options self = (Return artifact, self') →
  write_out backend filepath' options' self'
  = (Return {| saved_object := saved_object artifact;
               saved_filepath := filepath';
               saved_options := options';
               saved_signatures := saved_signatures artifact |},
     self').
Proof.
  intros Hres Hrun.
  assert (_endpoint_names self ≠ []) as Hnames.
  { intros Hnil. unfold write_out in Hrun.
    by rewrite run_gets, Hnil in Hrun. }
  assert (self' = (track_step backend self).2) as Hself'.
  { pose proof (write_out_state backend filepath options self) as Hst.
    by rewrite Hrun, decide_False in Hst. }
  rewrite write_out_run in Hrun by done.
  destruct (track_step backend self) as [[[]|e] s1] eqn:Hstep; [|done].
  cbn [snd] in Hself'. subst self'.
  pose proof (keeps_registry_track_step backend _ _ _ Hstep) as [Hn _].
  rewrite write_out_run by (by rewrite Hn).
  rewrite (track_step_twice backend self s1 Hres Hstep).
  destruct (fill_signatures (_endpoint_names s1) [] s1) as [[sigs|e] s2];
    [|done].
  revert Hrun. case_decide.
  - destruct (_endpoint_names s2); [done|].
    destruct (_get_concrete_fn s s2).1; [|done]. by intros [= <- ->].
  - by intros [= <- ->].
Qed.

(** X10.  What [write_out] never does.  Whether it returns or raises, the
    endpoint names and signatures, the tracked resources, the lists of
    backend variables and every attribute other than [_all_variables]
    and [_misc_assets] are as they were before the call, and no
    attribute is removed.  On a backend other than TensorFlow, and when
    it raises no-endpoints, the archive is unchanged altogether. *)
Theorem write_out_frame backend filepath options (self self' : archive) o :
  write_out backend filepath options self = (o, self') →
  _endpoint_names self' = _endpoint_names self
  ∧ _endpoint_signatures self' = _endpoint_signatures self
  ∧ _tracked self' = _tracked self
  ∧ _backend_variables self' = _backend_variables self
  ∧ _backend_trainable_variables self' = _backend_trainable_variables self
  ∧ _backend_non_trainable_variables self'
    = _backend_non_trainable_variables self
  ∧ next_serial self' = next_serial self
  ∧ (∀ name, ¬ reserved name →
       _tf_trackable self' !! name = _tf_trackable self !! name)
  ∧ (∀ name, is_Some (_tf_trackable self !! name) →
             is_Some (_tf_trackable self' !! name))
  ∧ (backend ≠ tensorflow → self' = self)
  ∧ (o = Raise NoEndpoints → self' = self).
Proof.
  intros Hrun.
  pose proof (reserved_only_write_out _ _ _ _ _ _ Hrun) as [Heq Hattr].
  pose proof (registry_le_write_out _ _ _ _ _ _ Hrun) as (Hn & Hs & Hdom).
  split_and!; try done; try (by rewrite Heq).
  - intros Hb. pose proof (write_out_state backend filepath options self)
      as Hst.
    rewrite Hrun in Hst. cbn [snd] in Hst. rewrite Hst.
    case_decide; [done|]. unfold track_step. by rewrite decide_False.
  - intros ->. pose proof (write_out_state backend filepath options self)
      as Hst.
    rewrite Hrun in Hst. cbn [snd] in Hst. rewrite Hst.
    case_decide as Hnames; [done|]. exfalso.
    rewrite write_out_run in Hrun by done.
    destruct (track_step backend self) as [[[]|e] s1] eqn:Hstep.
    + pose proof (raises_only_fill_signatures (_endpoint_names s1) [] s1)
        as Hfill.
      destruct (fill_signatures (_endpoint_names s1) [] s1)
        as [[sigs|e] s2] eqn:Hf.
      * revert Hrun. case_decide; [|done].
        destruct (_endpoint_names s2); [done|].
        pose proof (raises_only_get_concrete_fn s s2) as Hg.
        rewrite get_concrete_fn_run in Hg.
        destruct (_get_concrete_fn s s2).1; [done|].
        intros [= -> _].
        by destruct (Hg _ _ eq_refl) as [?|[?|[? ?]]].
      * injection Hrun as -> _.
        by destruct (Hfill _ _ eq_refl) as [?|[?|[? ?]]].
    + injection Hrun as -> _. revert Hstep. unfold track_step.
      case_decide; [|done]. intros Hf.
      apply raises_only_filter_and_track_resources in Hf.
      by apply write_error_not_no_endpoints in Hf.
Qed.

End facts.
End WriteMore.

(** ** [add_variable_collection] *)

Module CollectionFacts.
Import ExportArchive VariableCollection ArchiveFacts.
Section facts.
Context {Fn : Type} `{!TF.TFRuntime Fn}.
Notation archive := (ExportArchive.t (Fn:=Fn)).

Lemma forallb_is_variable (l : list Element) :
  forallb is_variable l = false ↔ EObject ∈ l.
Proof.
  induction l as [|[v|] l IH]; cbn.
  - split; [done|by intros ?%elem_of_nil].
  - rewrite IH. split; [by right|].
    by intros [?|?]%elem_of_cons.
  - split; [by left|done].
Qed.

Lemma variables_of_fmap (vs : list var) :
  forallb is_variable (EVariable <$> vs) = true
  ∧ variables_of (EVariable <$> vs) = vs.
Proof.
  induction vs as [|v vs [IH1 IH2]]; [done|]. cbn.
  split; [exact IH1|]. unfold variables_of in IH2. by rewrite IH2.
Qed.

Lemma set_collection_run name vs (self s : archive) :
  set_collection name vs self s
  = match TF.setattr_refusal name with
    | Some why => (SetattrRaised (refusal_error name why), self)
    | None => (Registered, set_tf_trackable (<[name := AVariables vs]>) s)
    end.
Proof.
  unfold set_collection, setattr. by destruct (TF.setattr_refusal name).
Qed.

(** X11.  The two checks of [add_variable_collection], in their order:
    the call raises the list/tuple/set error exactly when [variables] is
    of another class, whatever it holds; otherwise it raises the
    element error exactly when some element is neither a [tf.Variable]
    nor a backend variable.  In both cases, and whenever nothing is
    registered, the archive is left as it was. *)
Theorem add_variable_collection_rejections backend name variables
    (self : archive) :
  let r := add_variable_collection backend name variables self in
  (r.1 = ExpectedListTupleSet ↔ container variables = PyOther)
  ∧ (r.1 = ExpectedVariables
     ↔ container variables ≠ PyOther ∧ EObject ∈ elements variables)
  ∧ (r.1 ≠ Registered → r.2 = self).
Proof.
  unfold add_variable_collection.
  destruct (is_list_tuple_set (container variables)) eqn:Hc; cbn [negb].
  2:{ cbn. destruct (container variables); try discriminate.
      split_and!; [done| |done]. split; [done|by intros [? _]]. }
  assert (container variables ≠ PyOther) as Hne
    by (intros Hx; by rewrite Hx in Hc).
  destruct (forallb is_variable (elements variables)) eqn:Hall; cbn [negb].
  2:{ apply forallb_is_variable in Hall. cbn. by split_and!. }
  assert (EObject ∉ elements variables) as Hnone.
  { intros Hx%forallb_is_variable. congruence. }
  case_decide.
  - rewrite comprehension_tf_Variable, set_collection_run.
    destruct (container variables), (TF.setattr_refusal name); cbn;
      (split_and!; [split; done|split; [done|by intros [_ ?]]|done]).
  - rewrite set_collection_run. destruct (TF.setattr_refusal name); cbn;
      (split_and!; [split; done|split; [done|by intros [_ ?]]|done]).
Qed.

(** X12.  What [add_variable_collection] registers.  For a list, tuple or
    set whose elements [vs] are all variables, and a name that the
    trackable object takes as an attribute: on the TensorFlow backend
    the attribute [name] of the saved object becomes the list [vs], in
    the order of iteration; on the JAX backend, for a list or a tuple,
    it becomes a list of as many new [tf.Variable] objects, pairwise
    distinct.  An empty collection is accepted.  The endpoint names and
    signatures and all other attributes are as they were; an attribute
    that [name] held before, an endpoint function included, is
    replaced.  For a name that the object refuses, the call raises the
    exception of [setattr] and the archive is as it was. *)
Theorem add_variable_collection_registers backend name variables
    (self : archive) vs :
  container variables ≠ PyOther →
  elements variables = EVariable <$> vs →
  (backend = jax → container variables ≠ PySet) →
  match TF.setattr_refusal name with
  | None =>
      ∃ l self',
        add_variable_collection backend name variables self
        = (Registered, self')
        ∧ getattr name self' = (Return (AVariables l), self')
        ∧ (backend ≠ jax → l = vs ∧ next_serial self' = next_serial self)
        ∧ (backend = jax →
           l = mirrors (next_serial self) vs
           ∧ next_serial self' = advance (next_serial self) vs
           ∧ NoDup l)
        ∧ length l = length vs
        ∧ _endpoint_names self' = _endpoint_names self
        ∧ _endpoint_signatures self' = _endpoint_signatures self
        ∧ _tracked self' = _tracked self
        ∧ ∀ other, other ≠ name →
            _tf_trackable self' !! other = _tf_trackable self !! other
  | Some why =>
      add_variable_collection backend name variables self
      = (SetattrRaised (refusal_error name why), self)
  end.
Proof.
  intros Hc Hel Hset. unfold add_variable_collection.
  assert (is_list_tuple_set (container variables) = true) as ->
    by (by destruct (container variables)).
  rewrite Hel. destruct (variables_of_fmap vs) as [-> ->]. cbn [negb].
  case_decide as Hb.
  - rewrite comprehension_tf_Variable, set_collection_run.
    assert (∀ X : Outcome * archive,
              match container variables with
              | PySet => (ConversionFailed, self)
              | _ => X
              end = X) as -> by (specialize (Hset Hb);
                                 by destruct (container variables)).
    destruct (TF.setattr_refusal name) as [why|]; [done|].
    eexists _, _. split; [done|]. unfold getattr. cbn.
    rewrite lookup_insert_eq. split_and!; try done.
    + intros _. split_and!; [done..|]. apply NoDup_mirrors.
    + apply SessionFacts.length_mirrors.
    + intros other Hne. by rewrite lookup_insert_ne.
  - rewrite set_collection_run.
    destruct (TF.setattr_refusal name) as [why|]; [done|].
    eexists _, _. split; [done|]. unfold getattr. cbn.
    rewrite lookup_insert_eq. split_and!; try done.
    intros other Hne. by rewrite lookup_insert_ne.
Qed.

End facts.
End CollectionFacts.

(** ** [_get_save_spec] *)

Module SaveSpecFacts.
Import Dict DictFacts SaveSpec.

(** *** [rstrip] *)

Lemma rstrip_all_in chars r : all_in chars r → rstrip chars r = "".
Proof.
  induction r as [|c r IH]; [done|]. intros [Hc Hr]. cbn.
  rewrite (IH Hr). by rewrite decide_True.
Qed.

Lemma rstrip_app chars p r :
  all_in chars r → rstrip chars (p +:+ r) = rstrip chars p.
Proof.
  intros Hr. induction p as [|c p IH].
  - by apply rstrip_all_in.
  - change (String c p +:+ r) with (String c (p +:+ r)).
    cbn [rstrip]. by rewrite IH.
Qed.

Lemma last_char_cons c s :
  s ≠ "" → last_char (String c s) = last_char s.
Proof. by destruct s. Qed.

Lemma rstrip_clean_id chars p : clean_end chars p → rstrip chars p = p.
Proof.
  induction p as [|c p IH]; [done|]. intros Hp. cbn.
  destruct p as [|d p].
  - cbn. rewrite decide_False; [done|]. by apply Hp.
  - rewrite IH; [done|]. intros x Hx. apply Hp. by rewrite last_char_cons.
Qed.

Lemma rstrip_clean chars s : clean_end chars (rstrip chars s).
Proof.
  induction s as [|c s IH]; [done|]. cbn.
  destruct (rstrip chars s) as [|d r] eqn:Hr.
  - case_decide; [done|]. by intros x [= <-].
  - intros x Hx. apply IH. by rewrite last_char_cons in Hx.
Qed.

Lemma rstrip_split chars s :
  ∃ removed, s = rstrip chars s +:+ removed ∧ all_in chars removed.
Proof.
  induction s as [|c s (removed & Hs & Hr)]; [by exists ""|]. cbn.
  destruct (rstrip chars s) as [|d r] eqn:Heq.
  - change (s = removed) in Hs. case_decide.
    + exists (String c removed). by subst.
    + exists removed. split; [|done].
      change (String c s = String c removed). by f_equal.
  - exists removed. split; [|done].
    change (String c s = String c (String d r +:+ removed)). by f_equal.
Qed.

(** X13.  [key.rstrip("_shape")], by which [_get_save_spec] names the
    entries of its result, does not remove the suffix ["_shape"]: it
    removes every trailing character that is one of [_], [s], [h], [a],
    [p], [e].  Its value is the one prefix of the key that does not end
    in such a character and is followed by such characters only.  So a
    key [base ++ "_shape"] is turned into [base] exactly when [base]
    does not itself end in one of the six characters. *)
Theorem rstrip_shape_suffix (key : string) :
  (∃ removed,
     key = rstrip shape_chars key +:+ removed ∧ all_in shape_chars removed)
  ∧ clean_end shape_chars (rstrip shape_chars key)
  ∧ (∀ p r, key = p +:+ r → all_in shape_chars r →
            clean_end shape_chars p → rstrip shape_chars key = p)
  ∧ (∀ base, key = base +:+ "_shape" →
       rstrip shape_chars key = base ↔ clean_end shape_chars base).
Proof.
  split_and!.
  - apply rstrip_split.
  - apply rstrip_clean.
  - intros p r -> Hr Hp. by rewrite rstrip_app, rstrip_clean_id.
  - intros base ->. split.
    + intros <-. apply rstrip_clean.
    + intros Hbase. rewrite rstrip_app; [by apply rstrip_clean_id|].
      unfold shape_chars. cbn. set_solver.
Qed.

(** The loop of [_get_save_spec], from the dict [specs]. *)
Lemma specs_loop_entries (model : Model) d : ∀ specs,
  let items :=
    foldl (λ specs '(key, value),
             let key := rstrip shape_chars key in
             setitem specs key (TensorSpec value (input_dtype model)))
          specs d in
  (∀ k, getitem items k
        = match getitem (reverse (spec_entry model <$> d)) k with
          | Some spec => Some spec
          | None => getitem specs k
          end)
  ∧ (NoDup specs.*1 → NoDup items.*1)
  ∧ (∀ k, k ∈ items.*1
          ↔ k ∈ specs.*1 ∨ k ∈ (spec_entry model <$> d).*1)
  ∧ (length items ≤ length specs + length d)%nat
  ∧ (NoDup (specs.*1 ++ (spec_entry model <$> d).*1) →
     items = specs ++ (spec_entry model <$> d)).
Proof.
  induction d as [|[key value] d IH]; intros specs; cbn zeta.
  { cbn. split_and!; [done|done|set_solver|lia|].
    intros _. by rewrite app_nil_r. }
  cbn [foldl]. cbn zeta.
  destruct (IH (setitem specs (rstrip shape_chars key)
                  (TensorSpec value (input_dtype model))))
    as (IHget & IHnd & IHin & IHlen & IHeq).
  cbn zeta in *. split_and!.
  - intros k. rewrite IHget, fmap_cons, reverse_cons.
    assert (∀ (l : list (string * Spec)) e,
              getitem (l ++ [e]) k
              = match getitem l k with
                | Some s => Some s
                | None => if decide (e.1 = k) then Some e.2 else None
                end) as Happ.
    { intros l [k' v']. induction l as [|[k1 v1] l IHl]; cbn; [done|].
      destruct (decide (k1 = k)); [done|exact IHl]. }
    rewrite Happ, getitem_setitem. cbn [spec_entry fst snd].
    destruct (getitem (reverse (spec_entry model <$> d)) k); [done|].
    by case_decide.
  - intros Hnd. apply IHnd. rewrite setitem_keys.
    case_decide; [done|]. apply NoDup_app.
    split_and!; [done| |apply NoDup_singleton].
    by intros x Hx ->%list_elem_of_singleton.
  - intros k. rewrite IHin, setitem_keys, fmap_cons. cbn [spec_entry fst].
    case_decide; set_solver.
  - pose proof (setitem_length specs (rstrip shape_chars key)
                  (TensorSpec value (input_dtype model))) as Hset.
    rewrite length_cons. lia.
  - intros Hnd. rewrite !fmap_cons in Hnd |- *.
    cbn [spec_entry fst snd] in Hnd |- *.
    assert (rstrip shape_chars key ∉ specs.*1) as Hnew.
    { apply NoDup_app in Hnd as (_ & Hdisj & _). intros Hin.
      apply (Hdisj _ Hin). by left. }
    rewrite IHeq.
    + by rewrite setitem_new, <-(assoc_L (++)).
    + rewrite setitem_new, fmap_app, <-(assoc_L (++)) by done. exact Hnd.
Qed.

(** X14.  The result of [_get_save_spec].  It is [None] exactly when the
    model has no [_build_shapes_dict] or an empty one.  For a dict with
    a single entry it is one [TensorSpec] with the shape of that entry
    and the model's input dtype, whatever the key.  For a dict with
    more entries it is a dict of such specs under the stripped keys, in
    the order in which the stripped keys first appear: when two keys are
    stripped to the same name their entries collapse into one, which
    holds the shape of the later key; when the stripped keys are
    pairwise distinct there is one entry per shape, in the order of the
    shapes dict. *)
Theorem get_save_spec_result (model : Model) :
  (_get_save_spec model = None
   ↔ _build_shapes_dict model = None ∨ _build_shapes_dict model = Some [])
  ∧ (∀ key shape, _build_shapes_dict model = Some [(key, shape)] →
       _get_save_spec model = Some (TensorSpec shape (input_dtype model)))
  ∧ (∀ d, _build_shapes_dict model = Some d → (2 ≤ length d)%nat →
       ∃ items,
         _get_save_spec model = Some (DictSpec items)
         ∧ NoDup items.*1
         ∧ (∀ k, k ∈ items.*1 ↔ k ∈ (spec_entry model <$> d).*1)
         ∧ (∀ k, getitem items k
                 = getitem (reverse (spec_entry model <$> d)) k)
         ∧ (1 ≤ length items ≤ length d)%nat
         ∧ (NoDup (spec_entry model <$> d).*1 →
            items = spec_entry model <$> d)).
Proof.
  unfold _get_save_spec. split_and!.
  - destruct (_build_shapes_dict model) as [[|[k v] [|e d]]|];
      split; try done; try (by left); try (by right); by intros [?|?].
  - by intros key shape ->.
  - intros d -> Hlen. destruct d as [|[k v] [|e d]]; cbn in Hlen; try lia.
    eexists. split; [done|].
    destruct (specs_loop_entries model ((k, v) :: e :: d) [])
      as (Hget & Hnd & Hin & Hle & Heq).
    cbn zeta in *. split_and!.
    + apply Hnd. apply NoDup_nil_2.
    + intros x. rewrite Hin. set_solver.
    + intros x. rewrite Hget.
      by destruct (getitem (reverse (spec_entry model <$> (k, v) :: e :: d)) x).
    + assert (rstrip shape_chars k
              ∈ (foldl (λ specs '(key, value),
                          let key := rstrip shape_chars key in
                          setitem specs key
                            (TensorSpec value (input_dtype model)))
                       [] ((k, v) :: e :: d)).*1) as Hk.
      { apply Hin. right. rewrite fmap_cons. by left. }
      destruct (foldl _ [] ((k, v) :: e :: d)); cbn; [|lia].
      by apply elem_of_nil in Hk.
    + exact Hle.
    + intros Hd. by apply Heq.
Qed.

Lemma get_save_spec_dict (model : Model) d :
  _build_shapes_dict model = Some d →
  (2 ≤ length d)%nat →
  NoDup (spec_entry model <$> d).*1 →
  _get_save_spec model = Some (DictSpec (spec_entry model <$> d)).
Proof.
  intros Hd Hlen Hnd. unfold _get_save_spec. rewrite Hd.
  destruct (specs_loop_entries model d []) as (_ & _ & _ & _ & Heq).
  cbn zeta in Heq. specialize (Heq Hnd).
  destruct d as [|[k v] [|e d]]; cbn in Hlen; try lia.
  by rewrite Heq.
Qed.

(** X15.  The intended reading of the keys holds under a condition: when
    every key of a shapes dict with two entries or more is
    [base ++ "_shape"] for a [base] that does not end in [_], [s], [h],
    [a], [p] or [e], and the bases are pairwise distinct,
    [_get_save_spec] returns the dict that has one [TensorSpec] per
    entry under its [base], in the order of the shapes dict. *)
Theorem get_save_spec_suffix (model : Model)
    (bases : list (string * list (option N))) :
  (2 ≤ length bases)%nat →
  NoDup bases.*1 →
  Forall (λ e, clean_end shape_chars e.1) bases →
  _build_shapes_dict model
  = Some ((λ e, (e.1 +:+ "_shape", e.2)) <$> bases) →
  _get_save_spec model
  = Some (DictSpec
            ((λ e, (e.1, TensorSpec e.2 (input_dtype model))) <$> bases)).
Proof.
  intros Hlen Hnd Hclean Hd.
  assert (spec_entry model <$> ((λ e, (e.1 +:+ "_shape", e.2)) <$> bases)
          = (λ e, (e.1, TensorSpec e.2 (input_dtype model))) <$> bases)
    as Hentries.
  { rewrite <-list_fmap_compose. apply Forall_fmap_ext_1.
    eapply Forall_impl; [exact Hclean|]. intros [base shape] Hb.
    unfold spec_entry. cbn. f_equal.
    rewrite rstrip_app; [by apply rstrip_clean_id|].
    unfold shape_chars. cbn. set_solver. }
  rewrite <-Hentries. apply get_save_spec_dict; [done|by rewrite length_fmap|].
  by rewrite Hentries, <-list_fmap_compose.
Qed.

End SaveSpecFacts.

(** ** [export_model] *)

Module ExportFacts.
Import Dict ExportArchive Session SaveSpec ExportModel.
Import ArchiveFacts CollectorFacts WriteFacts SessionFacts WriteMore.
Section facts.
Context {Fn : Type} `{!TF.TFRuntime Fn}.
Notation archive := (ExportArchive.t (Fn:=Fn)).
Notation lookups ds := (filter (λ d, Resource.is_lookup d = true) ds).

(** The archive of [export_model] once the model is tracked. *)
Lemma track_new_archive backend r (self : archive) :
  __init__ backend = Return self →
  capable backend r = true →
  Resource.is_layer r = true →
  Resource.built r = true →
  ∃ self',
    track backend r self = (Return (), self')
    ∧ _endpoint_names self' = []
    ∧ _endpoint_signatures self' = ∅
    ∧ (backend = tensorflow →
       _tracked self' = Some [r]
       ∧ holds_lists self' (Resource.variables r)
           (Resource.trainable_variables r)
           (Resource.non_trainable_variables r))
    ∧ (backend = jax →
       _backend_variables self'
       = Resource.trainable_variables r
         ++ Resource.non_trainable_variables r).
Proof.
  unfold __init__. case_decide as Hb; [done|].
  intros [= <-] Hcap Hlayer Hbuilt.
  rewrite track_unfold, Hcap, Hlayer, Hbuilt. cbn [negb].
  destruct (decide (backend = jax)) as [->|Hjax].
  - match goal with
    | |- context [track_variables jax r ?s] =>
        destruct (track_variables_jax r s [] [] []) as
          (self' & Hrun & _ & _ & Hbt & Hbn & Hbv & Hn & Hs);
          [by split_and!|]
    end.
    exists self'. split; [exact Hrun|]. split; [by rewrite Hn|].
    split; [by rewrite Hs|]. split; [done|].
    intros _. by rewrite Hbv, Hbt, Hbn.
  - rewrite (track_variables_native backend r _ [] [] []);
      [|done|by split_and!].
    eexists. split; [done|]. split_and!; [done..| |done].
    intros _. split; [done|]. unfold holds_lists. cbn.
    split_and!; by simplify_map_eq.
Qed.

(** [write_out] on an archive with the one endpoint ["serve"], registered
    with a signature. *)
Lemma write_out_serve backend filepath options (self : archive) d :
  _endpoint_names self = ["serve"] →
  is_Some (_endpoint_signatures self !! "serve") →
  _tf_trackable self !! "serve" = Some (AFunction d) →
  endpoint_functions self = Return [d]
  ∧ ((backend = tensorflow → Collector.answers d = true) →
     ∃ self',
       write_out backend filepath options self
       = (Return {| saved_object := _tf_trackable self';
                    saved_filepath := filepath;
                    saved_options := options;
                    saved_signatures :=
                      [("serve", AFunction d);
                       ("serving_default", AFunction d)] |},
          self')
       ∧ track_step backend self = (Return (), self')
       ∧ _tf_trackable self' !! "serve" = Some (AFunction d))
  ∧ (backend = tensorflow → Collector.answers d = false →
     ∃ e, write_out backend filepath options self = (Raise e, self)
          ∧ Collector.collector_error e).
Proof.
  intros Hn Hs Ha.
  assert (∀ s : archive,
            _endpoint_signatures s = _endpoint_signatures self →
            _tf_trackable s !! "serve" = Some (AFunction d) →
            _get_concrete_fn "serve" s = (Return (AFunction d), s)) as Hget.
  { intros s Hs' Ha'. unfold _get_concrete_fn. rewrite run_gets, Hs'.
    rewrite decide_True by done. unfold getattr. by rewrite Ha'. }
  assert (endpoint_functions self = Return [d]) as Hfns.
  { unfold endpoint_functions. rewrite run_gets, Hn. cbn [comprehension].
    rewrite !run_bind, Hget by done. by rewrite run_ret. }
  split; [exact Hfns|]. split.
  - intros Hans.
    assert (∃ self', track_step backend self = (Return (), self')
                     ∧ _endpoint_names self' = ["serve"]
                     ∧ _endpoint_signatures self' = _endpoint_signatures self
                     ∧ _tf_trackable self' !! "serve" = Some (AFunction d))
      as (self' & Hstep & Hn' & Hs' & Ha').
    { unfold track_step. case_decide as Hb.
      - rewrite filter_and_track_resources_run, Hfns.
        rewrite collector_returns by (cbn; by rewrite (Hans Hb)).
        eexists. split; [done|]. split_and!; [done..|]. cbn.
        by rewrite !lookup_insert_ne.
      - by exists self. }
    exists self'. split; [|done].
    rewrite write_out_run by (by rewrite Hn). rewrite Hstep, Hn'.
    cbn [fill_signatures]. rewrite run_bind, Hget by done. cbn.
    rewrite decide_True, Hn'.
    + pose proof (Hget self' Hs' Ha') as Hg.
      unfold _get_concrete_fn in Hg |- *. rewrite Hg. done.
    + rewrite Hn'. by intros [=]%list_elem_of_singleton.
  - intros Hb Hans.
    rewrite write_out_run by (by rewrite Hn). unfold track_step.
    rewrite decide_True by done.
    rewrite filter_and_track_resources_run, Hfns.
    destruct (collector_raises [d]) as (e & -> & He);
      [cbn; by rewrite Hans|].
    by exists e.
Qed.

(** X16.  [export_model] on a built model, on either backend, whose
    signature is not empty and is accepted by [tf.function] (or by the
    JAX path), which makes a function object of [model.__call__] without
    running it, and when the trackable object takes the name ["serve"].
    On the TensorFlow backend [write_out] then collects the variables of
    that function, for which it is traced: when the trace fails (as for
    a model that cannot be called on its save spec), or when the
    collector has no answer for another reason, [export_model] raises
    the exception of the collector.  When the collector has an answer,
    and on the JAX backend, the artifact is handed to
    [tf.saved_model.save] with [filepath] and no options, and its
    signature map has the two keys ["serve"] and
    ["serving_default"], in this order, both bound to the one function
    object; the saved object holds this function as its attribute
    ["serve"].  On the TensorFlow backend it also holds the three
    variable sequences of the model, the variables that the endpoint
    uses as [_all_variables], and the lookup layers below the model as
    [_misc_assets]. *)
Theorem export_model_serves backend (model : Model (Fn:=Fn)) filepath
    sig decorated_fn :
  backend = tensorflow ∨ backend = jax →
  capable backend (resource model) = true →
  Resource.is_layer (resource model) = true →
  Resource.built (resource model) = true →
  input_signature_of model = inr sig →
  sig ≠ [] →
  (if decide (backend = tensorflow)
   then TF.tf_function (__call__ model) sig
   else TF.jax2tf_function
          (Resource.trainable_variables (resource model)
           ++ Resource.non_trainable_variables (resource model))
          (__call__ model) sig) = Some decorated_fn →
  TF.setattr_refusal "serve" = None →
  (backend = tensorflow → Collector.answers decorated_fn = false →
   ∃ e, export_model backend model filepath = inl (ArchiveError e)
        ∧ Collector.collector_error e)
  ∧ ((backend = tensorflow → Collector.answers decorated_fn = true) →
     ∃ artifact,
       export_model backend model filepath = inr artifact
       ∧ saved_filepath artifact = filepath
       ∧ saved_options artifact = None
       ∧ saved_signatures artifact
         = [("serve", AFunction decorated_fn);
            ("serving_default", AFunction decorated_fn)]
       ∧ saved_object artifact !! "serve" = Some (AFunction decorated_fn)
       ∧ (backend = tensorflow →
          let r := Collect._list_variables_used_by_fns [decorated_fn] in
          saved_object artifact !! "variables"
          = Some (AVariables (Resource.variables (resource model)))
          ∧ saved_object artifact !! "trainable_variables"
            = Some (AVariables
                      (Resource.trainable_variables (resource model)))
          ∧ saved_object artifact !! "non_trainable_variables"
            = Some (AVariables
                      (Resource.non_trainable_variables (resource model)))
          ∧ saved_object artifact !! "_all_variables"
            = Some (AVariables (r.1 ++ r.2))
          ∧ saved_object artifact !! "_misc_assets"
            = Some (AAssets
                      (lookups (Resource.descendants (resource model)))))).
Proof.
  intros Hb Hcap Hlayer Hbuilt Hsig Hne Hdec Hserve. unfold export_model.
  destruct (__init__ backend) as [self0|e] eqn:Hinit.
  2:{ unfold __init__ in Hinit. rewrite decide_False in Hinit; [done|].
      intros [? ?]. by destruct Hb. }
  destruct (track_new_archive backend _ self0 Hinit Hcap Hlayer Hbuilt)
    as (self1 & -> & Hn1 & Hs1 & Htf & Hjax).
  rewrite Hsig.
  assert (truthy (Some sig) = true) as Htruthy by (by destruct sig).
  rewrite add_endpoint_truthy;
    [|rewrite Hn1; by intros ?%elem_of_nil|done].
  assert (decorate backend self1 (__call__ model) sig = Some decorated_fn)
    as ->.
  { unfold decorate. case_decide as Hb'; [exact Hdec|].
    destruct Hb as [?|Hb]; [done|]. by rewrite (Hjax Hb). }
  rewrite Hserve.
  match goal with
  | |- context [write_out backend filepath None ?s] =>
      destruct (write_out_serve backend filepath None s decorated_fn)
        as (Hfns & Hreturns & Hraises)
  end.
  { cbn. by rewrite Hn1. }
  { cbn. rewrite lookup_insert_eq. by eexists. }
  { cbn. by rewrite lookup_insert_eq. }
  split.
  { intros Htfb Hans. destruct (Hraises Htfb Hans) as (e & -> & He).
    by exists e. }
  intros Hans. destruct (Hreturns Hans) as (self3 & -> & Hstep & Ha).
  eexists. split; [done|]. cbn [saved_filepath saved_options
    saved_signatures saved_object]. split_and!; [done..|].
  intros ->. destruct (Htf eq_refl) as (Htr & Hv & Ht & Hnt).
  revert Hstep. unfold track_step. rewrite decide_True by done.
  rewrite filter_and_track_resources_run, Hfns.
  rewrite collector_returns by (cbn; by rewrite Hans).
  intros [= <-]. cbn [_tf_trackable set_tf_trackable set_endpoint_names].
  unfold lookup_assets.
  cbn [_tracked set_tf_trackable set_endpoint_names set_endpoint_signatures].
  rewrite Htr.
  split_and!; repeat (rewrite lookup_insert_ne by done);
    [exact Hv|exact Ht|exact Hnt|by rewrite lookup_insert_eq|].
  rewrite lookup_insert_eq. cbn. by rewrite app_nil_r.
Qed.

(** X17.  The exceptions of [export_model], in the order of its steps.
    On a backend other than TensorFlow and JAX it raises
    unsupported-runtime.  Otherwise a model that the backend cannot track
    raises invalid-resource-type and an unbuilt model raises not-built,
    both before the model's signature is looked at; a built model that
    is neither functional nor sequential raises the never-called error
    when it has no save spec (no [_build_shapes_dict], or an empty one)
    or when its [_called] flag is not set.  A functional or sequential
    model never raises the never-called error. *)
Theorem export_model_errors backend (model : Model (Fn:=Fn)) filepath :
  (backend ≠ tensorflow → backend ≠ jax →
   export_model backend model filepath
   = inl (ArchiveError UnsupportedRuntime))
  ∧ (backend = tensorflow ∨ backend = jax →
     (capable backend (resource model) = false →
      export_model backend model filepath
      = inl (ArchiveError InvalidResourceType))
     ∧ (capable backend (resource model) = true →
        Resource.is_layer (resource model) = true →
        Resource.built (resource model) = false →
        export_model backend model filepath
        = inl (ArchiveError NotBuilt))
     ∧ (capable backend (resource model) = true →
        Resource.is_layer (resource model) = true →
        Resource.built (resource model) = true →
        is_functional_or_sequential model = false →
        _build_shapes_dict (shapes model) = None
        ∨ _build_shapes_dict (shapes model) = Some []
        ∨ _called model = false →
        export_model backend model filepath = inl NeverCalled))
  ∧ (is_functional_or_sequential model = true →
     export_model backend model filepath ≠ inl NeverCalled).
Proof.
  split_and!.
  - intros Htf Hjax. unfold export_model, __init__.
    by rewrite decide_True.
  - intros Hb.
    assert (∃ self0 : archive, __init__ backend = Return self0)
      as [self0 Hinit].
    { unfold __init__. rewrite decide_False; [by eexists|].
      intros [? ?]. by destruct Hb. }
    unfold export_model. rewrite Hinit. split_and!.
    + intros Hcap. by rewrite track_unfold, Hcap.
    + intros Hcap Hlayer Hbuilt.
      by rewrite track_unfold, Hcap, Hlayer, Hbuilt.
    + intros Hcap Hlayer Hbuilt Hfun Hnever.
      destruct (track_new_archive backend _ self0 Hinit Hcap Hlayer Hbuilt)
        as (self1 & -> & _).
      unfold input_signature_of. rewrite Hfun.
      destruct Hnever as [Hd|[Hd|Hc]].
      * unfold _get_save_spec. by rewrite Hd.
      * unfold _get_save_spec. by rewrite Hd.
      * rewrite Hc. cbn [negb]. by rewrite orb_true_r.
  - intros Hfun. unfold export_model.
    destruct (__init__ backend) as [self0|]; [|done].
    destruct (track backend (resource model) self0) as [[[]|?] ?]; [|done].
    unfold input_signature_of. rewrite Hfun.
    destruct (add_endpoint _ _ _ _ _) as [[[]|?] ?]; [|done].
    by destruct (write_out _ _ _ _) as [[?|?] ?].
Qed.

End facts.
End ExportFacts.

(** ** Reloaded layers *)

Module LayerMore.
Import Collect CollectFacts CollectMore TFSMLayer LayerFacts.
Import Dict DictFacts SaveSpec SaveSpecFacts LayerConfig.
Section facts.
Context {Fn : Type} `{!TF.TFRuntime Fn}.
Context {Inputs Kwargs : Type}.
Variable saved_model_load : string → option (ReloadedObj (Fn:=Fn)).
Variable var_trainable : var → bool.

Notation layer := (TFSMLayer.t (Fn:=Fn)).
Notation init := (__init__ tensorflow saved_model_load var_trainable).

(** X18.  An empty [call_training_endpoint] is no training endpoint.
    [__init__] with [call_training_endpoint=""] raises what it raises
    with [call_training_endpoint=None], and when it returns, the layer
    has the same call function and the same weights and no training
    function, and [call] invokes the call function whether [training]
    is set or not; only the stored [call_training_endpoint] differs. *)
Theorem init_empty_training_endpoint filepath ce trainable name dtype :
  match init filepath ce None trainable name dtype with
  | Raise e => init filepath ce (Some "") trainable name dtype = Raise e
  | Return self =>
      ∃ self' : layer,
        init filepath ce (Some "") trainable name dtype = Return self'
        ∧ call_training_endpoint self' = Some ""
        ∧ call_training_endpoint_fn self' = None
        ∧ call_endpoint_fn self' = call_endpoint_fn self
        ∧ _trainable_variables self' = _trainable_variables self
        ∧ _non_trainable_variables self' = _non_trainable_variables self
        ∧ ∀ (inputs : Inputs) training (kwargs : Kwargs),
            call self' inputs training kwargs
            = Return (Invoke (call_endpoint_fn self) inputs kwargs)
  end.
Proof.
  destruct (init filepath ce None trainable name dtype) as [self|e] eqn:H1.
  - destruct (init_returns _ _ _ _ _ _ _ _ _ H1)
      as (obj & f & Hload & Hce & _ & _ & Hcte & Hf & _ & Hans & Hw).
    assert (all_fns self = [f]) as Hfns.
    { unfold all_fns. by rewrite Hcte, Hf. }
    rewrite Hfns in Hans.
    pose proof (init_outcome saved_model_load var_trainable filepath ce
                  (Some "") trainable name dtype obj f None Hload Hce
                  eq_refl) as Hout.
    cbv zeta in Hout. cbn [from_option] in Hout. rewrite Hans in Hout.
    destruct Hout as (self' & H2 & _).
    exists self'. split; [exact H2|].
    destruct (init_returns _ _ _ _ _ _ _ _ _ H2)
      as (obj' & f' & Hload' & Hce' & _ & _ & Hcte' & Hf' & Hfn' & _ & Hw').
    cbn in Hfn'.
    assert (f' = f) as -> by congruence.
    assert (all_fns self' = all_fns self) as Hall.
    { unfold all_fns. by rewrite Hcte, Hcte', Hf, Hf'. }
    rewrite Hall in Hw'. cbn zeta in Hw, Hw'.
    destruct Hw as [-> ->], Hw' as [-> ->].
    split_and!; [done|done|congruence|done|done|].
    intros inputs training kwargs. unfold call. rewrite Hcte'. cbn.
    rewrite Hf', Hf. by destruct training.
  - unfold __init__ in H1 |- *. rewrite decide_False in H1 |- * by (by intros []).
    destruct (saved_model_load filepath) as [obj|]; [|done].
    cbv zeta in H1 |- *. cbn [truthy_str app] in H1 |- *.
    destruct (attributes obj !! ce) as [f|];
      [|destruct (signatures_lookup obj ce) as [f|]; [|done]];
      by destruct (Collector._list_variables_used_by_fns [f])
        as [[tvs ntvs]|e'].
Qed.

(** X19.  Naming the call endpoint as training endpoint too adds no
    weight: a layer reloaded with [call_training_endpoint] equal to its
    [call_endpoint] is built whenever the layer without training
    endpoint is, runs the same function in both modes, and owns the
    same trainable and non-trainable weights in the same order. *)
Theorem init_same_endpoint_twice filepath ce trainable name dtype
    (self : layer) :
  ce ≠ "" →
  init filepath ce None trainable name dtype = Return self →
  ∃ self' : layer,
    init filepath ce (Some ce) trainable name dtype = Return self'
    ∧ call_endpoint_fn self' = call_endpoint_fn self
    ∧ call_training_endpoint_fn self' = Some (call_endpoint_fn self)
    ∧ _trainable_variables self' = _trainable_variables self
    ∧ _non_trainable_variables self' = _non_trainable_variables self.
Proof.
  intros Hne H1.
  assert (truthy_str (Some ce) = true) as Htr by (by destruct ce).
  destruct (init_returns _ _ _ _ _ _ _ _ _ H1)
    as (obj & f & Hload & Hce & _ & _ & Hcte & Hf & _ & Hans & Hw).
  assert (all_fns self = [f]) as Hall.
  { unfold all_fns. by rewrite Hcte, Hf. }
  rewrite Hall in Hans. cbn in Hans. rewrite andb_true_r in Hans.
  pose proof (init_outcome saved_model_load var_trainable filepath ce
                (Some ce) trainable name dtype obj f (Some f) Hload Hce)
    as Hout.
  rewrite Htr in Hout. cbv zeta in Hout. cbn in Hout.
  rewrite Hans in Hout. cbn in Hout.
  destruct Hout as (self' & H2 & _); [by split; [|eexists]|].
  exists self'. split; [exact H2|].
  destruct (init_returns _ _ _ _ _ _ _ _ _ H2)
    as (obj' & f' & Hload' & Hce' & _ & _ & Hcte' & Hf' & Hfn' & _ & Hw').
  rewrite Htr in Hfn'. destruct Hfn' as (g & Hg & Hfn'). cbn in Hg.
  assert (obj' = obj) as -> by congruence.
  assert (f' = f) as -> by congruence.
  assert (g = f) as -> by congruence.
  assert (all_fns self' = [f] ++ [f]) as Hall'.
  { unfold all_fns. by rewrite Hcte', Htr, Hf', Hfn'. }
  rewrite Hall in Hw. rewrite Hall' in Hw'.
  rewrite list_variables_used_by_fns_absorb in Hw' by done.
  cbn zeta in Hw, Hw'. destruct Hw as [-> ->], Hw' as [-> ->].
  split_and!; congruence.
Qed.

(** X20.  [get_config] records the constructor's arguments.  For a layer
    built by [__init__], the config holds the file path, the call
    endpoint and the training endpoint that were handed to [__init__],
    under the keys ["filepath"], ["call_endpoint"] and
    ["call_training_endpoint"], also when the config of the base class
    has entries under these keys; every other entry of the base config
    is kept. *)
Theorem get_config_entries filepath ce cte trainable name dtype
    (self : layer) base_config :
  init filepath ce cte trainable name dtype = Return self →
  let config := get_config base_config self in
  getitem config "filepath" = Some (CString filepath)
  ∧ getitem config "call_endpoint" = Some (CString ce)
  ∧ getitem config "call_training_endpoint"
    = Some (from_option CString CNone cte)
  ∧ ∀ key, key ≠ "filepath" → key ≠ "call_endpoint" →
           key ≠ "call_training_endpoint" →
           getitem config key = getitem base_config key.
Proof.
  intros Hinit. cbn zeta.
  assert (TFSMLayer.filepath self = filepath) as Hfp.
  { revert Hinit. unfold __init__. rewrite decide_False by (by intros []).
    destruct (saved_model_load filepath) as [obj|]; [|done].
    destruct (match attributes obj !! ce with
              | Some fn => Return fn
              | None => _
              end); [|done].
    destruct (if truthy_str cte then _ else _); [|done].
    destruct (Collector._list_variables_used_by_fns _) as [[tvs ntvs]|];
      [|done].
    intros [= <-]. cbn.
    assert (∀ vs (s : layer),
              TFSMLayer.filepath
                (foldl (λ self v, _add_existing_weight var_trainable v self)
                   s vs)
              = TFSMLayer.filepath s) as Hfold.
    { induction vs as [|v vs IH]; intros s; [done|]. cbn. by rewrite IH. }
    by rewrite !Hfold. }
  destruct (init_returns _ _ _ _ _ _ _ _ _ Hinit)
    as (obj & f & _ & _ & _ & Hce & Hcte & _).
  unfold get_config, merge. cbn [foldl]. rewrite Hfp, Hce, Hcte.
  split_and!.
  - rewrite !getitem_setitem. by repeat case_decide.
  - rewrite !getitem_setitem. by repeat case_decide.
  - rewrite !getitem_setitem. by repeat case_decide.
  - intros key H1 H2 H3. rewrite !getitem_setitem.
    by rewrite !decide_False.
Qed.

End facts.
End LayerMore.

(** ** [_print_signature] *)

Module PrintingFacts.
Import Printing.
Section facts.
Context {Fn : Type} `{!TF.TFRuntime Fn}.
Variable pretty_printed_signature : Fn → string.

Lemma split_lines_nonempty s : split_lines s ≠ [].
Proof.
  destruct s as [|c s]; cbn; [done|].
  case_decide; [done|]. by destruct (split_lines s).
Qed.

Lemma split_lines_one_line s : one_line s → split_lines s = [s].
Proof.
  induction s as [|c s IH]; [done|]. intros [Hc Hs]. cbn.
  rewrite decide_False by done. by rewrite IH.
Qed.

Lemma split_lines_break first rest :
  one_line first →
  split_lines (first +:+ String newline rest) = first :: split_lines rest.
Proof.
  induction first as [|c first IH].
  - intros _. change ("" +:+ String newline rest) with (String newline rest).
    cbn [split_lines]. by rewrite decide_True.
  - intros [Hc Hs].
    change (String c first +:+ String newline rest)
      with (String c (first +:+ String newline rest)).
    cbn [split_lines]. rewrite decide_False by done. by rewrite IH.
Qed.

Lemma join_split_lines s : join_lines (split_lines s) = s.
Proof.
  induction s as [|c s IH]; [done|]. cbn [split_lines].
  pose proof (split_lines_nonempty s) as Hne. case_decide as Hc.
  - subst c. destruct (split_lines s) as [|l ls]; [done|].
    cbn [join_lines] in IH |- *. by rewrite IH.
  - destruct (split_lines s) as [|l ls]; [done|].
    destruct ls as [|l' ls]; cbn [join_lines] in IH |- *; by rewrite <-IH.
Qed.

Lemma join_lines_cons line lines :
  lines ≠ [] →
  join_lines (line :: lines) = line +:+ String newline (join_lines lines).
Proof. by destruct lines. Qed.

(** X21.  [_print_signature] replaces the first line of the
    pretty-printed signature of the first concrete function of [fn] by
    the header [* Endpoint 'name'] and keeps the other lines as they
    are: for a signature printed as [first], a line break and [rest],
    its value is the header, a line break and [rest]; for a signature
    printed on one line it is the header alone.  It raises an
    [IndexError] exactly when [fn] has no concrete function. *)
Theorem print_signature_first_line (fn : Fn) (name : string) :
  (_print_signature pretty_printed_signature fn name = Raise PyIndexError
   ↔ TF._list_all_concrete_functions fn = [])
  ∧ ∀ concrete_fn others,
      TF._list_all_concrete_functions fn = concrete_fn :: others →
      let pprinted := pretty_printed_signature concrete_fn in
      (one_line pprinted →
       _print_signature pretty_printed_signature fn name
       = Return (header name))
      ∧ (∀ first rest,
           pprinted = first +:+ String newline rest →
           one_line first →
           _print_signature pretty_printed_signature fn name
           = Return (header name +:+ String newline rest)).
Proof.
  unfold _print_signature. split.
  - by destruct (TF._list_all_concrete_functions fn).
  - intros concrete_fn others ->. cbn zeta. split.
    + intros Hone. by rewrite split_lines_one_line.
    + intros first rest -> Hfirst. rewrite split_lines_break by done.
      cbn [drop app]. rewrite drop_0.
      rewrite join_lines_cons by apply split_lines_nonempty.
      by rewrite join_split_lines.
Qed.

End facts.
End PrintingFacts.

(** ** The further properties on the scenarios *)

Module MoreExamples.
Import Collect Sample ExportArchive VariableCollection Session.
Import Scenario MoreScenarios.

(** *** The collector *)


(** *** Sequences of calls *)

Lemma registry_invariant_witness :
  __init__ tensorflow = Return fresh
  ∧ NoDup (_endpoint_names (run tensorflow session fresh))
  ∧ _endpoint_names (run tensorflow session fresh)
    = ["serve"; "call_training"]
  ∧ _endpoint_names (run tensorflow refusing_session fresh) = ["serve"]
  ∧ dom (_endpoint_signatures (run tensorflow refusing_session fresh))
    = {["_object_identifier"; "serve"]}
  ∧ (is_Some (_tf_trackable (run tensorflow refusing_session fresh)
               !! "serve")
     ∧ TF.setattr_refusal (Fn:=SampleFn) "serve" = None).
Proof.
  split; [reflexivity|]. split; [|split; [vm_compute; reflexivity|]].
  - exact (proj1 (SessionFacts.registry_invariant tensorflow session fresh
                    eq_refl)).
  - assert (_endpoint_names (run tensorflow refusing_session fresh)
            = ["serve"]) as Hnames by (vm_compute; reflexivity).
    split; [exact Hnames|]. split.
    + apply (bool_decide_unpack _). vm_compute. reflexivity.
    + destruct (SessionFacts.registry_invariant tensorflow refusing_session
                  fresh Examples.fresh_init) as (_ & _ & Hattr).
      apply Hattr. rewrite Hnames. apply list_elem_of_here.
Defined.

Lemma endpoint_name_stays_taken_witness :
  "serve" ∈ _endpoint_names served
  ∧ add_endpoint tensorflow "serve" traced None
      (run tensorflow session served)
    = (Raise (DuplicateEndpointName "serve"),
       run tensorflow session served).
Proof.
  assert ("serve" ∈ _endpoint_names served) as Hin.
  { apply list_elem_of_here. }
  split; [exact Hin|].
  exact (proj2 (SessionFacts.endpoint_name_stays_taken tensorflow "serve"
                  session traced None served Hin)).
Defined.

Lemma add_endpoint_then_get_concrete_fn_witness :
  add_endpoint tensorflow "serve" model_call (Some spec) fresh
  = (Return (),
     (add_endpoint tensorflow "serve" model_call (Some spec) fresh).2)
  ∧ _endpoint_names
      (add_endpoint tensorflow "serve" model_call (Some spec) fresh).2
    = [] ++ ["serve"].
Proof.
  assert (add_endpoint tensorflow "serve" model_call (Some spec) fresh
          = (Return (),
             (add_endpoint tensorflow "serve" model_call (Some spec)
                fresh).2)) as Hrun by reflexivity.
  split; [exact Hrun|].
  refine (proj1 (SessionFacts.add_endpoint_then_get_concrete_fn tensorflow
                   "serve" model_call (Some spec) fresh _ _ Hrun)).
  intros other [x Hx]. unfold fresh in Hx. cbn in Hx.
  by rewrite lookup_empty in Hx.
Defined.

Lemma track_all_native_witness :
  holds_lists fresh [] [] []
  ∧ holds_lists (run tensorflow (Track <$> resources) fresh)
      [a; b; c; a; b; c] [a; b; a; b] [c; c]
  ∧ default [] (_tracked (run tensorflow (Track <$> resources) fresh))
    = [dense; dense].
Proof.
  assert (holds_lists (Fn:=SampleFn) fresh [] [] []) as Hl by (by split_and!).
  split; [exact Hl|].
  destruct (SessionFacts.track_all_native resources fresh [] [] [] Hl)
    as (Hlists & Htracked & _).
  split; [exact Hlists|exact Htracked].
Defined.

Lemma track_all_jax_witness :
  aligned fresh
  ∧ aligned (run jax (Track <$> resources) fresh)
  ∧ _backend_trainable_variables (run jax (Track <$> resources) fresh)
    = [a; b; a; b].
Proof.
  assert (aligned (Fn:=SampleFn) fresh) as Hal.
  { exists [], []. by split_and!. }
  split; [exact Hal|].
  destruct (SessionFacts.track_all_jax resources fresh Hal)
    as (Hal' & Hbt & _).
  split; [exact Hal'|exact Hbt].
Defined.

(** *** [write_out] *)

Lemma served_names_not_reserved :
  tensorflow = tensorflow →
  ∀ name, name ∈ _endpoint_names served → ¬ reserved name.
Proof.
  intros _ name.
  assert (_endpoint_names served = ["serve"; "call_training"]) as ->
    by (vm_compute; reflexivity).
  intros [->|[->|[]%elem_of_nil]%elem_of_cons]%elem_of_cons [?|?];
    discriminate.
Qed.

Lemma served_written :
  write_out tensorflow "path/to/location" None served
  = (Return artifact, written).
Proof. vm_compute. reflexivity. Qed.

Lemma write_out_twice_witness :
  write_out tensorflow "path/to/location" None served
  = (Return artifact, written)
  ∧ write_out tensorflow "elsewhere" None written
    = (Return {| saved_object := saved_object artifact;
                 saved_filepath := "elsewhere";
                 saved_options := None;
                 saved_signatures := saved_signatures artifact |},
       written).
Proof.
  split; [exact served_written|].
  exact (WriteMore.write_out_twice tensorflow "path/to/location" None
           "elsewhere" None served written artifact
           served_names_not_reserved served_written).
Defined.

Lemma write_out_frame_witness :
  write_out tensorflow "path/to/location" None served
  = (Return artifact, written)
  ∧ _endpoint_names written = _endpoint_names served
  ∧ _tracked written = _tracked served.
Proof.
  split; [exact served_written|].
  destruct (WriteMore.write_out_frame tensorflow "path/to/location" None
              served written (Return artifact) served_written)
    as (Hn & _ & Ht & _).
  split; [exact Hn|exact Ht].
Defined.

Example filter_and_track_resources_served :
  endpoint_functions served
  = Return [TfFunction ([a; b], [a; b; c]) (Some spec) 0;
            ConcreteFunction ([a; b], [a; b; c])]
  ∧ _tf_trackable written !! "_all_variables"
    = Some (AVariables [a; b; c])
  ∧ lookup_assets served
    = [ {| Resource.descendant_id := 2;
           Resource.kind := Resource.StringLookup |} ].
Proof. split_and!; vm_compute; reflexivity. Qed.

(** A list that is set under the name of an endpoint is what the
    collector is handed for that endpoint, and its variables are
    collected. *)
Example filter_and_track_resources_shadowed :
  endpoint_functions shadowed
  = Return [ListWrapper [d; e]; ConcreteFunction ([a; b], [a; b; c])]
  ∧ ∃ self',
      _filter_and_track_resources shadowed = (Return (), self')
      ∧ _tf_trackable self' !! "_all_variables"
        = Some (AVariables [a; b; d; e; c]).
Proof. split; [|eexists; split]; vm_compute; reflexivity. Qed.

Lemma filter_and_track_resources_assigns_witness :
  (∃ self',
     _filter_and_track_resources served = (Return (), self')
     ∧ _tf_trackable self' !! "_misc_assets"
       = Some (AAssets (lookup_assets served)))
  ∧ (∃ self',
       _filter_and_track_resources shadowed = (Return (), self')
       ∧ _tf_trackable self' !! "_all_variables"
         = Some (AVariables [a; b; d; e; c])).
Proof.
  split.
  - pose proof (WriteMore.filter_and_track_resources_assigns served)
      as Hthm.
    destruct filter_and_track_resources_served as [Hfns _].
    rewrite Hfns in Hthm.
    change (forallb Collector.answers
              [TfFunction ([a; b], [a; b; c]) (Some spec) 0;
               ConcreteFunction ([a; b], [a; b; c])])
      with true in Hthm.
    destruct Hthm as [_ (self' & Hrun & _ & Hmisc & _)].
    exists self'. split; [exact Hrun|exact Hmisc].
  - pose proof (WriteMore.filter_and_track_resources_assigns shadowed)
      as Hthm.
    destruct filter_and_track_resources_shadowed as [Hfns _].
    rewrite Hfns in Hthm.
    change (forallb Collector.answers
              [ListWrapper [d; e]; ConcreteFunction ([a; b], [a; b; c])])
      with true in Hthm.
    destruct Hthm as [_ (self' & Hrun & Hall & _)].
    exists self'. split; [exact Hrun|]. rewrite Hall.
    vm_compute. reflexivity.
Defined.

(** *** [add_variable_collection] *)

Lemma add_variable_collection_rejections_witness :
  (add_variable_collection tensorflow "optimizer_variables" a_dict
     served).1 = ExpectedListTupleSet
  ∧ (add_variable_collection tensorflow "optimizer_variables"
       with_a_string served).1 = ExpectedVariables.
Proof.
  split.
  - apply (CollectionFacts.add_variable_collection_rejections tensorflow
             "optimizer_variables" a_dict served). reflexivity.
  - apply (CollectionFacts.add_variable_collection_rejections tensorflow
             "optimizer_variables" with_a_string served).
    split; [discriminate|]. apply list_elem_of_further, list_elem_of_here.
Defined.

Lemma add_variable_collection_registers_witness :
  container optimizer_variables ≠ PyOther
  ∧ elements optimizer_variables = EVariable <$> [d; e]
  ∧ (∃ self',
       add_variable_collection tensorflow "optimizer_variables"
         optimizer_variables served = (Registered, self')
       ∧ getattr "optimizer_variables" self'
         = (Return (AVariables [d; e]), self'))
  ∧ add_variable_collection tensorflow "__dict__" optimizer_variables
      served
    = (SetattrRaised PyTypeError, served).
Proof.
  split; [discriminate|]. split; [reflexivity|]. split.
  - pose proof (CollectionFacts.add_variable_collection_registers
                  tensorflow "optimizer_variables" optimizer_variables
                  served [d; e]) as Hthm.
    change (TF.setattr_refusal "optimizer_variables") with (@None TF.Refusal)
      in Hthm.
    destruct Hthm as (l & self' & Hrun & Hget & Htf & _);
      [discriminate|reflexivity|discriminate|].
    exists self'. split; [exact Hrun|].
    destruct Htf as [-> _]; [discriminate|]. exact Hget.
  - pose proof (CollectionFacts.add_variable_collection_registers
                  tensorflow "__dict__" optimizer_variables served [d; e])
      as Hthm.
    change (TF.setattr_refusal "__dict__") with (Some TF.WrongType) in Hthm.
    apply Hthm; [discriminate|reflexivity|discriminate].
Defined.

(** *** [_get_save_spec] *)

(** The keys of [plural_inputs] lose their last letter with the
    suffix. *)
Example rstrip_plural :
  SaveSpec._get_save_spec plural_inputs
  = Some (DictSpec [("imag", TensorSpec image "float32");
                    ("mask", TensorSpec mask "float32")]).
Proof. vm_compute. reflexivity. Qed.

Lemma clean_end_pixel : SaveSpec.clean_end SaveSpec.shape_chars "pixel".
Proof.
  intros c [= <-]. apply (bool_decide_unpack _). vm_compute. reflexivity.
Qed.

Lemma clean_end_mask : SaveSpec.clean_end SaveSpec.shape_chars "mask".
Proof.
  intros c [= <-]. apply (bool_decide_unpack _). vm_compute. reflexivity.
Qed.

Lemma rstrip_shape_suffix_witness :
  SaveSpec.rstrip SaveSpec.shape_chars "mask_shape" = "mask"
  ∧ SaveSpec.rstrip SaveSpec.shape_chars "masks_shape" ≠ "masks".
Proof.
  split.
  - apply (SaveSpecFacts.rstrip_shape_suffix "mask_shape"); [reflexivity|].
    exact clean_end_mask.
  - intros Heq.
    apply (SaveSpecFacts.rstrip_shape_suffix "masks_shape" ) in Heq;
      [|reflexivity].
    specialize (Heq _ eq_refl). apply Heq.
    apply (bool_decide_unpack _). vm_compute. reflexivity.
Defined.

Lemma get_save_spec_result_witness :
  SaveSpec._build_shapes_dict (ExportModel.shapes subclassed)
  = Some [("inputs_shape", mask)]
  ∧ SaveSpec._get_save_spec (ExportModel.shapes subclassed)
    = Some (TensorSpec mask "float32").
Proof.
  split; [reflexivity|].
  apply (SaveSpecFacts.get_save_spec_result (ExportModel.shapes subclassed))
    with (key := "inputs_shape").
  reflexivity.
Defined.

Lemma get_save_spec_suffix_witness :
  (2 ≤ length [("pixel", image); ("mask", mask)])%nat
  ∧ SaveSpec._get_save_spec two_inputs
    = Some (DictSpec [("pixel", TensorSpec image "float32");
                      ("mask", TensorSpec mask "float32")]).
Proof.
  split; [cbn; lia|].
  apply (SaveSpecFacts.get_save_spec_suffix two_inputs
           [("pixel", image); ("mask", mask)]).
  - cbn. lia.
  - apply (bool_decide_unpack _). vm_compute. reflexivity.
  - repeat apply Forall_cons_2; [exact clean_end_pixel|exact clean_end_mask|].
    apply Forall_nil_2.
  - reflexivity.
Defined.

(** *** [export_model] *)

Lemma export_model_serves_witness :
  ExportModel.input_signature_of subclassed
  = inr [TensorSpec mask "float32"]
  ∧ (∃ artifact,
       ExportModel.export_model tensorflow subclassed "path/to/location"
       = inr artifact
       ∧ (saved_signatures artifact).*1 = ["serve"; "serving_default"]
       ∧ saved_object artifact !! "_all_variables"
         = Some (AVariables [a; b; c]))
  ∧ ExportModel.export_model tensorflow failing "path/to/location"
    = inl (ExportModel.ArchiveError RuntimeFailure).
Proof.
  split; [reflexivity|]. split.
  - destruct (ExportFacts.export_model_serves tensorflow subclassed
                "path/to/location" [TensorSpec mask "float32"]
                (TfFunction ([a; b], [a; b; c])
                   (Some [TensorSpec mask "float32"]) 0))
      as [_ Hreturns];
      [by left|reflexivity..|discriminate|reflexivity|reflexivity|].
    destruct Hreturns as (artifact & Hrun & _ & _ & Hsigs & _ & Htf);
      [reflexivity|].
    exists artifact. split; [exact Hrun|]. split.
    + by rewrite Hsigs.
    + destruct (Htf eq_refl) as (_ & _ & _ & Hall & _). exact Hall.
  - destruct (ExportFacts.export_model_serves tensorflow failing
                "path/to/location" [TensorSpec mask "float32"]
                (TfRaising [TensorSpec mask "float32"]))
      as [Hraises _];
      [by left|reflexivity..|discriminate|reflexivity|reflexivity|].
    destruct (Hraises eq_refl eq_refl) as (e & Hrun & [He|[He|He]]);
      subst e.
    + exact Hrun.
    + exfalso. revert Hrun. vm_compute. discriminate.
    + exfalso. revert Hrun. vm_compute. discriminate.
Defined.

Lemma export_model_errors_witness :
  ExportModel.export_model torch subclassed "path/to/location"
  = inl (ExportModel.ArchiveError UnsupportedRuntime)
  ∧ ExportModel.export_model tensorflow functional "path/to/location"
    ≠ inl ExportModel.NeverCalled.
Proof.
  split.
  - apply (ExportFacts.export_model_errors torch subclassed
             "path/to/location"); discriminate.
  - apply (ExportFacts.export_model_errors tensorflow functional
             "path/to/location"). reflexivity.
Defined.

Example export_functional :
  ∃ artifact,
    ExportModel.export_model tensorflow functional "path/to/location"
    = inr artifact
    ∧ (saved_signatures artifact).*1 = ["serve"; "serving_default"].
Proof. eexists. split; vm_compute; reflexivity. Qed.

(** *** Reloaded layers *)

Lemma init_serve_layer : init "serve" None true None None = Return serve_layer.
Proof. vm_compute. reflexivity. Qed.

Lemma init_same_endpoint_twice_witness :
  init "serve" None true None None = Return serve_layer
  ∧ ∃ self',
      init "serve" (Some "serve") true None None = Return self'
      ∧ TFSMLayer._trainable_variables self' = [a; b]
      ∧ TFSMLayer._non_trainable_variables self' = [c].
Proof.
  split; [exact init_serve_layer|].
  destruct (LayerMore.init_same_endpoint_twice load flag "path/to/location"
              "serve" true None None serve_layer)
    as (self' & Hrun & _ & _ & Ht & Hn); [discriminate|exact init_serve_layer|].
  exists self'. split; [exact Hrun|]. split.
  - rewrite Ht. vm_compute. reflexivity.
  - rewrite Hn. vm_compute. reflexivity.
Defined.

Lemma get_config_entries_witness :
  init "serve" None true None None = Return serve_layer
  ∧ Dict.getitem
      (LayerConfig.get_config
         [("name", LayerConfig.CString "tfsm_layer");
          ("filepath", LayerConfig.CNone)] serve_layer) "filepath"
    = Some (LayerConfig.CString "path/to/location").
Proof.
  split; [exact init_serve_layer|].
  destruct (LayerMore.get_config_entries load flag "path/to/location"
              "serve" None true None None serve_layer
              [("name", LayerConfig.CString "tfsm_layer");
               ("filepath", LayerConfig.CNone)] init_serve_layer)
    as (Hfp & _).
  exact Hfp.
Defined.

Lemma init_empty_training_endpoint_witness :
  ∃ self',
    init "serve" (Some "") true None None = Return self'
    ∧ TFSMLayer.call_training_endpoint_fn self' = None
    ∧ TFSMLayer.call self' 7%nat true ()
      = Return (TFSMLayer.Invoke
                  (TFSMLayer.call_endpoint_fn serve_layer) 7%nat ()).
Proof.
  pose proof (LayerMore.init_empty_training_endpoint (Inputs:=nat)
                (Kwargs:=unit) load flag "path/to/location" "serve" true
                None None) as Hthm.
  pose proof init_serve_layer as Hserve.
  unfold init in Hserve |- *. rewrite Hserve in Hthm.
  destruct Hthm as (self' & Hrun & _ & Hfn & _ & _ & _ & Hcall).
  exists self'. split; [exact Hrun|]. split; [exact Hfn|apply Hcall].
Defined.

(** *** [_print_signature] *)

Lemma print_signature_first_line_witness :
  TF._list_all_concrete_functions traced
  = [ConcreteFunction ([a; b], [a; b; c])]
  ∧ Printing._print_signature two_lines traced "serve"
    = Return ("* Endpoint 'serve'"
              +:+ String Printing.newline "  Args: inputs")
  ∧ Printing._print_signature two_lines untraced "serve"
    = Raise PyIndexError.
Proof.
  split; [reflexivity|].
  destruct (PrintingFacts.print_signature_first_line two_lines traced
              "serve") as [_ Hlines].
  destruct (Hlines _ _ eq_refl) as [_ Hrest].
  split.
  - apply (Hrest "serve(inputs)" "  Args: inputs"); [reflexivity|].
    cbn. by split_and!.
  - apply (PrintingFacts.print_signature_first_line two_lines untraced
             "serve"). reflexivity.
Defined.

End MoreExamples.
